(** * Metadata tool: the binary metadata-embedding engine

    A shallow embedding of the metadata-writing code of the two entry
    points of the repository,

    - [src/api/index.py]  (serverless variant: bytes in, bytes out), and
    - [src/app.py]        (local variant: files in, files out),

    followed by the properties of the embedding engine that the
    specification states about them.

    Python values are modelled as follows.
    - [str] is a list of Unicode code points (numbers in [N]); [len] is
      [length] and indexing is by code point, as in Python.
    - [bytes] is a list of [Byte.byte].
    - the metadata [dict] is a finite map from keys to [str]; an absent key
      is an absent binding.
    - a raised exception is the [Raise] case of [result].
    - Pillow and piexif are third-party libraries; what their codecs do
      is a field of the class [Imaging], and the pure steps of Pillow that
      build and frame a text chunk are written out in [Png]. *)

From Stdlib Require Import ZArith NArith List String Ascii Lia Bool.
From Stdlib.Strings Require Import Byte.
From stdpp Require Import gmap strings list fin_maps.

Open Scope string_scope.
Open Scope list_scope.

(** ** Python primitives *)

Module Py.

Abbreviation str := (list N) (only parsing).
Abbreviation bytes := (list byte) (only parsing).

(** The empty string literal. *)
Definition blank : string := EmptyString.

(** A source literal as a [str]. Inside the literals of this file a
    backquote stands for the double quote of the Python source (no Python
    literal modelled here has a backquote of its own). *)
Definition lit_char (a : ascii) : N :=
  let c := N_of_ascii a in if (c =? 96)%N then 34%N else c.

Definition lit (s : string) : str := map lit_char (list_ascii_of_string s).

(** ['\n'] *)
Definition nl : N := 10%N.

(** [sep.join(parts)] *)
Fixpoint join (sep : str) (parts : list str) : str :=
  match parts with
  | [] => []
  | [p] => p
  | p :: ps => p ++ sep ++ join sep ps
  end.

(** A multi-line literal, given line by line. *)
Definition tlines (ls : list string) : str := join [nl] (map lit ls).

(** [s.split(sep)] for a one-character separator: every occurrence
    separates, and the result always has at least one element. *)
Fixpoint split (sep : N) (s : str) : list str :=
  match s with
  | [] => [[]]
  | c :: s' =>
      if (c =? sep)%N then [] :: split sep s'
      else match split sep s' with
           | [] => [[c]]
           | t :: ts => (c :: t) :: ts
           end
  end.

(** [c.isspace()], the table of CPython's [_PyUnicode_IsWhitespace]. *)
Definition isspace (c : N) : bool :=
  ((0x09 <=? c) && (c <=? 0x0D) || (0x1C <=? c) && (c <=? 0x20)
   || (c =? 0x85) || (c =? 0xA0) || (c =? 0x1680)
   || (0x2000 <=? c) && (c <=? 0x200A)
   || (c =? 0x2028) || (c =? 0x2029) || (c =? 0x202F) || (c =? 0x205F)
   || (c =? 0x3000))%N.

Fixpoint drop_while {A} (p : A -> bool) (l : list A) : list A :=
  match l with
  | [] => []
  | x :: l' => if p x then drop_while p l' else l
  end.

Definition lstrip (s : str) : str := drop_while isspace s.
Definition rstrip (s : str) : str := rev (drop_while isspace (rev s)).

(** [s.strip()] *)
Definition strip (s : str) : str := rstrip (lstrip s).

(** Truthiness of a string: non-empty. *)
Definition truthy (s : str) : bool :=
  match s with [] => false | _ => true end.

(** Exceptions that the modelled code can meet. *)
Inductive exn : Set :=
  | UnicodeEncodeError   (* str.encode on a lone surrogate *)
  | OverflowError        (* int.to_bytes: int too big to convert *)
  | FileNotFoundError    (* open / shutil on a missing file *)
  | SameFileError        (* shutil.copy2 of a file onto itself *)
  | ImagingError         (* anything raised inside Pillow or piexif *)
  | InvalidContainerError. (* the specification's error for bad framing *)

Inductive result (A : Type) : Type :=
  | Ok (a : A)
  | Raise (e : exn).
Arguments Ok {A} a.
Arguments Raise {A} e.

Definition bind {A B} (r : result A) (k : A -> result B) : result B :=
  match r with
  | Ok a => k a
  | Raise e => Raise e
  end.

Definition of_option {A} (e : exn) (o : option A) : result A :=
  match o with Some a => Ok a | None => Raise e end.

#[global] Instance byte_eq_decision : EqDecision byte := Byte.byte_eq_dec.

(** The byte with value [n mod 256]. *)
Definition byte_of_N (n : N) : byte :=
  default x00%byte (Byte.of_N (n mod 256)%N).

(** UTF-8 encoding of one code point; lone surrogates are refused, as
    [str.encode('utf-8')] does. Code points of a Python string are at
    most [0x10FFFF]. *)
Definition utf8_char (c : N) : result bytes :=
  (if c <? 0x80 then Ok [byte_of_N c]
   else if c <? 0x800 then
     Ok [byte_of_N (0xC0 + c / 64); byte_of_N (0x80 + c mod 64)]
   else if c <? 0x10000 then
     if (0xD800 <=? c) && (c <=? 0xDFFF) then Raise UnicodeEncodeError
     else Ok [byte_of_N (0xE0 + c / 4096);
              byte_of_N (0x80 + (c / 64) mod 64);
              byte_of_N (0x80 + c mod 64)]
   else
     Ok [byte_of_N (0xF0 + c / 262144);
         byte_of_N (0x80 + (c / 4096) mod 64);
         byte_of_N (0x80 + (c / 64) mod 64);
         byte_of_N (0x80 + c mod 64)])%N.

(** [s.encode('utf-8')] *)
Fixpoint encode_utf8 (s : str) : result bytes :=
  match s with
  | [] => Ok []
  | c :: s' =>
      bind (utf8_char c) (fun bc =>
      bind (encode_utf8 s') (fun bs => Ok (bc ++ bs)))
  end.

(** A bytes literal of ASCII text, such as [b'http://...']. *)
Definition blit (s : string) : bytes :=
  map (fun a => byte_of_N (N_of_ascii a)) (list_ascii_of_string s).

(** [n.to_bytes(2, 'big')] *)
Definition to_bytes2_big (n : Z) : result bytes :=
  if ((0 <=? n) && (n <? 65536))%Z then
    Ok [byte_of_N (Z.to_N (n / 256)); byte_of_N (Z.to_N (n mod 256))]
  else Raise OverflowError.

(** [int.from_bytes(b, 'big')] *)
Definition from_bytes_big (b : bytes) : Z :=
  fold_left (fun acc x => (acc * 256 + Z.of_N (Byte.to_N x))%Z) b 0%Z.

(** [len(b)] *)
Definition len {A} (l : list A) : Z := Z.of_nat (length l).

(** [metadata.get(key, dflt)] on a dict of strings. *)
Definition get (metadata : gmap string (list N)) (key : string) (dflt : str) : str :=
  default dflt (metadata !! key).

End Py.

Import Py.

(** [result] is the error monad of the modelled code; stdpp's
    [x ← r; k] sequences two steps and stops at the first [Raise]. *)
#[global] Instance result_ret : MRet result := fun A a => Ok a.
#[global] Instance result_bind : MBind result := fun A B k r => Py.bind r k.

(** ** The XMP packet builder: [create_xmp_packet]

    Both source files define [create_xmp_packet] with the same body; the
    f-string templates differ in one namespace declaration of the
    [rdf:Description] element. The template is cut at its twelve
    interpolation points. *)

Module Xmp.

(** The text before [{title}] in [src/api/index.py]. *)
Definition xmp_head_api : str := tlines [
  "<?xpacket begin=`` id=`W5M0MpCehiHzreSzNTczkc9d`?>";
  "<x:xmpmeta xmlns:x=`adobe:ns:meta/` x:xmptk=`GroundSwell Metadata Tool`>";
  "    <rdf:RDF xmlns:rdf=`http://www.w3.org/1999/02/22-rdf-syntax-ns#`>";
  "        <rdf:Description rdf:about=``";
  "            xmlns:dc=`http://purl.org/dc/elements/1.1/`";
  "            xmlns:xmp=`http://ns.adobe.com/xap/1.0/`";
  "            xmlns:xmpRights=`http://ns.adobe.com/xap/1.0/rights/`";
  "            xmlns:photoshop=`http://ns.adobe.com/photoshop/1.0/`";
  "            xmlns:Iptc4xmpCore=`http://iptc.org/std/Iptc4xmpCore/1.0/xmlns/`>";
  blank;
  "            <dc:title>";
  "                <rdf:Alt>";
  "                    <rdf:li xml:lang=`x-default`>" ].

(** The text before [{title}] in [src/app.py]: one more namespace. *)
Definition xmp_head_app : str := tlines [
  "<?xpacket begin=`` id=`W5M0MpCehiHzreSzNTczkc9d`?>";
  "<x:xmpmeta xmlns:x=`adobe:ns:meta/` x:xmptk=`GroundSwell Metadata Tool`>";
  "    <rdf:RDF xmlns:rdf=`http://www.w3.org/1999/02/22-rdf-syntax-ns#`>";
  "        <rdf:Description rdf:about=``";
  "            xmlns:dc=`http://purl.org/dc/elements/1.1/`";
  "            xmlns:xmp=`http://ns.adobe.com/xap/1.0/`";
  "            xmlns:xmpRights=`http://ns.adobe.com/xap/1.0/rights/`";
  "            xmlns:photoshop=`http://ns.adobe.com/photoshop/1.0/`";
  "            xmlns:Iptc4xmpCore=`http://iptc.org/std/Iptc4xmpCore/1.0/xmlns/`";
  "            xmlns:iptcExt=`http://iptc.org/std/Iptc4xmpExt/2008-02-29/`>";
  blank;
  "            <dc:title>";
  "                <rdf:Alt>";
  "                    <rdf:li xml:lang=`x-default`>" ].

(** Between [{title}] and [{description}]. *)
Definition xmp_part1 : str := tlines [
  "</rdf:li>";
  "                </rdf:Alt>";
  "            </dc:title>";
  blank;
  "            <dc:description>";
  "                <rdf:Alt>";
  "                    <rdf:li xml:lang=`x-default`>" ].

(** Between [{description}] and [{creator}]. *)
Definition xmp_part2 : str := tlines [
  "</rdf:li>";
  "                </rdf:Alt>";
  "            </dc:description>";
  blank;
  "            <dc:creator>";
  "                <rdf:Seq>";
  "                    <rdf:li>" ].

(** Between [{creator}] and [{rights}]. *)
Definition xmp_part3 : str := tlines [
  "</rdf:li>";
  "                </rdf:Seq>";
  "            </dc:creator>";
  blank;
  "            <dc:rights>";
  "                <rdf:Alt>";
  "                    <rdf:li xml:lang=`x-default`>" ].

(** Between [{rights}] and [{keywords_xml}]. *)
Definition xmp_part4 : str := tlines [
  "</rdf:li>";
  "                </rdf:Alt>";
  "            </dc:rights>";
  blank;
  "            <dc:subject>";
  "                <rdf:Bag>";
  blank ].

(** Between [{keywords_xml}] and [{headline}]. *)
Definition xmp_part5 : str := tlines [
  blank;
  "                </rdf:Bag>";
  "            </dc:subject>";
  blank;
  "            <photoshop:Headline>" ].

(** Between [{headline}] and [{credit}]. *)
Definition xmp_part6 : str := tlines [
  "</photoshop:Headline>";
  "            <photoshop:Credit>" ].

(** Between [{credit}] and [{source}]. *)
Definition xmp_part7 : str := tlines [
  "</photoshop:Credit>";
  "            <photoshop:Source>" ].

(** Between [{source}] and [{date_created}]. *)
Definition xmp_part8 : str := tlines [
  "</photoshop:Source>";
  "            <photoshop:DateCreated>" ].

(** Between [{date_created}] and [{category}]. *)
Definition xmp_part9 : str := tlines [
  "</photoshop:DateCreated>";
  "            <photoshop:Category>" ].

(** Between [{category}] and [{xmp_website}]. *)
Definition xmp_part10 : str := tlines [
  "</photoshop:Category>";
  blank;
  "            <xmpRights:Marked>True</xmpRights:Marked>";
  blank;
  "            <Iptc4xmpCore:CreatorContactInfo>";
  "                <rdf:Description>";
  "                    <Iptc4xmpCore:CiUrlWork>" ].

(** Between [{xmp_website}] and [{xmp_phone}]. *)
Definition xmp_part11 : str := tlines [
  "</Iptc4xmpCore:CiUrlWork>";
  "                    <Iptc4xmpCore:CiTelWork>" ].

(** After [{xmp_phone}]: the end of the packet. *)
Definition xmp_part12 : str := tlines [
  "</Iptc4xmpCore:CiTelWork>";
  "                </rdf:Description>";
  "            </Iptc4xmpCore:CreatorContactInfo>";
  blank;
  "        </rdf:Description>";
  "    </rdf:RDF>";
  "</x:xmpmeta>";
  "<?xpacket end=`w`?>" ].

(** [[kw.strip() for kw in subject.split(',') if kw.strip()]] *)
Definition keywords_of (subject : str) : list str :=
  map strip (List.filter (fun kw => truthy (strip kw)) (split 44 subject)).

(** [f'                        <rdf:li>{kw}</rdf:li>'] *)
Definition keyword_entry (kw : str) : str :=
  lit "                        <rdf:li>" ++ kw ++ lit "</rdf:li>".

(** ['\n'.join([... for kw in keywords])] *)
Definition keywords_xml_of (keywords : list str) : str :=
  join [nl] (map keyword_entry keywords).

(** The body of [create_xmp_packet], for the template starting with
    [head]. *)
Definition xmp_packet (head : str) (metadata : gmap string (list N)) : str :=
  let title := get metadata "xmp_title" (lit blank) in
  let description := get metadata "xmp_description" (lit blank) in
  let creator := get metadata "xmp_creator" (lit "GroundSwell") in
  let rights := get metadata "xmp_rights" (lit blank) in
  let subject := get metadata "xmp_subject" (lit blank) in
  let headline := get metadata "xmp_headline" (lit blank) in
  let credit := get metadata "xmp_credit" (lit "GroundSwell") in
  let source := get metadata "xmp_source" (lit "GroundSwell") in
  let date_created := get metadata "xmp_date_created" (lit blank) in
  let category :=
    get metadata "xmp_category" (lit "Business Ownership Platform") in
  let keywords := keywords_of subject in
  let keywords_xml := keywords_xml_of keywords in
  head ++ title ++ xmp_part1 ++ description ++ xmp_part2 ++ creator
    ++ xmp_part3 ++ rights ++ xmp_part4 ++ keywords_xml ++ xmp_part5
    ++ headline ++ xmp_part6 ++ credit ++ xmp_part7 ++ source
    ++ xmp_part8 ++ date_created ++ xmp_part9 ++ category ++ xmp_part10
    ++ get metadata "xmp_website" (lit "www.groundswell.co") ++ xmp_part11
    ++ get metadata "xmp_phone" (lit "435-214-2997") ++ xmp_part12.

End Xmp.

(** ** The chunk-framed container

    Both PNG writers hand their text entries to Pillow's [PngInfo] and save
    with [img.save(..., 'PNG', pnginfo=pnginfo)]. Pillow is not code of
    the repository. The pure steps that build a text chunk and frame a
    chunk are written out here as Pillow has them; the chunks that the
    codec itself writes are a field of [Imaging] below. *)

Module Png.

(** A chunk: its 4-byte type and its data. *)
Record chunk := Chunk { ctype : list byte; cdata : list byte }.

(** A chunk as read from a stream, with the CRC field stored for it. *)
Record stored := Stored { schunk : chunk; scrc : N }.

(** The CRC-32 of the format ([zlib.crc32], called by Pillow's [_crc32]),
    bit by bit: one shift of the register. *)
Definition crc_step (c : N) : N :=
  if N.testbit c 0 then N.lxor (N.shiftr c 1) 0xEDB88320 else N.shiftr c 1.

(** One byte of input of the CRC-32. *)
Definition crc_byte (c : N) (b : byte) : N :=
  Nat.iter 8 crc_step (N.lxor c (Byte.to_N b)).

(** The CRC-32 of a byte string. *)
Definition crc32 (data : list byte) : N :=
  N.lxor (fold_left crc_byte data 0xFFFFFFFF%N) 0xFFFFFFFF.

(** [o32(n)]: a 4-byte big-endian field. *)
Definition be32 (n : N) : list byte :=
  [byte_of_N (n / 16777216); byte_of_N (n / 65536);
   byte_of_N (n / 256); byte_of_N n]%N.

(** The number that a big-endian field holds. *)
Definition of_be (b : list byte) : N :=
  fold_left (fun acc x => (acc * 256 + Byte.to_N x)%N) b 0%N.

(** The framing of a chunk: the length of its data, its type, its data,
    a CRC field. *)
Definition frame (c : chunk) (crc : N) : list byte :=
  be32 (N.of_nat (length (cdata c))) ++ ctype c ++ cdata c ++ be32 crc.

(** [putchunk(fp, cid, data)]: the chunk framed with the CRC-32 of its
    type and data. *)
Definition write_chunk (c : chunk) : list byte :=
  frame c (crc32 (ctype c ++ cdata c)).

(** A chunk framed with the CRC field that was read for it. *)
Definition write_stored (s : stored) : list byte := frame (schunk s) (scrc s).

(** The CRC field stored for a chunk is the CRC-32 of its type and data. *)
Definition crc_valid (s : stored) : bool :=
  (scrc s =? crc32 (ctype (schunk s) ++ cdata (schunk s)))%N.

(** [_MAGIC], the 8-byte signature of the container. *)
Definition signature : list byte :=
  [x89; x50; x4e; x47; x0d; x0a; x1a; x0a]%byte.

(** The chunk types that the embed is concerned with. *)
Definition IHDR : list byte := blit "IHDR".
Definition IDAT : list byte := blit "IDAT".
Definition IEND : list byte := blit "IEND".
Definition tEXt : list byte := blit "tEXt".
Definition iTXt : list byte := blit "iTXt".

(** Equality of byte strings. *)
Definition bytes_eqb (a b : list byte) : bool :=
  bool_decide (a = b).

(** Reading the chunk sequence of a stream (after the signature). The
    fuel bounds the number of chunks; the length of the stream is
    enough. *)
Fixpoint read_chunks (fuel : nat) (b : list byte) : option (list stored) :=
  match fuel with
  | O => match b with [] => Some [] | _ => None end
  | S fuel' =>
      match b with
      | [] => Some []
      | _ =>
          let n := N.to_nat (of_be (take 4 b)) in
          if (length b <? 12 + n)%nat then None
          else
            let c := Chunk (take 4 (drop 4 b)) (take n (drop 8 b)) in
            let crc := of_be (take 4 (drop (8 + n) b)) in
            match read_chunks fuel' (drop (12 + n) b) with
            | Some cs => Some (Stored c crc :: cs)
            | None => None
            end
      end
  end.

(** Reading a whole stream: the signature, then the chunks. *)
Definition read_png (b : list byte) : option (list stored) :=
  if bytes_eqb (take 8 b) signature
  then read_chunks (length b) (drop 8 b)
  else None.

(** A chunk that the framing can represent: a 4-byte type and a data
    length that fits its 4-byte field. *)
Definition fits (c : chunk) : bool :=
  (length (ctype c) =? 4)%nat
  && (N.of_nat (length (cdata c)) <? 4294967296)%N.

(** A stored chunk that the framing can represent, with a CRC that fits
    its 4-byte field. *)
Definition well_framed (s : stored) : Prop :=
  length (ctype (schunk s)) = 4
  /\ (N.of_nat (length (cdata (schunk s))) < 4294967296)%N
  /\ (scrc s < 4294967296)%N.

(** A newly written chunk, as it is read back. *)
Definition stored_of (c : chunk) : stored :=
  Stored c (crc32 (ctype c ++ cdata c)).

(** [value.encode('latin-1', 'strict')]; [None] for
    [UnicodeEncodeError]. *)
Definition encode_latin1 (value : list N) : option (list byte) :=
  if forallb (fun c => (c <? 256)%N) value then Some (map byte_of_N value)
  else None.

(** The chunk that [PngInfo.add_text(key, value)] builds for a [str]
    value and an ASCII keyword: a [tEXt] chunk with payload keyword + NUL
    + value when Latin-1 can encode the value; otherwise the [iTXt] chunk
    of [add_itxt], with no compression, an empty language tag and an empty
    translated keyword, the value in UTF-8. *)
Definition text_chunk (key : string) (value : list N) : result chunk :=
  match encode_latin1 value with
  | Some v => Ok (Chunk tEXt (blit key ++ [x00%byte] ++ v))
  | None =>
      v ← encode_utf8 value;
      Ok (Chunk iTXt (blit key ++ [x00; x00; x00; x00; x00]%byte ++ v))
  end.

(** [pnginfo.add_text(key, value)]; [pnginfo] is the list of the chunks
    added so far. *)
Definition add_text (pnginfo : list chunk) (key : string)
    (value : list N) : result (list chunk) :=
  c ← text_chunk key value;
  Ok (pnginfo ++ [c]).

(** The stream of a chunk sequence: the signature, then the chunks. *)
Definition serialize (chunks : list chunk) : list byte :=
  signature ++ concat (map write_chunk chunks).

End Png.

(** ** What the code takes from libraries *)

(** Library functions of the Python runtime whose definition is a table
    of the Unicode database or depends on the platform. *)
Class Runtime := {
  (** [Path(name).suffix] *)
  path_suffix : list N -> list N;
  (** [s.lower()] *)
  str_lower : list N -> list N;
  (** [c.isalnum()] for a code point outside ASCII *)
  unicode_isalnum : N -> bool
}.

(** [c.isalnum()]: for ASCII the digits and the letters. *)
Definition isalnum {RT : Runtime} (c : N) : bool :=
  (if c <? 128 then
     (48 <=? c) && (c <=? 57) || (65 <=? c) && (c <=? 90)
     || (97 <=? c) && (c <=? 122)
   else unicode_isalnum c)%N.

(** The [exif_dict] of piexif: IFD name to tag number to value. The
    [thumbnail] entry, which the code never touches, is left out. *)
Abbreviation exif_dict := (gmap string (gmap Z (list byte))) (only parsing).

(** Pillow and piexif. [None] stands for any exception of the library. *)
Class Imaging := {
  image : Type;
  (** [Image.open(...)] on the bytes of a file *)
  Image_open : list byte -> option image;
  (** [img.info.get('exif', b'')] *)
  info_exif : image -> list byte;
  (** [piexif.load(data)] *)
  piexif_load : list byte -> option exif_dict;
  (** [piexif.dump(exif_dict)] *)
  piexif_dump : exif_dict -> option (list byte);
  (** [img.save(out, 'JPEG', exif=exif_bytes, quality=95)], the bytes
      written to [out] *)
  save_jpeg : image -> list byte -> option (list byte);
  (** [img.save(out, 'PNG', pnginfo=pnginfo)]: the chunks that the codec
      writes before those of [pnginfo] (the header chunk first) and the
      chunks that it writes after them (image data, end chunk) *)
  save_png : image -> option (list Png.chunk * list Png.chunk);
  (** What a [img.save(path, format, ...)] that raises leaves at [path],
      given what was there: Pillow opens the file for writing before it
      encodes the image *)
  save_leftover : image -> string -> option (list byte) -> option (list byte)
}.

(** Tag numbers of [piexif.ImageIFD] and [piexif.ExifIFD]. *)
Definition ImageIFD_Artist : Z := 315.
Definition ImageIFD_Copyright : Z := 33432.
Definition ImageIFD_ImageDescription : Z := 270.
Definition ExifIFD_UserComment : Z := 37510.

(** The dictionary used when [piexif.load] raises. *)
Definition exif_fallback : exif_dict :=
  <["0th" := ∅]> (<["Exif" := ∅]> (<["GPS" := ∅]> (<["1st" := ∅]> ∅))).

(** [exif_dict[ifd][tag] = value] *)
Definition set_tag (ifd : string) (tag : Z) (value : list byte)
    (d : exif_dict) : exif_dict :=
  <[ifd := <[tag := value]> (default ∅ (d !! ifd))]> d.

(** ** The JPEG application segment, common to both files *)

Module Jpeg.

(** [b'\xff\xd8'], the start-of-image signature. *)
Definition soi : list byte := [xff; xd8]%byte.

(** [xmp_marker = b'\xff\xe1'] *)
Definition xmp_marker : list byte := [xff; xe1]%byte.

(** [xmp_header = b'http://ns.adobe.com/xap/1.0/\x00'] *)
Definition xmp_header : list byte :=
  blit "http://ns.adobe.com/xap/1.0/" ++ [x00%byte].

(** The four statements that both files share:
    [[
    xmp_bytes = xmp_data.encode('utf-8')
    segment_length = 2 + len(xmp_header) + len(xmp_bytes)
    length_bytes = segment_length.to_bytes(2, 'big')
    xmp_segment = xmp_marker + length_bytes + xmp_header + xmp_bytes
    ]] *)
Definition xmp_segment (xmp_data : list N) : result (list byte) :=
  xmp_bytes ← encode_utf8 xmp_data;
  let segment_length := (2 + len xmp_header + len xmp_bytes)%Z in
  length_bytes ← to_bytes2_big segment_length;
  Ok (xmp_marker ++ length_bytes ++ xmp_header ++ xmp_bytes).

(** The value of [segment_length], when the packet can be encoded. *)
Definition segment_length (xmp_data : list N) : result Z :=
  xmp_bytes ← encode_utf8 xmp_data;
  Ok (2 + len xmp_header + len xmp_bytes)%Z.

(** [data[:2] + xmp_segment + data[2:]] *)
Definition splice (data xmp_segment : list byte) : list byte :=
  take 2 data ++ xmp_segment ++ drop 2 data.

(** The EXIF part of both JPEG writers: the three 0th-IFD tags and the
    user comment are set on the dictionary loaded from the image. *)
Definition exif_bytes_for {IM : Imaging} (img : image)
    (metadata : gmap string (list N)) : result (list byte) :=
  let exif_dict := default exif_fallback (piexif_load (info_exif img)) in
  let artist := get metadata "exif_artist" (lit "GroundSwell") in
  let copyright_text := get metadata "exif_copyright" (lit blank) in
  let description := get metadata "exif_description" (lit blank) in
  artist_b ← encode_utf8 artist;
  let exif_dict := set_tag "0th" ImageIFD_Artist artist_b exif_dict in
  copyright_b ← encode_utf8 copyright_text;
  let exif_dict := set_tag "0th" ImageIFD_Copyright copyright_b exif_dict in
  description_b ← encode_utf8 description;
  let exif_dict :=
    set_tag "0th" ImageIFD_ImageDescription description_b exif_dict in
  let user_comment := get metadata "exif_user_comment" (lit blank) in
  user_comment_b ← encode_utf8 user_comment;
  let user_comment_bytes :=
    blit "ASCII" ++ [x00; x00; x00]%byte ++ user_comment_b in
  let exif_dict :=
    set_tag "Exif" ExifIFD_UserComment user_comment_bytes exif_dict in
  of_option ImagingError (piexif_dump exif_dict).

End Jpeg.

(** ** The output file name of [save_metadata] (both files)

    [safe_title] is the characters of the title that satisfy
    [c.isalnum() or c in ' -_'], joined, then [.replace(' ', '_')[:50]]. *)

(** [c.isalnum() or c in ' -_'] *)
Definition kept {RT : Runtime} (c : N) : bool :=
  isalnum c || bool_decide (c ∈ lit " -_").

Definition safe_title_of {RT : Runtime} (title : list N) : list N :=
  take 50
    (map (fun c => if (c =? 32)%N then 95%N else c)
       (flat_map (fun c => if kept c then [c] else []) title)).

(** [metadata.get('xmp_title', metadata.get('iptc_object_name', 'image'))] *)
Definition title_of (metadata : gmap string (list N)) : list N :=
  get metadata "xmp_title" (get metadata "iptc_object_name" (lit "image")).

(** The supported extensions of the two dispatchers. *)
Definition is_jpeg_ext (ext : list N) : bool :=
  bool_decide (ext ∈ [lit ".jpg"; lit ".jpeg"]).

Definition is_png_ext (ext : list N) : bool :=
  bool_decide (ext = lit ".png").

(** The ten text entries of both PNG writers, in the order of the
    [pnginfo.add_text] calls, followed by the XMP packet. *)
Definition png_entries (xmp_data : list N)
    (metadata : gmap string (list N)) : result (list Png.chunk) :=
  let pnginfo := [] in
  pnginfo ← Png.add_text pnginfo "Title"
              (get metadata "xmp_title" (lit blank));
  pnginfo ← Png.add_text pnginfo "Description"
              (get metadata "xmp_description" (lit blank));
  pnginfo ← Png.add_text pnginfo "Author"
              (get metadata "exif_artist" (lit "GroundSwell"));
  pnginfo ← Png.add_text pnginfo "Copyright"
              (get metadata "exif_copyright" (lit blank));
  pnginfo ← Png.add_text pnginfo "Comment"
              (get metadata "exif_user_comment" (lit blank));
  pnginfo ← Png.add_text pnginfo "Keywords"
              (get metadata "iptc_keywords" (lit blank));
  pnginfo ← Png.add_text pnginfo "Headline"
              (get metadata "iptc_headline" (lit blank));
  pnginfo ← Png.add_text pnginfo "Credit"
              (get metadata "iptc_credit" (lit "GroundSwell"));
  pnginfo ← Png.add_text pnginfo "Source"
              (get metadata "xmp_source" (lit "GroundSwell"));
  pnginfo ← Png.add_text pnginfo "Creation Time"
              (get metadata "exif_create_date" (lit blank));
  Png.add_text pnginfo "XML:com.adobe.xmp" xmp_data.

(** [img.save(out, 'PNG', pnginfo=pnginfo)], the bytes written to [out]:
    the signature, the chunks that the codec writes first, the chunks of
    [pnginfo] in the order they were added, the remaining chunks of the
    codec. *)
Definition png_save {IM : Imaging} (img : image)
    (pnginfo : list Png.chunk) : option (list byte) :=
  '(first, remaining) ← save_png img;
  if forallb Png.fits pnginfo
  then Some (Png.serialize (first ++ pnginfo ++ remaining))
  else None.

(** ** [src/api/index.py]: bytes in, bytes out *)

Module Api.
Section Api.
Context {RT : Runtime} {IM : Imaging}.

Definition create_xmp_packet (metadata : gmap string (list N)) : list N :=
  Xmp.xmp_packet Xmp.xmp_head_api metadata.

Definition process_jpeg_metadata (image_data : list byte)
    (metadata : gmap string (list N)) : result (list byte) :=
  img ← of_option ImagingError (Image_open image_data);
  exif_bytes ← Jpeg.exif_bytes_for img metadata;
  jpeg_data ← of_option ImagingError (save_jpeg img exif_bytes);
  let xmp_data := create_xmp_packet metadata in
  xmp_segment ← Jpeg.xmp_segment xmp_data;
  let final_data := Jpeg.splice jpeg_data xmp_segment in
  Ok final_data.

Definition process_png_metadata (image_data : list byte)
    (metadata : gmap string (list N)) : result (list byte) :=
  img ← of_option ImagingError (Image_open image_data);
  pnginfo ← png_entries (create_xmp_packet metadata) metadata;
  of_option ImagingError (png_save img pnginfo).

Definition process_image_metadata (image_data : list byte)
    (filename : list N) (metadata : gmap string (list N))
    : result (list byte) :=
  let ext := str_lower (path_suffix filename) in
  if is_jpeg_ext ext then process_jpeg_metadata image_data metadata
  else if is_png_ext ext then process_png_metadata image_data metadata
  else Ok image_data.

(** The file name computed by [save_metadata]:
    [f"{safe_title}_groundswell{ext}"]. *)
Definition safe_title (metadata : gmap string (list N)) : list N :=
  safe_title_of (title_of metadata).

Definition output_filename (filename : list N)
    (metadata : gmap string (list N)) : list N :=
  safe_title metadata ++ lit "_groundswell" ++ path_suffix filename.

End Api.
End Api.

(** ** [src/app.py]: files in, files out

    The file system is a finite map from paths to contents; every
    function takes the file system and returns the new one. *)

Module App.
Section App.
Context {RT : Runtime} {IM : Imaging}.

Definition create_xmp_packet (metadata : gmap string (list N)) : list N :=
  Xmp.xmp_packet Xmp.xmp_head_app metadata.

(** The body of the [try] of [embed_xmp_in_jpeg]. *)
Definition embed_xmp_in_jpeg_try (fs : gmap (list N) (list byte))
    (file_path : list N) (xmp_data : list N)
    : result (bool * gmap (list N) (list byte)) :=
  data ← of_option FileNotFoundError (fs !! file_path);
  if bool_decide (take 2 data ≠ Jpeg.soi) then Ok (false, fs)
  else
    xmp_segment ← Jpeg.xmp_segment xmp_data;
    let new_data := Jpeg.splice data xmp_segment in
    Ok (true, <[file_path := new_data]> fs).

(** [except Exception: ... return False] *)
Definition embed_xmp_in_jpeg (fs : gmap (list N) (list byte))
    (file_path : list N) (xmp_data : list N)
    : bool * gmap (list N) (list byte) :=
  match embed_xmp_in_jpeg_try fs file_path xmp_data with
  | Ok r => r
  | Raise _ => (false, fs)
  end.

(** The [try] of [write_metadata_to_jpeg]: the file system that it
    leaves, and the value it returns or the exception that its [except]
    clause catches. The value returned by [embed_xmp_in_jpeg] is dropped,
    as in the source. When [img.save] raises, the output path holds what
    the library left there. *)
Definition write_metadata_to_jpeg_try (fs : gmap (list N) (list byte))
    (file_path output_path : list N) (metadata : gmap string (list N))
    : gmap (list N) (list byte) * result bool :=
  match
    data ← of_option FileNotFoundError (fs !! file_path);
    img ← of_option ImagingError (Image_open data);
    exif_bytes ← Jpeg.exif_bytes_for img metadata;
    Ok (img, exif_bytes)
  with
  | Raise e => (fs, Raise e)
  | Ok (img, exif_bytes) =>
      let xmp_data := create_xmp_packet metadata in
      match save_jpeg img exif_bytes with
      | None =>
          (partial_alter (save_leftover img "JPEG") output_path fs,
           Raise ImagingError)
      | Some jpeg_data =>
          let fs := <[output_path := jpeg_data]> fs in
          let fs := snd (embed_xmp_in_jpeg fs output_path xmp_data) in
          (fs, Ok true)
      end
  end.

(** [except Exception: ... return False] *)
Definition write_metadata_to_jpeg (fs : gmap (list N) (list byte))
    (file_path output_path : list N) (metadata : gmap string (list N))
    : bool * gmap (list N) (list byte) :=
  match write_metadata_to_jpeg_try fs file_path output_path metadata with
  | (fs', Ok r) => (r, fs')
  | (fs', Raise _) => (false, fs')
  end.

(** The [try] of [write_metadata_to_png], in the same way. *)
Definition write_metadata_to_png_try (fs : gmap (list N) (list byte))
    (file_path output_path : list N) (metadata : gmap string (list N))
    : gmap (list N) (list byte) * result bool :=
  match
    data ← of_option FileNotFoundError (fs !! file_path);
    img ← of_option ImagingError (Image_open data);
    pnginfo ← png_entries (create_xmp_packet metadata) metadata;
    Ok (img, pnginfo)
  with
  | Raise e => (fs, Raise e)
  | Ok (img, pnginfo) =>
      match png_save img pnginfo with
      | None =>
          (partial_alter (save_leftover img "PNG") output_path fs,
           Raise ImagingError)
      | Some png_data => (<[output_path := png_data]> fs, Ok true)
      end
  end.

(** [except Exception: ... return False] *)
Definition write_metadata_to_png (fs : gmap (list N) (list byte))
    (file_path output_path : list N) (metadata : gmap string (list N))
    : bool * gmap (list N) (list byte) :=
  match write_metadata_to_png_try fs file_path output_path metadata with
  | (fs', Ok r) => (r, fs')
  | (fs', Raise _) => (false, fs')
  end.

(** [shutil.copy2(src, dst)] *)
Definition copy2 (fs : gmap (list N) (list byte)) (src dst : list N)
    : result (gmap (list N) (list byte)) :=
  data ← of_option FileNotFoundError (fs !! src);
  if bool_decide (src = dst) then Raise SameFileError
  else Ok (<[dst := data]> fs).

Definition write_metadata_to_image (fs : gmap (list N) (list byte))
    (file_path output_path : list N) (metadata : gmap string (list N))
    : result (bool * gmap (list N) (list byte)) :=
  let ext := str_lower (path_suffix file_path) in
  if is_jpeg_ext ext then
    Ok (write_metadata_to_jpeg fs file_path output_path metadata)
  else if is_png_ext ext then
    Ok (write_metadata_to_png fs file_path output_path metadata)
  else
    fs ← copy2 fs file_path output_path;
    Ok (false, fs).

(** The file name computed by [save_metadata]:
    [f"{file_id}_{safe_title}{ext}"] with [ext = upload_path.suffix]. *)
Definition safe_title (metadata : gmap string (list N)) : list N :=
  safe_title_of (title_of metadata).

Definition output_filename (file_id upload_path : list N)
    (metadata : gmap string (list N)) : list N :=
  file_id ++ lit "_" ++ safe_title metadata ++ path_suffix upload_path.

End App.
End App.

(** ** Observations on the outputs

    Searches in the text of a built packet and the segment table of a
    written stream, on which the stated properties are expressed. They
    are not code of the repository, and none of them is told where the
    record's values are. *)

Module Xml.

(** The less-than sign, which opens every tag. *)
Definition lt : N := 60.

(** [pat] is a prefix of [s]. *)
Fixpoint prefixb (pat s : list N) : bool :=
  match pat, s with
  | [], _ => true
  | p :: pat', c :: s' => (p =? c)%N && prefixb pat' s'
  | _ :: _, [] => false
  end.

(** The text before the first occurrence of [pat] in [s]. *)
Fixpoint before_first (pat s : list N) : option (list N) :=
  match s with
  | [] => if prefixb pat [] then Some [] else None
  | c :: s' =>
      if prefixb pat s then Some []
      else t ← before_first pat s'; Some (c :: t)
  end.

(** The text after the first occurrence of [pat] in [s]. *)
Fixpoint after_first (pat s : list N) : option (list N) :=
  match s with
  | [] => if prefixb pat [] then Some [] else None
  | c :: s' =>
      if prefixb pat s then Some (drop (length pat) s)
      else after_first pat s'
  end.

(** The text between the first occurrence of [opening] and the next
    occurrence of [closing]. *)
Definition between (opening closing s : list N) : option (list N) :=
  rest ← after_first opening s;
  before_first closing rest.

(** The number of places of [s] where [pat] occurs. *)
Fixpoint count_sub (pat s : list N) : nat :=
  match s with
  | [] => 0
  | c :: s' => (if prefixb pat s then 1 else 0) + count_sub pat s'
  end.

(** Two checks that a search for [pat] can be settled at a place of a
    text without looking at what follows the text. [clash pat s]: [pat]
    and [s] differ at a position that both have. [decided pat l]: at
    every place of [l], [pat] either clashes with the rest of [l] or
    occurs within it. *)
Fixpoint clash (pat s : list N) : bool :=
  match pat, s with
  | p :: pat', c :: s' => negb (p =? c)%N || clash pat' s'
  | _, _ => false
  end.

Fixpoint decided (pat l : list N) : bool :=
  match l with
  | [] => true
  | c :: l' => (clash pat l || prefixb pat l) && decided pat l'
  end.

(** The content of the first Bag container of a packet, and the number
    of list entries in it. *)
Definition bag_text (packet : list N) : option (list N) :=
  between (lit "<rdf:Bag>") (lit "</rdf:Bag>") packet.

Definition bag_entries (packet : list N) : option nat :=
  count_sub (lit "<rdf:li>") <$> bag_text packet.

End Xml.

(** The packet as the interleaving of the template parts with the twelve
    interpolated values. *)
Module Layout.

Fixpoint weave (parts values : list (list N)) : list N :=
  match parts, values with
  | p :: ps, v :: vs => p ++ v ++ weave ps vs
  | p :: _, [] => p
  | [], _ => []
  end.

Definition parts (head : list N) : list (list N) :=
  [head; Xmp.xmp_part1; Xmp.xmp_part2; Xmp.xmp_part3; Xmp.xmp_part4;
   Xmp.xmp_part5; Xmp.xmp_part6; Xmp.xmp_part7; Xmp.xmp_part8;
   Xmp.xmp_part9; Xmp.xmp_part10; Xmp.xmp_part11; Xmp.xmp_part12].

(** The twelve interpolated values, in template order; the fifth is the
    rendered keyword list. *)
Definition values (metadata : gmap string (list N)) : list (list N) :=
  [get metadata "xmp_title" (lit blank);
   get metadata "xmp_description" (lit blank);
   get metadata "xmp_creator" (lit "GroundSwell");
   get metadata "xmp_rights" (lit blank);
   Xmp.keywords_xml_of
     (Xmp.keywords_of (get metadata "xmp_subject" (lit blank)));
   get metadata "xmp_headline" (lit blank);
   get metadata "xmp_credit" (lit "GroundSwell");
   get metadata "xmp_source" (lit "GroundSwell");
   get metadata "xmp_date_created" (lit blank);
   get metadata "xmp_category" (lit "Business Ownership Platform");
   get metadata "xmp_website" (lit "www.groundswell.co");
   get metadata "xmp_phone" (lit "435-214-2997")].

End Layout.

(** The segment table of a marker-framed stream: the marker segments
    after the start signature, up to the first scan-data marker. *)
Module Scan.

(** The marker of scan data, [FF DA]. *)
Definition sos : byte := xda%byte.

(** Each segment is a marker code and a payload (the bytes that the
    length field counts, less the length field itself). The fuel bounds
    the number of segments; the length of the stream is enough. *)
Fixpoint segments_from (fuel : nat) (b : list byte)
    : list (byte * list byte) :=
  match fuel with
  | O => []
  | S fuel' =>
      match b with
      | m0 :: m :: l1 :: l2 :: rest =>
          if bool_decide (m0 = xff%byte) && negb (bool_decide (m = sos)) then
            let n := Z.to_nat (from_bytes_big [l1; l2]) in
            if (n <? 2)%nat || (length rest <? n - 2)%nat then []
            else (m, take (n - 2) rest)
                   :: segments_from fuel' (drop (n - 2) rest)
          else []
      | _ => []
      end
  end.

Definition segments (data : list byte) : list (byte * list byte) :=
  segments_from (length data) (drop 2 data).

(** An application segment of the XMP kind: marker [FF E1] and a payload
    that starts with the namespace identifier. *)
Definition is_xmp (s : byte * list byte) : bool :=
  bool_decide (fst s = xe1%byte)
  && bool_decide (take (length Jpeg.xmp_header) (snd s) = Jpeg.xmp_header).

Definition xmp_count (data : list byte) : nat :=
  length (List.filter is_xmp (segments data)).

End Scan.

(** ** Test doubles for the libraries

    Small stand-ins on which the statements below are exercised. *)

Module Double.

(** ASCII lower-casing. *)
Definition lower_char (c : N) : N :=
  (if (65 <=? c) && (c <=? 90) then c + 32 else c)%N.

(** The suffix of a plain file name: from its last dot on, when the dot
    is neither the first nor the last character. *)
Fixpoint last_dot (s : list N) : option (list N) :=
  match s with
  | [] => None
  | c :: s' =>
      match last_dot s' with
      | Some t => Some t
      | None => if (c =? 46)%N then Some s else None
      end
  end.

Definition suffix (name : list N) : list N :=
  match name with
  | [] => []
  | c :: rest =>
      match last_dot rest with
      | Some (d :: e :: t) => d :: e :: t
      | _ => []
      end
  end.

#[export] Instance runtime : Runtime := {|
  path_suffix := suffix;
  str_lower := map lower_char;
  unicode_isalnum := fun _ => false
|}.

(** An imaging library that identifies a stream by its content, as a
    decoder does: it opens a stream that starts with the JPEG or the PNG
    signature, and writes a JPEG stream made of the start signature, one
    Exif application segment and the end marker. *)
Definition opens (data : list byte) : option (list byte) :=
  if bool_decide (take 2 data = Jpeg.soi)
     || bool_decide (take 8 data = Png.signature)
  then Some data else None.

Definition exif_segment (exif : list byte) : list byte :=
  [xff; xe1]%byte
    ++ default [] (match to_bytes2_big (2 + len exif) with
                   | Ok b => Some b
                   | Raise _ => None
                   end)
    ++ exif.

Definition writes_jpeg (img exif : list byte) : option (list byte) :=
  Some (Jpeg.soi ++ exif_segment exif ++ [xff; xd9]%byte).

(** The tags of the 0th IFD, one after the other. *)
Definition dumps (d : exif_dict) : option (list byte) :=
  Some (concat (map snd (map_to_list (default ∅ (d !! "0th"))))).

(** The header chunk of an image of one pixel: width 1, height 1, 8 bits
    per sample, colour type 2. *)
Definition pixel_header : Png.chunk :=
  Png.Chunk Png.IHDR
    [x00; x00; x00; x01; x00; x00; x00; x01; x08; x02; x00; x00; x00]%byte.

(** Its image data: one scan line with one red pixel, in one stored
    block of a zlib stream. *)
Definition pixel_data : Png.chunk :=
  Png.Chunk Png.IDAT
    [x78; x01; x01; x04; x00; xfb; xff; x00; xff; x00; x00;
     x03; x01; x01; x00]%byte.

(** The codec writes the header chunk first, and the image data and the
    end chunk last. *)
Definition writes_png (img : list byte)
    : option (list Png.chunk * list Png.chunk) :=
  Some ([pixel_header], [pixel_data; Png.Chunk Png.IEND []]).

#[export] Instance imaging : Imaging := {|
  image := list byte;
  Image_open := opens;
  info_exif := fun _ => [];
  piexif_load := fun _ => None;
  piexif_dump := dumps;
  save_jpeg := writes_jpeg;
  save_png := writes_png;
  save_leftover := fun _ _ _ => None
|}.

(** A stream of the marker-framed family, one grey pixel: start
    signature, quantisation table, frame header, two Huffman tables of one
    code each, scan header, one byte of scan data, end marker. *)
Definition tiny_jpeg : list byte :=
  ([xff; xd8]
   ++ [xff; xdb; x00; x43; x00] ++ repeat x01 64
   ++ [xff; xc0; x00; x0b; x08; x00; x01; x00; x01; x01; x01; x11; x00]
   ++ [xff; xc4; x00; x14; x00; x01] ++ repeat x00 15 ++ [x00]
   ++ [xff; xc4; x00; x14; x10; x01] ++ repeat x00 15 ++ [x00]
   ++ [xff; xda; x00; x08; x01; x01; x00; x00; x3f; x00]
   ++ [x3f]
   ++ [xff; xd9])%byte.

(** A stream of the chunked family, one red pixel: signature, header
    chunk, one image-data chunk, end chunk. *)
Definition tiny_png : list byte :=
  Png.serialize [pixel_header; pixel_data; Png.Chunk Png.IEND []].

End Double.

(** ** Inputs and statements used below *)

(** The keys that [create_xmp_packet] reads, each with the default of its
    [metadata.get]. *)
Definition xmp_defaults : list (string * list N) :=
  [("xmp_title", lit blank);
   ("xmp_description", lit blank);
   ("xmp_creator", lit "GroundSwell");
   ("xmp_rights", lit blank);
   ("xmp_subject", lit blank);
   ("xmp_headline", lit blank);
   ("xmp_credit", lit "GroundSwell");
   ("xmp_source", lit "GroundSwell");
   ("xmp_date_created", lit blank);
   ("xmp_category", lit "Business Ownership Platform");
   ("xmp_website", lit "www.groundswell.co");
   ("xmp_phone", lit "435-214-2997")].

(** The keywords of the ten textual chunks, in declaration order, and
    for each the key of the record that it takes its value from, with the
    default of that key. *)
Definition png_keywords : list string :=
  ["Title"; "Description"; "Author"; "Copyright"; "Comment"; "Keywords";
   "Headline"; "Credit"; "Source"; "Creation Time"].

Definition png_sources : list (string * list N) :=
  [("xmp_title", lit blank);
   ("xmp_description", lit blank);
   ("exif_artist", lit "GroundSwell");
   ("exif_copyright", lit blank);
   ("exif_user_comment", lit blank);
   ("iptc_keywords", lit blank);
   ("iptc_headline", lit blank);
   ("iptc_credit", lit "GroundSwell");
   ("xmp_source", lit "GroundSwell");
   ("exif_create_date", lit blank)].

(** The keyword of the chunk that carries the XMP packet. *)
Definition xmp_keyword : string := "XML:com.adobe.xmp".

(** The chunks that a PNG writer asks for, one per [add_text] call: the
    ten textual chunks in declaration order, then the chunk of the
    packet. *)
Definition eleven_chunks (xmp_data : list N)
    (metadata : gmap string (list N)) : list (result Png.chunk) :=
  zip_with
    (fun key source =>
       Png.text_chunk key (get metadata (fst source) (snd source)))
    png_keywords png_sources
  ++ [Png.text_chunk xmp_keyword xmp_data].

(** The results of a list of steps, up to the first that raises. *)
Fixpoint collect {A} (steps : list (result A)) : result (list A) :=
  match steps with
  | [] => Ok []
  | r :: steps' => a ← r; l ← collect steps'; Ok (a :: l)
  end.

(** What is read back from a stream [out] in which the text chunks
    [chunks] were written between the chunks [first] and [remaining] of
    the codec: the stream reads as these chunks in this order, each new
    chunk is stored with the CRC-32 of its type and data, each is a
    [tEXt] or an [iTXt] chunk, and every image-data chunk comes after the
    new chunks when the codec has written none before them. *)
Definition chunks_written (first chunks remaining : list Png.chunk)
    (out : list byte) : Prop :=
  Png.read_png out
    = Some (map Png.stored_of (first ++ chunks ++ remaining))
  /\ Forall (fun c => Png.crc_valid (Png.stored_of c) = true) chunks
  /\ Forall (fun c => Png.ctype c = Png.tEXt \/ Png.ctype c = Png.iTXt) chunks
  /\ (Forall (fun c => Png.ctype c <> Png.IDAT) first ->
      forall i s,
        map Png.stored_of (first ++ chunks ++ remaining) !! i = Some s ->
        Png.ctype (Png.schunk s) = Png.IDAT ->
        length first + length chunks <= i).

(** The layout of a stream [out] in which the XMP segment of the packet
    bytes [xmp_bytes] follows the start signature, [rest] being what
    follows the segment. *)
Definition segment_layout (rest xmp_bytes out : list byte) : Prop :=
  take 2 out = Jpeg.soi
  /\ take 2 (drop 2 out) = Jpeg.xmp_marker
  /\ from_bytes_big (take 2 (drop 4 out))
     = (2 + len Jpeg.xmp_header + len xmp_bytes)%Z
  /\ drop 6 out = Jpeg.xmp_header ++ xmp_bytes ++ rest.

(** The element of each field in the template of [create_xmp_packet], in
    template order: the key of the record, the text that stands right
    before the value and the text that follows it. For the keyword list
    the value is the rendered list of entries. *)
Definition xmp_elements : list (string * (list N * list N)) :=
  [("xmp_title",
    (tlines ["<dc:title>"; "                <rdf:Alt>";
             "                    <rdf:li xml:lang=`x-default`>"],
     tlines ["</rdf:li>"; "                </rdf:Alt>";
             "            </dc:title>"]));
   ("xmp_description",
    (tlines ["<dc:description>"; "                <rdf:Alt>";
             "                    <rdf:li xml:lang=`x-default`>"],
     tlines ["</rdf:li>"; "                </rdf:Alt>";
             "            </dc:description>"]));
   ("xmp_creator",
    (tlines ["<dc:creator>"; "                <rdf:Seq>";
             "                    <rdf:li>"],
     tlines ["</rdf:li>"; "                </rdf:Seq>";
             "            </dc:creator>"]));
   ("xmp_rights",
    (tlines ["<dc:rights>"; "                <rdf:Alt>";
             "                    <rdf:li xml:lang=`x-default`>"],
     tlines ["</rdf:li>"; "                </rdf:Alt>";
             "            </dc:rights>"]));
   ("xmp_subject",
    (tlines ["<dc:subject>"; "                <rdf:Bag>"; blank],
     tlines [blank; "                </rdf:Bag>";
             "            </dc:subject>"]));
   ("xmp_headline",
    (lit "<photoshop:Headline>", lit "</photoshop:Headline>"));
   ("xmp_credit", (lit "<photoshop:Credit>", lit "</photoshop:Credit>"));
   ("xmp_source", (lit "<photoshop:Source>", lit "</photoshop:Source>"));
   ("xmp_date_created",
    (lit "<photoshop:DateCreated>", lit "</photoshop:DateCreated>"));
   ("xmp_category",
    (lit "<photoshop:Category>", lit "</photoshop:Category>"));
   ("xmp_website",
    (lit "<Iptc4xmpCore:CiUrlWork>", lit "</Iptc4xmpCore:CiUrlWork>"));
   ("xmp_phone",
    (lit "<Iptc4xmpCore:CiTelWork>", lit "</Iptc4xmpCore:CiTelWork>"))].

(** The value that the template holds for a key: the string of the
    field, or for the keyword list the rendered entries. *)
Definition rendered (key : string) (value : list N) : list N :=
  if bool_decide (key = "xmp_subject")
  then Xmp.keywords_xml_of (Xmp.keywords_of value)
  else value.

(** No value that [create_xmp_packet] takes from the record holds a
    less-than sign. *)
Definition markup_free (metadata : gmap string (list N)) : Prop :=
  forall key dflt, (key, dflt) ∈ xmp_defaults ->
    Xml.lt ∉ get metadata key dflt.

(** Two records that differ in title and description: the text that the
    template puts between the two values is moved from one field to the
    other. *)
Definition title_with_markup : gmap string (list N) :=
  <["xmp_title" := lit "a" ++ Xmp.xmp_part1 ++ lit "b"]>
    {["xmp_description" := lit "c"]}.

Definition description_with_markup : gmap string (list N) :=
  <["xmp_title" := lit "a"]>
    {["xmp_description" := lit "b" ++ Xmp.xmp_part1 ++ lit "c"]}.

(** A keyword field with one keyword, which holds the text that the
    builder puts between two entries. *)
Definition one_keyword_with_markup : list N :=
  lit "x</rdf:li>" ++ [nl] ++ lit "                        <rdf:li>y".

(** A record with one field, a title. *)
Definition titled (title : list N) : gmap string (list N) :=
  {["xmp_title" := title]}.

(** A record whose description alone is longer than a segment can be. *)
Definition long_record : gmap string (list N) :=
  {["xmp_description" := repeat 120%N (N.to_nat 66000)]}.

(** The record of the second scenario of the specification. *)
Definition title_and_description : gmap string (list N) :=
  <["xmp_title" := lit "X"]> {["xmp_description" := lit "Y"]}.

(** A record with one field, a keyword list. *)
Definition tagged (subject : list N) : gmap string (list N) :=
  {["xmp_subject" := subject]}.

(** A file that holds text, not an image. *)
Definition text_file : list byte := blit "hello".

(** A stream of the marker-framed family that already carries an XMP
    segment: the stream of one grey pixel with the segment of the packet
    [<x/>] (declared length 35) after its start signature. *)
Definition jpeg_with_xmp : list byte :=
  Jpeg.splice Double.tiny_jpeg
    (Jpeg.xmp_marker ++ [x00; x23]%byte ++ Jpeg.xmp_header ++ blit "<x/>").

(** ** The rest of the two files

    What the code around the writers does: the EXIF dictionary, the media
    type, the reading of the description generator's reply, and the two
    endpoints of [src/api/index.py] with their in-memory storage. *)

(** The EXIF dictionary that both JPEG writers hand to [piexif.dump]:
    the statements of [Jpeg.exif_bytes_for] up to the dump. *)
Definition exif_dict_for {IM : Imaging} (img : image)
    (metadata : gmap string (list N)) : result exif_dict :=
  let exif_dict := default exif_fallback (piexif_load (info_exif img)) in
  let artist := get metadata "exif_artist" (lit "GroundSwell") in
  let copyright_text := get metadata "exif_copyright" (lit blank) in
  let description := get metadata "exif_description" (lit blank) in
  artist_b ← encode_utf8 artist;
  let exif_dict := set_tag "0th" ImageIFD_Artist artist_b exif_dict in
  copyright_b ← encode_utf8 copyright_text;
  let exif_dict := set_tag "0th" ImageIFD_Copyright copyright_b exif_dict in
  description_b ← encode_utf8 description;
  let exif_dict :=
    set_tag "0th" ImageIFD_ImageDescription description_b exif_dict in
  let user_comment := get metadata "exif_user_comment" (lit blank) in
  user_comment_b ← encode_utf8 user_comment;
  let user_comment_bytes :=
    blit "ASCII" ++ [x00; x00; x00]%byte ++ user_comment_b in
  Ok (set_tag "Exif" ExifIFD_UserComment user_comment_bytes exif_dict).

(** The tag of an IFD of an EXIF dictionary, if it has one. *)
Definition exif_tag (d : exif_dict) (ifd : string) (tag : Z)
    : option (list byte) :=
  d !! ifd ≫= (.!! tag).

(** The four tags that the writers set. *)
Definition written_tags : list (string * Z) :=
  [("0th", ImageIFD_Artist); ("0th", ImageIFD_Copyright);
   ("0th", ImageIFD_ImageDescription); ("Exif", ExifIFD_UserComment)].

(** Python values, as [json.loads] builds them. *)
#[warnings="-register-all"] Inductive pyobj : Type :=
  | PNone
  | PBool (b : bool)
  | PInt (z : Z)
  | PFloat (text : list N)
  | PStr (s : list N)
  | PList (l : list pyobj)
  | PDict (d : gmap string pyobj).

(** What [json.loads] does with a text: on a text that starts with an
    opening brace it returns a dict, or raises [JSONDecodeError], or
    raises something else (a [RecursionError] on deep nesting). *)
Inductive loads_outcome : Type :=
  | Loads (value : gmap string pyobj)
  | JSONDecodeError
  | OtherError.

(** More of the libraries. *)
Class Services := {
  (** [json.loads(text)] *)
  json_loads : list N -> loads_outcome;
  (** [Path(name).stem] *)
  path_stem : list N -> list N;
  (** [s.title()] *)
  str_title : list N -> list N;
  (** [str(v)] for a value that is not a string *)
  py_str : pyobj -> list N;
  (** [base64.b64encode(b).decode('utf-8')] *)
  b64encode : list byte -> list N;
  (** [JSONResponse(content)] renders its content when it is built;
      [false] when that raises (a float that is not finite, a string
      that has no UTF-8 encoding). *)
  json_response : pyobj -> bool
}.

Module Text.

(** [s.find(c)] for a one-character [c]: the lowest index, or -1. *)
Fixpoint find_from (c : N) (s : list N) (i : Z) : Z :=
  match s with
  | [] => (-1)%Z
  | x :: s' => if (x =? c)%N then i else find_from c s' (i + 1)%Z
  end.

Definition find (c : N) (s : list N) : Z := find_from c s 0.

(** [s.rfind(c)] for a one-character [c]: the highest index, or -1. *)
Fixpoint rfind_from (c : N) (s : list N) (i last : Z) : Z :=
  match s with
  | [] => last
  | x :: s' => rfind_from c s' (i + 1)%Z (if (x =? c)%N then i else last)
  end.

Definition rfind (c : N) (s : list N) : Z := rfind_from c s 0 (-1).

(** [s[start:stop]] for indices that are not negative. *)
Definition slice (s : list N) (start stop : Z) : list N :=
  take (Z.to_nat (stop - start)) (drop (Z.to_nat start) s).

(** [s.replace(a, b)] for one-character [a] and [b]. *)
Definition replace_char (a b : N) (s : list N) : list N :=
  map (fun c => if (c =? a)%N then b else c) s.

End Text.

(** The reading of the generator's reply, the same in both files
    ([analyze_image_with_claude], after the call of the service). *)
Module Analysis.
Section Analysis.
Context {RT : Runtime} {SV : Services}.

(** [get_media_type] *)
Definition media_types : gmap (list N) (list N) :=
  list_to_map
    [(lit ".jpg", lit "image/jpeg");
     (lit ".jpeg", lit "image/jpeg");
     (lit ".png", lit "image/png");
     (lit ".gif", lit "image/gif");
     (lit ".webp", lit "image/webp")].

Definition get_media_type (filename : list N) : list N :=
  let ext := str_lower (path_suffix filename) in
  default (lit "image/jpeg") (media_types !! ext).

(** The text that is handed to [json.loads], if any:
    [[
    start = response_text.find('{')
    end = response_text.rfind('}') + 1
    if start != -1 and end > start:
        json_str = response_text[start:end]
    ]] *)
Definition json_str_of (response_text : list N) : option (list N) :=
  let start := Text.find 123 response_text in
  let end_ := (Text.rfind 125 response_text + 1)%Z in
  if negb (start =? -1)%Z && (end_ >? start)%Z
  then Some (Text.slice response_text start end_)
  else None.

(** The service mark of the brand name, U+2120. *)
Definition service_mark : list N := [8480%N].

(** The record built from the file name. [today] is
    [datetime.now().strftime("%Y-%m-%d")] at that point. *)
Definition fallback (filename today : list N) : gmap string pyobj :=
  let clean_name :=
    str_title
      (Text.replace_char 95 32 (Text.replace_char 45 32 (path_stem filename)))
  in
  <["title" := PStr clean_name]>
  (<["headline" :=
       PStr (lit "Learn about " ++ clean_name ++ lit " with GroundSwell"
               ++ service_mark)]>
  (<["description" :=
       PStr (clean_name ++ lit " is a key concept in the GroundSwell"
               ++ service_mark ++ lit " Business Ownership Platform.")]>
  (<["keywords" :=
       PList [PStr clean_name; PStr (lit "GroundSwell");
              PStr (lit "business");
              PStr (lit "organizational development")]]>
  (<["category" := PStr (lit "Business Ownership Platform")]>
  (<["supplemental_category" := PStr (lit "General")]>
  (<["create_date" := PStr today]> ∅)))))).

(** What [analyze_image_with_claude] does with the reply
    [response_text] of the service; [None] when an exception leaves the
    function. *)
Definition parse_response (response_text filename today : list N)
    : option (gmap string pyobj) :=
  match json_str_of response_text with
  | Some json_str =>
      match json_loads json_str with
      | Loads metadata => Some metadata
      | JSONDecodeError => Some (fallback filename today)
      | OtherError => None
      end
  | None => Some (fallback filename today)
  end.

(** [analyze_image_with_claude]. [reply] is the text of the service's
    answer, [None] when the call or the reading of its first content
    block raises. *)
Definition analyze_image_with_claude (reply : option (list N))
    (filename today : list N) : option (gmap string pyobj) :=
  response_text ← reply;
  parse_response response_text filename today.

End Analysis.
End Analysis.

(** The endpoints of [src/api/index.py]. [file_storage] is the dict of
    the module; each endpoint takes it and returns the new one. The
    metadata of a [/save-metadata] request has string values, as the
    page sends them. *)
Module Endpoint.

(** An uploaded file, [UploadFile]. *)
Record upload_file := UploadFile {
  content_type : option (list N);
  filename : option (list N);
  content : list byte
}.

(** An entry of [file_storage]: [{"data": ..., "filename": ...}]. *)
Record stored_file := StoredFile {
  stored_data : list byte;
  stored_filename : list N
}.

(** The readings [datetime.now().strftime("%Y-%m-%d")] of one upload, in
    the order of their evaluation: in the fallback of the analysis, for
    the year, for the [create_date] of the response. *)
Record clock := Clock {
  at_fallback : list N;
  at_year : list N;
  at_field : list N
}.

(** The outcome of an endpoint: the content of its JSON response, or the
    status code of the [HTTPException] it raises. *)
Inductive outcome : Type :=
  | Reply (content : gmap string pyobj)
  | HTTPException (status_code : Z).

Definition allowed_types : list (list N) :=
  [lit "image/jpeg"; lit "image/png"; lit "image/gif"; lit "image/webp"].

(** [file.content_type not in allowed_types] *)
Definition type_allowed (t : option (list N)) : bool :=
  match t with
  | Some t => bool_decide (t ∈ allowed_types)
  | None => false
  end.

(** [file.filename or "image.jpg"] *)
Definition original_filename_of (name : option (list N)) : list N :=
  match name with
  | Some (c :: s) => c :: s
  | _ => lit "image.jpg"
  end.

(** [v[:4]]; [None] for a value that cannot be sliced. *)
Definition first_four (v : pyobj) : option pyobj :=
  match v with
  | PStr s => Some (PStr (take 4 s))
  | PList l => Some (PList (take 4 l))
  | _ => None
  end.

(** [d.get(key, dflt)] on a dict of Python values. *)
Definition pyget (d : gmap string pyobj) (key : string) (dflt : pyobj)
    : pyobj :=
  default dflt (d !! key).

Section Endpoint.
Context {RT : Runtime} {IM : Imaging} {SV : Services}.

(** [f"{v}"] *)
Definition format (v : pyobj) : list N :=
  match v with
  | PStr s => s
  | _ => py_str v
  end.

(** The ["metadata"] of the response of [/upload]. *)
Definition upload_metadata (metadata : gmap string pyobj) (year : pyobj)
    (today : list N) : gmap string pyobj :=
  <["title" := pyget metadata "title" (PStr (lit blank))]>
  (<["headline" := pyget metadata "headline" (PStr (lit blank))]>
  (<["description" := pyget metadata "description" (PStr (lit blank))]>
  (<["keywords" := pyget metadata "keywords" (PList [])]>
  (<["category" :=
       pyget metadata "category" (PStr (lit "Business Ownership Platform"))]>
  (<["supplemental_category" :=
       pyget metadata "supplemental_category" (PStr (lit blank))]>
  (<["create_date" := pyget metadata "create_date" (PStr today)]>
  (<["artist" := PStr (lit "GroundSwell")]>
  (<["copyright" :=
       PStr (lit "Copyright " ++ format year ++ lit " GroundSwell")]>
  (<["credit" := PStr (lit "GroundSwell")]>
  (<["contact" := PStr (lit "groundswell.co")]>
  (<["website" := PStr (lit "www.groundswell.co")]>
  (<["phone" := PStr (lit "435-214-2997")]> ∅)))))))))))).

(** The content of the response of [/upload]. *)
Definition upload_content (file_id : list N) (metadata : gmap string pyobj)
    : gmap string pyobj :=
  <["success" := PBool true]>
  (<["file_id" := PStr file_id]>
  (<["metadata" := PDict metadata]> ∅)).

(** The [try] of [upload_image]; [None] when it raises. *)
Definition upload_try (file_id : list N) (content : list byte)
    (original_filename : list N) (reply : option (list N)) (now : clock)
    : option (gmap string pyobj) :=
  metadata ← Analysis.analyze_image_with_claude reply original_filename
               (at_fallback now);
  year ← first_four (pyget metadata "create_date" (PStr (at_year now)));
  let response :=
    upload_content file_id (upload_metadata metadata year (at_field now)) in
  if json_response (PDict response) then Some response else None.

(** [upload_image]. [file_id] is [str(uuid.uuid4())[:8]], [reply] the
    answer of the description service, [now] the readings of the
    clock. *)
Definition upload_image (file_storage : gmap (list N) stored_file)
    (file : upload_file) (file_id : list N) (reply : option (list N))
    (now : clock) : outcome * gmap (list N) stored_file :=
  if negb (type_allowed (content_type file))
  then (HTTPException 400, file_storage)
  else
    let original_filename := original_filename_of (filename file) in
    let content := content file in
    let file_storage :=
      <[file_id := StoredFile content original_filename]> file_storage in
    match upload_try file_id content original_filename reply now with
    | Some response => (Reply response, file_storage)
    | None => (HTTPException 500, delete file_id file_storage)
    end.

(** The content of the response of [/save-metadata]. *)
Definition save_content (output_filename : list N)
    (processed_data : list byte) : gmap string pyobj :=
  <["success" := PBool true]>
  (<["filename" := PStr output_filename]>
  (<["image_data" := PStr (b64encode processed_data)]> ∅)).

(** [save_metadata] *)
Definition save_metadata (file_storage : gmap (list N) stored_file)
    (file_id : list N) (metadata : gmap string (list N)) : outcome :=
  match file_storage !! file_id with
  | None => HTTPException 404
  | Some stored =>
      let image_data := stored_data stored in
      let filename := stored_filename stored in
      match Api.process_image_metadata image_data filename metadata with
      | Ok processed_data =>
          let response :=
            save_content (Api.output_filename filename metadata)
              processed_data in
          if json_response (PDict response) then Reply response
          else HTTPException 500
      | Raise _ => HTTPException 500
      end
  end.

End Endpoint.
End Endpoint.

(** Stand-ins for the services, for the examples. *)
Module Stub.

(** A reader that knows three texts. *)
Definition loads (text : list N) : loads_outcome :=
  if bool_decide (text = lit "{}") then Loads ∅
  else if bool_decide (text = lit "{`create_date`: 2024}")
  then Loads {["create_date" := PInt 2024]}
  else if bool_decide (text = lit "{`create_date`: `2024-05-06`}")
  then Loads {["create_date" := PStr (lit "2024-05-06")]}
  else JSONDecodeError.

#[export] Instance services : Services := {|
  json_loads := loads;
  path_stem := fun name => name;
  str_title := fun s => s;
  py_str := fun _ => lit "?";
  b64encode := fun b => map (fun x => Byte.to_N x) b;
  json_response := fun _ => true
|}.

End Stub.

(** An upload of the examples, and the readings of a clock at
    midnight. *)
Definition png_upload : Endpoint.upload_file :=
  Endpoint.UploadFile (Some (lit "image/png")) None Double.tiny_png.

Definition gif_upload : Endpoint.upload_file :=
  Endpoint.UploadFile (Some (lit "image/gif")) (Some (lit "chart.gif"))
    Double.tiny_jpeg.

Definition midnight : Endpoint.clock :=
  Endpoint.Clock (lit "2024-12-31") (lit "2024-12-31") (lit "2025-01-01").

(** Replies of the description service: a record with a date, a
    record whose date is a number. *)
Definition dated_reply : list N :=
  lit "Here it is: {`create_date`: `2024-05-06`} Done.".

Definition numbered_reply : list N := lit "{`create_date`: 2024}".

(** The response to [png_upload] under the id [1b2c3d4e] when the reply
    is [dated_reply]. *)
Definition dated_response : gmap string pyobj :=
  Endpoint.upload_content (lit "1b2c3d4e")
    (Endpoint.upload_metadata (SV := Stub.services)
       {["create_date" := PStr (lit "2024-05-06")]}
       (PStr (lit "2024")) (lit "2025-01-01")).

(** The storage that holds [png_upload] under that id. *)
Definition one_upload : gmap (list N) Endpoint.stored_file :=
  {[lit "1b2c3d4e" := Endpoint.StoredFile Double.tiny_png (lit "image.jpg")]}.

(** The storage that holds a GIF. *)
Definition one_gif : gmap (list N) Endpoint.stored_file :=
  {[lit "1b2c3d4e" := Endpoint.StoredFile Double.tiny_jpeg (lit "chart.gif")]}.

(** The dictionary written for a record that has a comment at most, on
    an image without EXIF data. *)
Definition comment_only (comment : list byte) : exif_dict :=
  set_tag "Exif" ExifIFD_UserComment
    (blit "ASCII" ++ [x00; x00; x00]%byte ++ comment)
    (set_tag "0th" ImageIFD_ImageDescription []
       (set_tag "0th" ImageIFD_Copyright []
          (set_tag "0th" ImageIFD_Artist (blit "GroundSwell")
             exif_fallback))).

(** The shape of a keyword: not empty, no comma, no white space at its
    ends. *)
Definition well_trimmed (kw : list N) : Prop :=
  kw <> [] /\ (44%N ∉ kw)
  /\ (forall c, head kw = Some c -> isspace c = false)
  /\ (forall c, last kw = Some c -> isspace c = false).

(** * Properties *)

(** ** Bytes and integers *)

Lemma byte_of_N_to_N (n : N) : Byte.to_N (byte_of_N n) = (n mod 256)%N.
Proof.
  unfold byte_of_N.
  destruct (Byte.of_N (n mod 256)) as [b|] eqn:E; simpl.
  - by apply Byte.to_of_N.
  - apply Byte.of_N_None_iff in E.
    pose proof (N.mod_upper_bound n 256). lia.
Qed.

Lemma to_bytes2_big_ok (n : Z) :
  (0 <= n < 65536)%Z ->
  exists b, to_bytes2_big n = Ok b /\ length b = 2%nat /\ from_bytes_big b = n.
Proof.
  intros Hn. unfold to_bytes2_big.
  replace ((0 <=? n)%Z && (n <? 65536)%Z) with true
    by (symmetry; apply andb_true_iff; lia).
  eexists; split; [reflexivity|]. split; [reflexivity|].
  unfold from_bytes_big; simpl. rewrite !byte_of_N_to_N.
  rewrite !N2Z.inj_mod, !Z2N.id by (try apply Z.mod_pos_bound; try apply Z.div_pos; lia).
  change (Z.of_N 256) with 256%Z.
  rewrite (Z.mod_small (n / 256)) by (split; [apply Z.div_pos | apply Z.div_lt_upper_bound]; lia).
  rewrite (Z.mod_mod n 256) by lia.
  pose proof (Z.div_mod n 256). lia.
Qed.

Lemma to_bytes2_big_overflow (n : Z) :
  (65535 < n)%Z -> to_bytes2_big n = Raise OverflowError.
Proof.
  intros Hn. unfold to_bytes2_big.
  replace (n <? 65536)%Z with false by (symmetry; apply Z.ltb_ge; lia).
  by rewrite andb_false_r.
Qed.

(** ** The packet builder and absent fields *)

Lemma get_insert_absent (metadata : gmap string (list N))
    (key key' : string) (dflt dflt' : list N) :
  metadata !! key = None ->
  (key = key' -> dflt = dflt') ->
  get (<[key := dflt]> metadata) key' dflt' = get metadata key' dflt'.
Proof.
  intros Habs Hd. unfold get.
  destruct (decide (key = key')) as [->|Hne].
  - rewrite lookup_insert_eq, Habs. simpl. by apply Hd.
  - by rewrite lookup_insert_ne.
Qed.

Lemma xmp_defaults_functional (key : string) (d d' : list N) :
  (key, d) ∈ xmp_defaults -> (key, d') ∈ xmp_defaults -> d = d'.
Proof.
  assert (Hnd : NoDup xmp_defaults.*1)
    by (apply (bool_decide_unpack _); by vm_compute).
  intros H1 H2.
  apply (elem_of_list_to_map_1 (M := gmap string)) in H1, H2; try done.
  congruence.
Qed.

Lemma xmp_packet_absent (head : list N) (metadata : gmap string (list N))
    (key : string) (dflt : list N) :
  (key, dflt) ∈ xmp_defaults ->
  metadata !! key = None ->
  Xmp.xmp_packet head (<[key := dflt]> metadata) = Xmp.xmp_packet head metadata.
Proof.
  intros Hin Habs. unfold Xmp.xmp_packet.
  assert (Hget : forall key' dflt', (key', dflt') ∈ xmp_defaults ->
            get (<[key := dflt]> metadata) key' dflt' = get metadata key' dflt').
  { intros key' dflt' Hin'. apply get_insert_absent; [done|].
    intros <-. apply xmp_defaults_functional with key; done. }
  rewrite !Hget by (apply list_elem_of_In; simpl; auto 20).
  reflexivity.
Qed.

(** The packet is the template parts with the twelve values between
    them. *)
Lemma xmp_packet_weave (head : list N) (metadata : gmap string (list N)) :
  Xmp.xmp_packet head metadata
    = Layout.weave (Layout.parts head) (Layout.values metadata).
Proof. reflexivity. Qed.

Lemma weave_at (parts values : list (list N)) (k : nat) (p v : list N) :
  parts !! k = Some p -> values !! k = Some v ->
  Layout.weave parts values
    = Layout.weave (take k parts) (take k values) ++ p ++ v
        ++ Layout.weave (drop (S k) parts) (drop (S k) values).
Proof.
  revert parts values.
  induction k as [|k IH]; intros [|p0 ps] [|v0 vs] Hp Hv; try done.
  - injection Hp as ->. injection Hv as ->. reflexivity.
  - cbn [take drop Layout.weave].
    rewrite (IH ps vs Hp Hv). by rewrite <- !app_assoc.
Qed.

Lemma weave_head (p : list N) (ps vs : list (list N)) :
  exists r, Layout.weave (p :: ps) vs = p ++ r.
Proof.
  destruct vs as [|v vs]; [exists []; by rewrite app_nil_r | by eexists].
Qed.

(** Setting the [k]-th key of the builder changes its [k]-th value, and
    no other. *)
Lemma values_insert (metadata : gmap string (list N)) (k : nat)
    (key : string) (value : list N) :
  xmp_defaults.*1 !! k = Some key ->
  Layout.values (<[key := value]> metadata)
    = <[k := rendered key value]> (Layout.values metadata).
Proof.
  intros Hk.
  do 12 (destruct k as [|k];
         [cbn in Hk; injection Hk as <-;
          unfold Layout.values, rendered, get;
          rewrite lookup_insert_eq, ?lookup_insert_ne by done;
          reflexivity|]).
  discriminate Hk.
Qed.

Ltac split_suffix :=
  match goal with
  | |- ?o `suffix_of` ?p =>
      exists (take (length p - length o) p); vm_compute; reflexivity
  end.

Ltac split_prefix :=
  match goal with
  | |- ?o `prefix_of` ?q =>
      exists (drop (length o) q); vm_compute; reflexivity
  end.

(** In both templates the opening text of the [k]-th element ends the
    part before the [k]-th value and its closing text begins the part
    after it. *)
Lemma element_parts (head : list N) (key : string)
    (opening closing : list N) :
  head = Xmp.xmp_head_api \/ head = Xmp.xmp_head_app ->
  (key, (opening, closing)) ∈ xmp_elements ->
  exists k p q,
    xmp_defaults.*1 !! k = Some key
    /\ Layout.parts head !! k = Some p
    /\ Layout.parts head !! S k = Some q
    /\ opening `suffix_of` p
    /\ closing `prefix_of` q.
Proof.
  intros Hhead (k & Hk)%list_elem_of_lookup_1. exists k.
  do 12 (destruct k as [|k];
         [cbv [xmp_elements lookup list_lookup] in Hk;
          injection Hk as <- <- <-;
          destruct Hhead as [-> | ->];
          (eexists _, _; split; [reflexivity|]; split; [reflexivity|];
           split; [reflexivity|]; split; [split_suffix | split_prefix])|]).
  discriminate Hk.
Qed.

(** The element of a key in the packet: the value stands between the
    opening and the closing text of its element, and the rest of the
    packet does not depend on it. *)
Lemma packet_element (head : list N) (metadata : gmap string (list N))
    (key : string) (opening closing : list N) :
  head = Xmp.xmp_head_api \/ head = Xmp.xmp_head_app ->
  (key, (opening, closing)) ∈ xmp_elements ->
  exists pre post, forall value,
    Xmp.xmp_packet head (<[key := value]> metadata)
      = pre ++ opening ++ rendered key value ++ closing ++ post.
Proof.
  intros Hhead Hin.
  destruct (element_parts head key opening closing Hhead Hin)
    as (k & p & q & Hk & Hp & Hq & [p' ->] & [q' ->]).
  assert (Hlt : k < length (Layout.values metadata))
    by (apply lookup_lt_Some in Hk; exact Hk).
  destruct (weave_head (closing ++ q') (drop (S (S k)) (Layout.parts head))
              (drop (S k) (Layout.values metadata))) as [r Hr].
  exists (Layout.weave (take k (Layout.parts head))
            (take k (Layout.values metadata)) ++ p'), (q' ++ r).
  intros value.
  rewrite xmp_packet_weave, (values_insert metadata k key value Hk).
  rewrite (weave_at _ _ k (p' ++ opening) (rendered key value) Hp)
    by (by apply list_lookup_insert_eq).
  rewrite take_insert_ge, drop_insert_lt by lia.
  rewrite (drop_S _ _ _ Hq), Hr. by rewrite <- !app_assoc.
Qed.

Lemma rendered_default (key : string) (dflt : list N) :
  (key, dflt) ∈ xmp_defaults -> rendered key dflt = dflt.
Proof.
  intros Hin. unfold rendered. case_bool_decide as Hkey; [|done].
  subst key.
  rewrite (xmp_defaults_functional "xmp_subject" dflt (lit blank) Hin)
    by (do 4 apply list_elem_of_further; apply list_elem_of_here).
  reflexivity.
Qed.

(** C9. For every record of string-valued fields, [create_xmp_packet]
    is a total function to strings: each of its steps ([metadata.get]
    with a default, [str.split], [str.strip], the f-string) is defined on
    every string, so none can raise. A field that is absent degrades to
    the default of its [metadata.get]: the packet holds the element of the
    field with that default between its opening and its closing text (an
    empty element for title, description, rights, subject, headline and
    creation date, the brand default for the others), and it is the
    packet of the record in which the field holds that default. The text
    around the element does not depend on the field: whatever value the
    field is given, the packet is the same text with that value in the
    element. This holds for both source files. *)
Theorem create_xmp_packet_absent_field
    (metadata : gmap string (list N)) (key : string)
    (dflt opening closing : list N) :
  (key, dflt) ∈ xmp_defaults ->
  (key, (opening, closing)) ∈ xmp_elements ->
  metadata !! key = None ->
  (exists pre post,
     Api.create_xmp_packet metadata
       = pre ++ opening ++ dflt ++ closing ++ post
     /\ forall value,
          Api.create_xmp_packet (<[key := value]> metadata)
            = pre ++ opening ++ rendered key value ++ closing ++ post)
  /\ (exists pre post,
        App.create_xmp_packet metadata
          = pre ++ opening ++ dflt ++ closing ++ post
        /\ forall value,
             App.create_xmp_packet (<[key := value]> metadata)
               = pre ++ opening ++ rendered key value ++ closing ++ post).
Proof.
  intros Hd He Habs.
  assert (Hany : forall head,
            head = Xmp.xmp_head_api \/ head = Xmp.xmp_head_app ->
            exists pre post,
              Xmp.xmp_packet head metadata
                = pre ++ opening ++ dflt ++ closing ++ post
              /\ forall value,
                   Xmp.xmp_packet head (<[key := value]> metadata)
                     = pre ++ opening ++ rendered key value ++ closing
                         ++ post).
  { intros head Hhead.
    destruct (packet_element head metadata key opening closing Hhead He)
      as (pre & post & Hv).
    exists pre, post. split; [|exact Hv].
    rewrite <- (xmp_packet_absent head metadata key dflt Hd Habs), Hv.
    by rewrite (rendered_default _ _ Hd). }
  split; [apply (Hany Xmp.xmp_head_api) | apply (Hany Xmp.xmp_head_app)];
    auto.
Qed.

Lemma create_xmp_packet_absent_field_witness :
  (exists pre post,
     Api.create_xmp_packet ∅
       = pre ++ lit "<photoshop:Credit>" ++ lit "GroundSwell"
           ++ lit "</photoshop:Credit>" ++ post)
  /\ (exists pre post,
        App.create_xmp_packet ∅
          = pre ++ lit "<dc:subject>" ++ [nl] ++ lit "                <rdf:Bag>"
              ++ [nl; nl] ++ lit "                </rdf:Bag>" ++ [nl]
              ++ lit "            </dc:subject>" ++ post).
Proof.
  split.
  - destruct (create_xmp_packet_absent_field ∅ "xmp_credit"
                (lit "GroundSwell") (lit "<photoshop:Credit>")
                (lit "</photoshop:Credit>"))
      as [(pre & post & Hpacket & _) _].
    + do 6 apply list_elem_of_further. apply list_elem_of_here.
    + do 6 apply list_elem_of_further. apply list_elem_of_here.
    + reflexivity.
    + by exists pre, post.
  - destruct (create_xmp_packet_absent_field ∅ "xmp_subject" (lit blank)
                (tlines ["<dc:subject>"; "                <rdf:Bag>"; blank])
                (tlines [blank; "                </rdf:Bag>";
                         "            </dc:subject>"]))
      as [_ (pre & post & Hpacket & _)].
    + do 4 apply list_elem_of_further. apply list_elem_of_here.
    + do 4 apply list_elem_of_further. apply list_elem_of_here.
    + reflexivity.
    + exists pre, post. rewrite Hpacket. reflexivity.
Defined.

(** ** The output file name *)

Section SafeTitle.
Context {RT : Runtime}.

Lemma keep_is_filter (title : list N) :
  flat_map (fun c => if kept c then [c] else []) title = List.filter kept title.
Proof.
  induction title as [|c title IH]; simpl; [done|].
  destruct (kept c); simpl; by rewrite IH.
Qed.

Lemma kept_spec (c : N) :
  kept c = true -> isalnum c = true \/ c = 32%N \/ c = 45%N \/ c = 95%N.
Proof.
  unfold kept. intros [Ha|Hm]%orb_true_iff; [by left|right].
  apply bool_decide_eq_true in Hm. unfold lit in Hm; simpl in Hm.
  repeat (apply elem_of_cons in Hm as [Hm|Hm]; [subst; auto|]).
  by apply elem_of_nil in Hm.
Qed.

Lemma isalnum_not_separator (c : N) :
  isalnum c = true ->
  c <> 47%N /\ c <> 92%N /\ c <> 32%N /\ c <> 46%N /\ c <> 58%N /\ c <> 0%N.
Proof.
  intros Ha. repeat split; intros ->; discriminate Ha.
Qed.

(** C10, as the code has it. For every title string, the stem computed
    by [save_metadata] (in both files) is the title's characters that are
    alphanumeric, space, '-' or '_', in order, with every space replaced
    by '_', cut to at most 50 characters. Every character of the stem is
    alphanumeric, '-' or '_', and comes from the title (or is the '_' of
    a space of the title); so the stem holds no path separator ('/' or
    '\'), no space, dot, colon or NUL. The output file name is the stem
    followed by [_groundswell] and the suffix of the uploaded file name in
    [src/api/index.py], and the file id of the request, an underscore, the
    stem and the suffix of the upload path in [src/app.py]: the file id
    and the suffix are put into the name as they are. *)
Theorem safe_title_characters (title : list N) :
  let stem := safe_title_of title in
  stem = take 50 (map (fun c => if (c =? 32)%N then 95%N else c)
                    (List.filter kept title))
  /\ length stem <= 50
  /\ (forall c, c ∈ stem ->
        (isalnum c = true \/ c = 45%N \/ c = 95%N)
        /\ (c ∈ title \/ c = 95%N /\ 32%N ∈ title)
        /\ c <> 47%N /\ c <> 92%N /\ c <> 32%N /\ c <> 46%N /\ c <> 58%N
        /\ c <> 0%N)
  /\ (forall metadata, title_of metadata = title ->
        (forall filename,
           Api.output_filename filename metadata
             = stem ++ lit "_groundswell" ++ path_suffix filename)
        /\ (forall file_id upload_path,
              App.output_filename file_id upload_path metadata
                = file_id ++ lit "_" ++ stem ++ path_suffix upload_path)).
Proof.
  intros stem. subst stem. unfold safe_title_of. rewrite keep_is_filter.
  split; [done|]. split; [rewrite length_take; lia|]. split.
  - intros c Hc. apply elem_of_take in Hc as (i & Hc & _).
    apply list_elem_of_lookup_2, list_elem_of_In in Hc.
    apply in_map_iff in Hc as (c0 & <- & Hc0).
    apply filter_In in Hc0 as [Hin Hk].
    apply list_elem_of_In in Hin. apply kept_spec in Hk.
    destruct (N.eqb_spec c0 32) as [->|Hne].
    + repeat split; auto; discriminate.
    + destruct Hk as [Ha | [-> | [-> | ->]]]; try done;
        [pose proof (isalnum_not_separator _ Ha) as (?&?&?&?&?&?) | |];
        repeat split; auto; discriminate.
  - intros metadata <-.
    unfold Api.output_filename, App.output_filename, Api.safe_title,
      App.safe_title, safe_title_of.
    by rewrite keep_is_filter.
Qed.

End SafeTitle.

Lemma safe_title_characters_witness :
  Api.output_filename (RT := Double.runtime) (lit "chart.png")
      (titled (lit "a/b c"))
    = lit "ab_c_groundswell.png"
  /\ App.output_filename (RT := Double.runtime) (lit "1a2b3c4d")
       (lit "uploads/1a2b3c4d_original.png") (titled (lit "a/b c"))
     = lit "1a2b3c4d_ab_c.png".
Proof.
  pose proof (safe_title_characters (RT := Double.runtime) (lit "a/b c"))
    as (_ & _ & _ & Hmd).
  destruct (Hmd (titled (lit "a/b c")) eq_refl) as [Hapi Happ].
  split; [rewrite Hapi | rewrite Happ]; reflexivity.
Defined.

(** C10, counterexample. In [src/app.py] the file id of the request
    is the first part of the output file name and is not sanitised: a
    file id with path separators gives an output file name with path
    separators, whatever the title. In both files the suffix of the
    upload is not sanitised either: a suffix with a space and a semicolon
    is in the output file name. *)
Lemma file_id_and_suffix_are_not_sanitised :
  App.output_filename (RT := Double.runtime) (lit "../../tmp/x")
      (lit "uploads/../../tmp/x_original.jpg") (titled (lit "a/b c"))
    = lit "../../tmp/x_ab_c.jpg"
  /\ 47%N ∈ App.output_filename (RT := Double.runtime) (lit "../../tmp/x")
              (lit "uploads/../../tmp/x_original.jpg") (titled (lit "a/b c"))
  /\ Api.output_filename (RT := Double.runtime) (lit "chart.p g;")
       (titled (lit "a/b c"))
     = lit "ab_c_groundswell.p g;".
Proof.
  split; [reflexivity|]. split; [|reflexivity].
  apply (bool_decide_unpack _). by vm_compute.
Qed.

(** ** The dispatchers *)

Section Dispatch.
Context {RT : Runtime} {IM : Imaging}.

Lemma unsupported_ext (ext : list N) :
  ext ∉ [lit ".jpg"; lit ".jpeg"; lit ".png"] ->
  is_jpeg_ext ext = false /\ is_png_ext ext = false.
Proof.
  intros Hext. unfold is_jpeg_ext, is_png_ext.
  split; apply bool_decide_eq_false; intros Hin; apply Hext.
  - apply elem_of_cons in Hin as [->|Hin]; [by left|].
    apply elem_of_cons in Hin as [->|Hin]; [by right; left|].
    by apply elem_of_nil in Hin.
  - rewrite Hin. by do 2 right; left.
Qed.

(** C6. For every input and every file name whose (lower-cased) suffix
    is none of [.jpg], [.jpeg], [.png], the dispatcher passes the input
    through: [process_image_metadata] returns the very bytes it was given,
    as a normal result; [write_metadata_to_image] copies the file to the
    output path byte for byte and leaves every other file as it was,
    returning [False] as the flag that no metadata was written. *)
Theorem unsupported_extension_passes_through
    (image_data : list byte) (filename : list N)
    (metadata : gmap string (list N))
    (fs : gmap (list N) (list byte)) (output_path : list N) :
  str_lower (path_suffix filename) ∉ [lit ".jpg"; lit ".jpeg"; lit ".png"] ->
  fs !! filename = Some image_data ->
  filename <> output_path ->
  Api.process_image_metadata image_data filename metadata = Ok image_data
  /\ App.write_metadata_to_image fs filename output_path metadata
     = Ok (false, <[output_path := image_data]> fs).
Proof.
  intros [Hj Hp]%unsupported_ext Hfile Hne.
  unfold Api.process_image_metadata, App.write_metadata_to_image.
  rewrite Hj, Hp. split; [done|].
  unfold App.copy2. rewrite Hfile. simpl.
  by rewrite bool_decide_eq_false_2.
Qed.

End Dispatch.

Lemma unsupported_extension_passes_through_witness :
  Api.process_image_metadata (RT := Double.runtime) (IM := Double.imaging) Double.tiny_jpeg (lit "Chart.GIF") ∅
  = Ok Double.tiny_jpeg.
Proof.
  refine (proj1 (unsupported_extension_passes_through
                   (RT := Double.runtime) (IM := Double.imaging) Double.tiny_jpeg
                   (lit "Chart.GIF") ∅
                   {[lit "Chart.GIF" := Double.tiny_jpeg]} (lit "out.gif")
                   _ _ _)).
  - vm_compute. intros Hin.
    repeat (apply elem_of_cons in Hin as [Hin|Hin]; [discriminate Hin|]).
    by apply elem_of_nil in Hin.
  - reflexivity.
  - discriminate.
Defined.

(** ** The XMP application segment *)

(** One step of the error monad, without unfolding anything else. *)
Ltac run := cbn [mbind mret result_bind result_ret Py.bind of_option].

Lemma bind_ok {A B} (r : result A) (k : A -> result B) (b : B) :
  (r ≫= k) = Ok b -> exists a, r = Ok a /\ k a = Ok b.
Proof. destruct r as [a|e]; [by exists a | discriminate]. Qed.

Lemma xmp_header_length : length Jpeg.xmp_header = 29.
Proof. reflexivity. Qed.

Lemma xmp_segment_ok (xmp_data : list N) (seg : list byte) :
  Jpeg.xmp_segment xmp_data = Ok seg ->
  exists xmp_bytes length_bytes,
    encode_utf8 xmp_data = Ok xmp_bytes
    /\ length length_bytes = 2%nat
    /\ from_bytes_big length_bytes
       = (2 + len Jpeg.xmp_header + len xmp_bytes)%Z
    /\ (2 + len Jpeg.xmp_header + len xmp_bytes <= 65535)%Z
    /\ seg = Jpeg.xmp_marker ++ length_bytes ++ Jpeg.xmp_header ++ xmp_bytes.
Proof.
  unfold Jpeg.xmp_segment. intros (xb & Henc & Hseg)%bind_ok.
  apply bind_ok in Hseg as (lb & Hlen & [= <-]).
  exists xb, lb. split; [done|].
  destruct (Z_lt_ge_dec 65535 (2 + len Jpeg.xmp_header + len xb)) as [Hbig|Hsmall].
  - rewrite to_bytes2_big_overflow in Hlen by done. discriminate.
  - destruct (to_bytes2_big_ok (2 + len Jpeg.xmp_header + len xb))
      as (b & Hb & Hl & Hfrom); [unfold len in *; lia|].
    rewrite Hb in Hlen. injection Hlen as <-.
    repeat split; try done. lia.
Qed.

Lemma xmp_segment_built (xmp_data : list N) (xmp_bytes : list byte) :
  encode_utf8 xmp_data = Ok xmp_bytes ->
  (2 + len Jpeg.xmp_header + len xmp_bytes <= 65535)%Z ->
  exists seg, Jpeg.xmp_segment xmp_data = Ok seg.
Proof.
  intros Henc Hfit. unfold Jpeg.xmp_segment. rewrite Henc; run.
  destruct (to_bytes2_big_ok (2 + len Jpeg.xmp_header + len xmp_bytes))
    as (b & -> & _); [unfold len in *; lia|].
  run. by eexists.
Qed.

Lemma xmp_segment_iff (xmp_data : list N) :
  (exists seg, Jpeg.xmp_segment xmp_data = Ok seg)
  <-> exists xmp_bytes,
        encode_utf8 xmp_data = Ok xmp_bytes /\ (len xmp_bytes <= 65504)%Z.
Proof.
  split.
  - intros [seg (xb & lb & Henc & _ & _ & Hfit & _)%xmp_segment_ok].
    exists xb. split; [done|]. unfold len in *.
    rewrite xmp_header_length in Hfit. lia.
  - intros (xb & Henc & Hfit). apply (xmp_segment_built _ xb Henc).
    unfold len in *. rewrite xmp_header_length. lia.
Qed.

Lemma xmp_segment_overflow (xmp_data : list N) (n : Z) :
  Jpeg.segment_length xmp_data = Ok n -> (65535 < n)%Z ->
  Jpeg.xmp_segment xmp_data = Raise OverflowError.
Proof.
  unfold Jpeg.segment_length, Jpeg.xmp_segment.
  intros (xb & -> & [= <-])%bind_ok Hn. simpl.
  by rewrite to_bytes2_big_overflow.
Qed.

(** What a successful splice looks like, byte offset by byte offset. *)
Lemma splice_layout (data seg : list byte) (xmp_data : list N) :
  take 2 data = Jpeg.soi ->
  Jpeg.xmp_segment xmp_data = Ok seg ->
  exists xmp_bytes,
    encode_utf8 xmp_data = Ok xmp_bytes
    /\ segment_layout (drop 2 data) xmp_bytes (Jpeg.splice data seg).
Proof.
  intros Hsoi (xb & lb & Henc & Hl & Hfrom & _ & ->)%xmp_segment_ok.
  exists xb. split; [done|]. unfold segment_layout, Jpeg.splice.
  rewrite Hsoi.
  destruct lb as [|l1 [|l2 [|]]]; try discriminate Hl.
  repeat split; done.
Qed.

Lemma splice_layout_of (data seg xmp_bytes : list byte) (xmp_data : list N) :
  take 2 data = Jpeg.soi ->
  Jpeg.xmp_segment xmp_data = Ok seg ->
  encode_utf8 xmp_data = Ok xmp_bytes ->
  segment_layout (drop 2 data) xmp_bytes (Jpeg.splice data seg).
Proof.
  intros Hsoi Hseg Henc.
  destruct (splice_layout data seg xmp_data Hsoi Hseg) as (xb & Henc' & H).
  rewrite Henc in Henc'. by injection Henc' as <-.
Qed.

Lemma embed_xmp_in_jpeg_splices (fs : gmap (list N) (list byte))
    (file_path xmp_data : list N) (data seg : list byte) :
  fs !! file_path = Some data ->
  take 2 data = Jpeg.soi ->
  Jpeg.xmp_segment xmp_data = Ok seg ->
  App.embed_xmp_in_jpeg fs file_path xmp_data
    = (true, <[file_path := Jpeg.splice data seg]> fs).
Proof.
  intros Hfile Hsoi Hseg.
  unfold App.embed_xmp_in_jpeg, App.embed_xmp_in_jpeg_try.
  rewrite Hfile; run. rewrite bool_decide_eq_false_2 by (by intros []).
  by rewrite Hseg.
Qed.

Lemma embed_xmp_in_jpeg_true (fs fs' : gmap (list N) (list byte))
    (file_path xmp_data : list N) :
  App.embed_xmp_in_jpeg fs file_path xmp_data = (true, fs') ->
  exists data seg,
    fs !! file_path = Some data
    /\ take 2 data = Jpeg.soi
    /\ Jpeg.xmp_segment xmp_data = Ok seg
    /\ fs' = <[file_path := Jpeg.splice data seg]> fs.
Proof.
  unfold App.embed_xmp_in_jpeg, App.embed_xmp_in_jpeg_try.
  destruct (fs !! file_path) as [data|]; simpl; [|discriminate].
  case_bool_decide as Hsoi; simpl; [discriminate|].
  destruct (Jpeg.xmp_segment xmp_data) as [seg|]; simpl; [|discriminate].
  intros [= <-]. exists data, seg. repeat split; try done.
Qed.

(** When the segment cannot be built, the embed changes nothing. *)
Lemma embed_xmp_in_jpeg_refused (fs : gmap (list N) (list byte))
    (file_path xmp_data : list N) (e : exn) :
  Jpeg.xmp_segment xmp_data = Raise e ->
  App.embed_xmp_in_jpeg fs file_path xmp_data = (false, fs).
Proof.
  intros Hseg. unfold App.embed_xmp_in_jpeg, App.embed_xmp_in_jpeg_try.
  destruct (fs !! file_path) as [data|]; run; [|done].
  case_bool_decide; [done|]. by rewrite Hseg.
Qed.

Section Segment.
Context {IM : Imaging}.

(** The two writers once the imaging library has done its part. *)
Lemma process_jpeg_metadata_runs (image_data : list byte)
    (metadata : gmap string (list N)) (img : image)
    (exif_bytes jpeg_data : list byte) :
  Image_open image_data = Some img ->
  Jpeg.exif_bytes_for img metadata = Ok exif_bytes ->
  save_jpeg img exif_bytes = Some jpeg_data ->
  Api.process_jpeg_metadata image_data metadata
  = (seg ← Jpeg.xmp_segment (Api.create_xmp_packet metadata);
     Ok (Jpeg.splice jpeg_data seg)).
Proof.
  intros Himg Hexif Hjpeg. unfold Api.process_jpeg_metadata.
  rewrite Himg; run. rewrite Hexif; run. by rewrite Hjpeg.
Qed.

Lemma write_metadata_to_jpeg_runs
    (fs : gmap (list N) (list byte)) (file_path output_path : list N)
    (metadata : gmap string (list N)) (data : list byte) (img : image)
    (exif_bytes jpeg_data : list byte) :
  fs !! file_path = Some data ->
  Image_open data = Some img ->
  Jpeg.exif_bytes_for img metadata = Ok exif_bytes ->
  save_jpeg img exif_bytes = Some jpeg_data ->
  App.write_metadata_to_jpeg fs file_path output_path metadata
  = (true,
     snd (App.embed_xmp_in_jpeg (<[output_path := jpeg_data]> fs)
            output_path (App.create_xmp_packet metadata))).
Proof.
  intros Hfile Himg Hexif Hjpeg.
  unfold App.write_metadata_to_jpeg, App.write_metadata_to_jpeg_try.
  rewrite Hfile; run. rewrite Himg; run. rewrite Hexif; run.
  by rewrite Hjpeg.
Qed.

Lemma write_metadata_to_jpeg_splices
    (fs : gmap (list N) (list byte)) (file_path output_path : list N)
    (metadata : gmap string (list N)) (data : list byte) (img : image)
    (exif_bytes jpeg_data seg : list byte) :
  fs !! file_path = Some data ->
  Image_open data = Some img ->
  Jpeg.exif_bytes_for img metadata = Ok exif_bytes ->
  save_jpeg img exif_bytes = Some jpeg_data ->
  take 2 jpeg_data = Jpeg.soi ->
  Jpeg.xmp_segment (App.create_xmp_packet metadata) = Ok seg ->
  App.write_metadata_to_jpeg fs file_path output_path metadata
  = (true, <[output_path := Jpeg.splice jpeg_data seg]> fs).
Proof.
  intros Hfile Himg Hexif Hjpeg Hsoi Hseg.
  rewrite (write_metadata_to_jpeg_runs _ _ _ _ _ _ _ _ Hfile Himg Hexif Hjpeg).
  rewrite (embed_xmp_in_jpeg_splices _ _ _ jpeg_data seg)
    by (done || apply lookup_insert_eq).
  cbn [snd]. by rewrite insert_insert_eq.
Qed.

Lemma process_jpeg_metadata_ok (image_data : list byte)
    (metadata : gmap string (list N)) (out : list byte) :
  Api.process_jpeg_metadata image_data metadata = Ok out ->
  exists img exif_bytes jpeg_data seg,
    Image_open image_data = Some img
    /\ Jpeg.exif_bytes_for img metadata = Ok exif_bytes
    /\ save_jpeg img exif_bytes = Some jpeg_data
    /\ Jpeg.xmp_segment (Api.create_xmp_packet metadata) = Ok seg
    /\ out = Jpeg.splice jpeg_data seg.
Proof.
  unfold Api.process_jpeg_metadata.
  intros (img & Himg & Hk)%bind_ok.
  apply bind_ok in Hk as (exif & Hexif & Hk).
  apply bind_ok in Hk as (jpeg & Hjpeg & Hk).
  apply bind_ok in Hk as (seg & Hseg & [= <-]).
  exists img, exif, jpeg, seg.
  destruct (Image_open image_data); [|discriminate].
  destruct (save_jpeg img exif); [|discriminate].
  simpl in Himg, Hjpeg. by simplify_eq.
Qed.


End Segment.


(** ** Packets that do not fit the length field *)

Section Capacity.
Context {IM : Imaging}.


End Capacity.



(** ** Embedding into a stream that already has an XMP segment *)

Lemma segments_from_fuel (n m : nat) (b : list byte) :
  length b <= n -> length b <= m ->
  Scan.segments_from n b = Scan.segments_from m b.
Proof.
  revert m b. induction n as [|n IH]; intros m b Hn Hm.
  - destruct b; [|simpl in Hn; lia]. by destruct m.
  - destruct m as [|m]; [destruct b; [done | simpl in Hm; lia]|].
    destruct b as [|m0 [|m1 [|l1 [|l2 rest]]]]; try done.
    cbn [Scan.segments_from].
    destruct (bool_decide (m0 = xff%byte) && negb (bool_decide (m1 = Scan.sos)));
      [|done].
    destruct ((_ <? 2)%nat || _); [done|].
    f_equal. apply IH; rewrite length_drop; simpl in *; lia.
Qed.

Lemma segments_splice (data seg : list byte) (xmp_data : list N) :
  2 <= length data ->
  Jpeg.xmp_segment xmp_data = Ok seg ->
  exists xmp_bytes,
    encode_utf8 xmp_data = Ok xmp_bytes
    /\ Scan.segments (Jpeg.splice data seg)
       = (xe1%byte, Jpeg.xmp_header ++ xmp_bytes) :: Scan.segments data.
Proof.
  intros Hlen (xb & lb & Henc & Hl & Hfrom & Hsmall & ->)%xmp_segment_ok.
  exists xb. split; [done|].
  destruct lb as [|l1 [|l2 [|]]]; try discriminate Hl.
  unfold Scan.segments, Jpeg.splice.
  rewrite drop_app_length' by (rewrite length_take; lia).
  set (rest := Jpeg.xmp_header ++ xb).
  assert (Hn : Z.to_nat (from_bytes_big [l1; l2]) = 2 + length rest).
  { rewrite Hfrom. unfold rest, len. rewrite length_app. lia. }
  rewrite !length_app, length_take.
  change ((Jpeg.xmp_marker ++ [l1; l2] ++ rest) ++ drop 2 data)
    with (xff%byte :: xe1%byte :: l1 :: l2 :: (rest ++ drop 2 data)).
  replace (2 `min` length data
           + (length Jpeg.xmp_marker + (length [l1; l2] + length rest)
              + length (drop 2 data)))
    with (S (2 `min` length data + 3 + length rest + length (drop 2 data)))
    by (simpl; lia).
  cbn [Scan.segments_from]. rewrite Hn.
  rewrite (bool_decide_eq_true_2 (xff%byte = xff%byte)) by done.
  rewrite (bool_decide_eq_false_2 (xe1%byte = Scan.sos)) by discriminate.
  replace (2 + length rest - 2) with (length rest) by lia.
  replace ((2 + length rest <? 2)%nat) with false
    by (symmetry; apply Nat.ltb_ge; lia).
  replace ((length (rest ++ drop 2 data) <? length rest)%nat) with false
    by (symmetry; apply Nat.ltb_ge; rewrite length_app; lia).
  cbn [andb orb negb].
  rewrite take_app_length, drop_app_length. f_equal.
  apply segments_from_fuel; rewrite length_drop; lia.
Qed.

Lemma xmp_count_splice (data seg : list byte) (xmp_data : list N) :
  2 <= length data ->
  Jpeg.xmp_segment xmp_data = Ok seg ->
  Scan.xmp_count (Jpeg.splice data seg) = S (Scan.xmp_count data).
Proof.
  intros Hlen Hseg.
  destruct (segments_splice data seg xmp_data Hlen Hseg) as (xb & _ & Heq).
  unfold Scan.xmp_count. rewrite Heq. cbn [List.filter].
  replace (Scan.is_xmp (xe1%byte, Jpeg.xmp_header ++ xb)) with true; [done|].
  symmetry. unfold Scan.is_xmp. cbn [fst snd].
  rewrite take_app_length. apply andb_true_iff.
  split; by apply bool_decide_eq_true_2.
Qed.

Lemma splice_length (data seg : list byte) :
  length (Jpeg.splice data seg) = length data + length seg.
Proof.
  unfold Jpeg.splice. rewrite !length_app, length_take, length_drop.
  destruct (Nat.min_spec 2 (length data)) as [[? ->]|[? ->]]; lia.
Qed.

Lemma soi_length (data : list byte) :
  take 2 data = Jpeg.soi -> 2 <= length data.
Proof.
  intros Hsoi. apply (f_equal length) in Hsoi.
  rewrite length_take in Hsoi. change (length Jpeg.soi) with 2 in Hsoi. lia.
Qed.

Lemma splice_soi (data seg : list byte) :
  take 2 data = Jpeg.soi -> take 2 (Jpeg.splice data seg) = Jpeg.soi.
Proof. intros Hsoi. unfold Jpeg.splice. by rewrite Hsoi. Qed.

Section Duplicates.
Context {IM : Imaging}.

(** C8, as the code has it. The splice does not look for an XMP
    segment that is already there: [embed_xmp_in_jpeg] on a file that
    begins with the signature puts one more XMP application segment in
    front of the segments of the file, whatever they are, so applying it
    twice to one file leaves two XMP segments more than the file had (the
    second does not replace the first). The two writers do not splice
    into their input: they splice into the stream that the imaging library
    has re-encoded from it. Whenever the library has done its part and the
    segment can be built, the output of [process_jpeg_metadata] and of
    [write_metadata_to_jpeg] has exactly one XMP segment more than the
    stream of the library, whatever segments the input carried. *)
Theorem embedding_again_adds_a_segment :
  (forall (fs : gmap (list N) (list byte)) file_path x1 x2 data s1 s2,
     fs !! file_path = Some data ->
     take 2 data = Jpeg.soi ->
     Jpeg.xmp_segment x1 = Ok s1 ->
     Jpeg.xmp_segment x2 = Ok s2 ->
     let once := Jpeg.splice data s1 in
     let twice := Jpeg.splice once s2 in
     App.embed_xmp_in_jpeg fs file_path x1
       = (true, <[file_path := once]> fs)
     /\ App.embed_xmp_in_jpeg (<[file_path := once]> fs) file_path x2
       = (true, <[file_path := twice]> fs)
     /\ Scan.xmp_count once = S (Scan.xmp_count data)
     /\ Scan.xmp_count twice = S (S (Scan.xmp_count data))
     /\ twice <> once)
  /\ (forall image_data metadata img exif_bytes jpeg_data seg,
        Image_open image_data = Some img ->
        Jpeg.exif_bytes_for img metadata = Ok exif_bytes ->
        save_jpeg img exif_bytes = Some jpeg_data ->
        2 <= length jpeg_data ->
        Jpeg.xmp_segment (Api.create_xmp_packet metadata) = Ok seg ->
        Api.process_jpeg_metadata image_data metadata
          = Ok (Jpeg.splice jpeg_data seg)
        /\ Scan.xmp_count (Jpeg.splice jpeg_data seg)
           = S (Scan.xmp_count jpeg_data))
  /\ (forall (fs : gmap (list N) (list byte)) file_path output_path metadata
        data img exif_bytes jpeg_data seg,
        fs !! file_path = Some data ->
        Image_open data = Some img ->
        Jpeg.exif_bytes_for img metadata = Ok exif_bytes ->
        save_jpeg img exif_bytes = Some jpeg_data ->
        take 2 jpeg_data = Jpeg.soi ->
        Jpeg.xmp_segment (App.create_xmp_packet metadata) = Ok seg ->
        App.write_metadata_to_jpeg fs file_path output_path metadata
          = (true, <[output_path := Jpeg.splice jpeg_data seg]> fs)
        /\ Scan.xmp_count (Jpeg.splice jpeg_data seg)
           = S (Scan.xmp_count jpeg_data)).
Proof.
  split; [|split].
  - intros fs file_path x1 x2 data s1 s2 Hfile Hsoi Hs1 Hs2 once twice.
    assert (Hsoi1 : take 2 once = Jpeg.soi) by by apply splice_soi.
    assert (H1 : Scan.xmp_count once = S (Scan.xmp_count data))
      by (eapply xmp_count_splice; [by apply soi_length | done]).
    split; [by apply embed_xmp_in_jpeg_splices|].
    split.
    { replace (<[file_path := twice]> fs)
        with (<[file_path := twice]> (<[file_path := once]> fs))
        by apply insert_insert_eq.
      apply embed_xmp_in_jpeg_splices; [apply lookup_insert_eq | done..]. }
    split; [done|]. split.
    + subst twice. erewrite xmp_count_splice; [by rewrite H1| |done].
      by apply soi_length.
    + intros Heq. apply (f_equal length) in Heq.
      subst twice. rewrite splice_length in Heq.
      destruct (xmp_segment_ok _ _ Hs2) as (xb & lb & _ & _ & _ & _ & ->).
      rewrite !length_app in Heq. simpl in Heq. lia.
  - intros image_data metadata img exif jpeg seg Himg Hexif Hjpeg Hlen Hseg.
    split; [|by eapply xmp_count_splice].
    rewrite (process_jpeg_metadata_runs _ _ _ _ _ Himg Hexif Hjpeg).
    by rewrite Hseg.
  - intros fs file_path output_path metadata data img exif jpeg seg
      Hfile Himg Hexif Hjpeg Hsoi Hseg.
    split; [by eapply write_metadata_to_jpeg_splices|].
    eapply xmp_count_splice; [by apply soi_length | done].
Qed.

End Duplicates.

Lemma embedding_again_adds_a_segment_witness :
  (let fs : gmap (list N) (list byte) := {[lit "a.jpg" := Double.tiny_jpeg]} in
   exists once twice,
     App.embed_xmp_in_jpeg fs (lit "a.jpg") (App.create_xmp_packet ∅)
       = (true, <[lit "a.jpg" := once]> fs)
     /\ App.embed_xmp_in_jpeg (<[lit "a.jpg" := once]> fs) (lit "a.jpg")
          (App.create_xmp_packet ∅)
        = (true, <[lit "a.jpg" := twice]> fs)
     /\ Scan.xmp_count Double.tiny_jpeg = 0
     /\ Scan.xmp_count once = 1
     /\ Scan.xmp_count twice = 2)
  /\ (exists out,
        Api.process_jpeg_metadata (IM := Double.imaging) jpeg_with_xmp ∅
          = Ok out
        /\ Scan.xmp_count out = 1).
Proof.
  destruct (embedding_again_adds_a_segment (IM := Double.imaging))
    as (Hhelper & Hapi & _).
  split.
  - intros fs.
    eassert (Hseg : Jpeg.xmp_segment (App.create_xmp_packet ∅) = Ok _)
      by (vm_compute; reflexivity).
    destruct (Hhelper fs (lit "a.jpg") _ _ Double.tiny_jpeg _ _
                eq_refl eq_refl Hseg Hseg)
      as (H1 & H2 & H3 & H4 & _).
    eexists _, _. split; [exact H1|]. split; [exact H2|].
    split; [reflexivity|]. split; [exact H3 | exact H4].
  - eassert (Hexif : Jpeg.exif_bytes_for (IM := Double.imaging)
                       jpeg_with_xmp ∅ = Ok _)
      by (vm_compute; reflexivity).
    eassert (Hseg : Jpeg.xmp_segment (Api.create_xmp_packet ∅) = Ok _)
      by (vm_compute; reflexivity).
    destruct (Hapi jpeg_with_xmp ∅ jpeg_with_xmp _ _ _
                eq_refl Hexif eq_refl ltac:(simpl; lia) Hseg)
      as (Hout & Hcount).
    eexists. split; [exact Hout|]. rewrite Hcount. reflexivity.
Defined.

(** C8, counterexample. A stream of one grey pixel that carries an XMP
    segment right after its signature is given to the two writers, with
    an imaging library that writes what it decoded (start signature, Exif
    segment, end marker): the output has one XMP segment, not two. The
    segment of the input is not carried over, and the embed has replaced
    it. *)
Lemma reencoding_drops_the_segment :
  Scan.xmp_count jpeg_with_xmp = 1
  /\ (exists out,
        Api.process_jpeg_metadata (IM := Double.imaging) jpeg_with_xmp ∅
          = Ok out
        /\ Scan.xmp_count out = 1)
  /\ fst (App.write_metadata_to_jpeg (IM := Double.imaging)
            {[lit "in.jpg" := jpeg_with_xmp]} (lit "in.jpg") (lit "out.jpg")
            ∅)
     = true
  /\ Scan.xmp_count
       <$> snd (App.write_metadata_to_jpeg (IM := Double.imaging)
                  {[lit "in.jpg" := jpeg_with_xmp]} (lit "in.jpg")
                  (lit "out.jpg") ∅) !! lit "out.jpg"
     = Some 1.
Proof.
  split; [by vm_compute|]. split; [|split].
  - eassert (E : Api.process_jpeg_metadata (IM := Double.imaging)
                   jpeg_with_xmp ∅ = Ok _) by (vm_compute; reflexivity).
    eexists. split; [exact E|]. by vm_compute.
  - by vm_compute.
  - by vm_compute.
Qed.

(** ** Streams without the start signature *)

(** C5, counterexample. A file that holds the text [hello] does not
    begin with the start-of-image signature. The body of
    [embed_xmp_in_jpeg] raises nothing on it: it returns [False], and the
    file is left as it was. No error reaches the caller. *)
Lemma missing_signature_is_not_an_error :
  take 2 text_file <> Jpeg.soi
  /\ App.embed_xmp_in_jpeg_try {[lit "notes.jpg" := text_file]}
       (lit "notes.jpg") (App.create_xmp_packet ∅)
     = Ok (false, {[lit "notes.jpg" := text_file]})
  /\ App.embed_xmp_in_jpeg_try {[lit "notes.jpg" := text_file]}
       (lit "notes.jpg") (App.create_xmp_packet ∅)
     <> Raise InvalidContainerError
  /\ App.embed_xmp_in_jpeg {[lit "notes.jpg" := text_file]}
       (lit "notes.jpg") (App.create_xmp_packet ∅)
     = (false, {[lit "notes.jpg" := text_file]}).
Proof.
  assert (Htry : App.embed_xmp_in_jpeg_try {[lit "notes.jpg" := text_file]}
                   (lit "notes.jpg") (App.create_xmp_packet ∅)
                 = Ok (false, {[lit "notes.jpg" := text_file]})).
  { unfold App.embed_xmp_in_jpeg_try. rewrite lookup_singleton_eq; run.
    by rewrite bool_decide_eq_true_2. }
  split; [discriminate|]. split; [exact Htry|].
  split; [by rewrite Htry|].
  unfold App.embed_xmp_in_jpeg. by rewrite Htry.
Qed.

Section Signature.
Context {IM : Imaging}.

(** C5, as the code has it. The signature is checked in one place,
    [embed_xmp_in_jpeg], on the file it is about to splice into: when
    that file does not begin with the start-of-image signature the
    function raises nothing, returns [False] and leaves every file as it
    was. The input stream itself is judged by the imaging library alone:
    when the library cannot open it, [process_jpeg_metadata] raises the
    library's error to its caller and [write_metadata_to_jpeg] returns
    [False], leaving every file as it was; when the library opens and
    re-encodes it, [process_jpeg_metadata] returns the spliced stream
    whatever the first two bytes of the input were. *)
Theorem signature_is_checked_on_the_spliced_file :
  (forall (fs : gmap (list N) (list byte)) file_path xmp_data data,
     fs !! file_path = Some data ->
     take 2 data <> Jpeg.soi ->
     App.embed_xmp_in_jpeg_try fs file_path xmp_data = Ok (false, fs)
     /\ App.embed_xmp_in_jpeg fs file_path xmp_data = (false, fs))
  /\ (forall image_data metadata,
        Image_open image_data = None ->
        Api.process_jpeg_metadata image_data metadata = Raise ImagingError
        /\ forall (fs : gmap (list N) (list byte)) file_path output_path,
             fs !! file_path = Some image_data ->
             App.write_metadata_to_jpeg fs file_path output_path metadata
               = (false, fs))
  /\ (forall image_data metadata img exif_bytes jpeg_data seg,
        Image_open image_data = Some img ->
        Jpeg.exif_bytes_for img metadata = Ok exif_bytes ->
        save_jpeg img exif_bytes = Some jpeg_data ->
        Jpeg.xmp_segment (Api.create_xmp_packet metadata) = Ok seg ->
        Api.process_jpeg_metadata image_data metadata
          = Ok (Jpeg.splice jpeg_data seg)).
Proof.
  split; [|split].
  - intros fs file_path xmp_data data Hfile Hsoi.
    assert (Htry : App.embed_xmp_in_jpeg_try fs file_path xmp_data
                   = Ok (false, fs)).
    { unfold App.embed_xmp_in_jpeg_try.
      rewrite Hfile; run. by rewrite bool_decide_eq_true_2. }
    split; [exact Htry|]. unfold App.embed_xmp_in_jpeg. by rewrite Htry.
  - intros image_data metadata Hopen. split.
    + unfold Api.process_jpeg_metadata. by rewrite Hopen.
    + intros fs file_path output_path Hfile.
      unfold App.write_metadata_to_jpeg, App.write_metadata_to_jpeg_try.
      rewrite Hfile; run. by rewrite Hopen.
  - intros image_data metadata img exif jpeg seg Himg Hexif Hjpeg Hseg.
    rewrite (process_jpeg_metadata_runs _ _ _ _ _ Himg Hexif Hjpeg).
    by rewrite Hseg.
Qed.

End Signature.

Lemma signature_is_checked_on_the_spliced_file_witness :
  App.embed_xmp_in_jpeg
    {[lit "notes.jpg" := text_file]} (lit "notes.jpg")
    (App.create_xmp_packet ∅)
  = (false, {[lit "notes.jpg" := text_file]})
  /\ Api.process_jpeg_metadata (IM := Double.imaging) text_file ∅
     = Raise ImagingError
  /\ take 2 Double.tiny_png <> Jpeg.soi
  /\ exists out,
       Api.process_jpeg_metadata (IM := Double.imaging) Double.tiny_png ∅
         = Ok out
       /\ take 2 out = Jpeg.soi.
Proof.
  destruct (signature_is_checked_on_the_spliced_file (IM := Double.imaging))
    as (Hembed & Hopen & Hrun).
  split; [|split; [|split; [discriminate|]]].
  - apply (Hembed _ _ _ text_file); [reflexivity | discriminate].
  - apply (Hopen text_file ∅). reflexivity.
  - eassert (Hexif : Jpeg.exif_bytes_for (IM := Double.imaging)
                       Double.tiny_png ∅ = Ok _)
      by (vm_compute; reflexivity).
    eassert (Hseg : Jpeg.xmp_segment (Api.create_xmp_packet ∅) = Ok _)
      by (vm_compute; reflexivity).
    eexists. split.
    + exact (Hrun Double.tiny_png ∅ Double.tiny_png _ _ _
               eq_refl Hexif eq_refl Hseg).
    + reflexivity.
Defined.

(** ** Values in the packet *)

(** The packet of a record is the packet of the record in which a key
    holds what [metadata.get] returns for it. *)
Lemma packet_of_get (hd : list N) (metadata : gmap string (list N))
    (key : string) (dflt : list N) :
  (key, dflt) ∈ xmp_defaults ->
  Xmp.xmp_packet hd metadata
    = Xmp.xmp_packet hd (<[key := get metadata key dflt]> metadata).
Proof.
  intros Hin. destruct (metadata !! key) as [v|] eqn:E.
  - replace (get metadata key dflt) with v by (unfold get; by rewrite E).
    by rewrite insert_id.
  - replace (get metadata key dflt) with dflt by (unfold get; by rewrite E).
    symmetry. by apply xmp_packet_absent.
Qed.

(** A value without a less-than sign ends where the next tag begins. *)
Lemma peel_value (v1 v2 p r1 r2 : list N) :
  Xml.lt ∉ v1 -> Xml.lt ∉ v2 ->
  head p = Some Xml.lt ->
  v1 ++ p ++ r1 = v2 ++ p ++ r2 -> v1 = v2 /\ r1 = r2.
Proof.
  intros H1 H2 Hp H. destruct p as [|c p']; [done|]. injection Hp as ->.
  change ((Xml.lt :: p') ++ r1) with (Xml.lt :: (p' ++ r1)) in H.
  change ((Xml.lt :: p') ++ r2) with (Xml.lt :: (p' ++ r2)) in H.
  apply not_elem_of_app_cons_inv_l in H as (-> & _ & H); [|done..].
  split; [done|]. by apply app_inv_head in H.
Qed.

Lemma join_cons (sep p : list N) (ps : list (list N)) :
  join sep (p :: ps)
  = p ++ match ps with [] => [] | _ :: _ => sep ++ join sep ps end.
Proof. destruct ps; [by rewrite app_nil_r | reflexivity]. Qed.

Lemma split_chars (sep : N) (s t : list N) (c : N) :
  t ∈ split sep s -> c ∈ t -> c ∈ s.
Proof.
  revert t. induction s as [|a s IH]; intros t Ht Hc.
  - apply list_elem_of_singleton in Ht as ->. by apply elem_of_nil in Hc.
  - cbn [split] in Ht. destruct (a =? sep)%N.
    + apply elem_of_cons in Ht as [->|Ht]; [by apply elem_of_nil in Hc|].
      right. eauto.
    + destruct (split sep s) as [|t0 ts] eqn:E.
      * apply list_elem_of_singleton in Ht as ->.
        apply list_elem_of_singleton in Hc as ->. by left.
      * apply elem_of_cons in Ht as [->|Ht].
        -- apply elem_of_cons in Hc as [->|Hc]; [by left|].
           right. apply (IH t0); [by left | done].
        -- right. apply (IH t); [by right | done].
Qed.

Lemma drop_while_chars {A} (p : A -> bool) (l : list A) (c : A) :
  c ∈ drop_while p l -> c ∈ l.
Proof.
  induction l as [|a l IH]; [done|]. cbn [drop_while].
  destruct (p a); [right; auto | done].
Qed.

Lemma strip_chars (s : list N) (c : N) : c ∈ strip s -> c ∈ s.
Proof.
  unfold strip, rstrip, lstrip. intros Hc.
  apply list_elem_of_In, in_rev, list_elem_of_In in Hc.
  apply drop_while_chars, list_elem_of_In, in_rev, list_elem_of_In in Hc.
  by apply drop_while_chars in Hc.
Qed.

(** The keywords of the code are the non-empty tokens of the keyword
    field, split on commas and trimmed: filtering the tokens on their
    trimmed text and then trimming is trimming and then filtering. *)
Lemma keywords_of_tokens (subject : list N) :
  Xmp.keywords_of subject
    = List.filter truthy (map strip (split 44 subject)).
Proof.
  unfold Xmp.keywords_of.
  induction (split 44 subject) as [|t ts IH]; [done|].
  cbn [List.filter map]. destruct (truthy (strip t)); cbn [map]; by rewrite IH.
Qed.

Lemma keywords_of_chars (subject kw : list N) (c : N) :
  kw ∈ Xmp.keywords_of subject -> c ∈ kw -> c ∈ subject.
Proof.
  unfold Xmp.keywords_of. intros Hkw Hc.
  apply list_elem_of_In, in_map_iff in Hkw as (t & <- & Ht).
  apply filter_In in Ht as [Ht _].
  apply strip_chars in Hc. apply list_elem_of_In in Ht.
  by apply (split_chars 44 _ t).
Qed.

(** The rendered keyword list determines the keywords, when no keyword
    holds a less-than sign. *)
Lemma keywords_xml_injective (ks1 ks2 : list (list N)) (r1 r2 : list N) :
  (forall kw, kw ∈ ks1 -> Xml.lt ∉ kw) ->
  (forall kw, kw ∈ ks2 -> Xml.lt ∉ kw) ->
  Xmp.keywords_xml_of ks1 ++ Xmp.xmp_part5 ++ r1
    = Xmp.keywords_xml_of ks2 ++ Xmp.xmp_part5 ++ r2 ->
  ks1 = ks2 /\ r1 = r2.
Proof.
  unfold Xmp.keywords_xml_of.
  revert ks2. induction ks1 as [|k1 ks1 IH]; intros [|k2 ks2] H1 H2 H.
  - cbn [map join app] in H. split; [done|]. by apply app_inv_head in H.
  - exfalso. cbn [map] in H. rewrite join_cons in H.
    apply (f_equal head) in H. vm_compute in H. discriminate H.
  - exfalso. cbn [map] in H. rewrite join_cons in H.
    apply (f_equal head) in H. vm_compute in H. discriminate H.
  - cbn [map] in H. rewrite !join_cons in H.
    change (Xmp.keyword_entry k1)
      with (lit "                        <rdf:li>" ++ k1 ++ lit "</rdf:li>")
      in H.
    change (Xmp.keyword_entry k2)
      with (lit "                        <rdf:li>" ++ k2 ++ lit "</rdf:li>")
      in H.
    rewrite <- !app_assoc in H.
    apply app_inv_head in H.
    apply peel_value in H as [<- H];
      [|apply H1; by left | apply H2; by left | reflexivity].
    assert (H1' : forall kw, kw ∈ ks1 -> Xml.lt ∉ kw)
      by (intros kw Hkw; apply H1; by right).
    assert (H2' : forall kw, kw ∈ ks2 -> Xml.lt ∉ kw)
      by (intros kw Hkw; apply H2; by right).
    destruct ks1 as [|k1' ks1], ks2 as [|k2' ks2]; cbn [map] in H.
    + rewrite !app_nil_l in H. apply app_inv_head in H. by subst.
    + exfalso. rewrite join_cons in H.
      apply (f_equal (fun l => l !! 17)) in H. vm_compute in H.
      discriminate H.
    + exfalso. rewrite join_cons in H.
      apply (f_equal (fun l => l !! 17)) in H. vm_compute in H.
      discriminate H.
    + rewrite <- !app_assoc in H. injection H as H.
      destruct (IH (k2' :: ks2) H1' H2' H) as [-> ->]. done.
Qed.

(** The packet determines the values that it was built from, when none of
    them holds a less-than sign. *)
Lemma xmp_packet_injective (hd : list N) (m1 m2 : gmap string (list N)) :
  markup_free m1 -> markup_free m2 ->
  Xmp.xmp_packet hd m1 = Xmp.xmp_packet hd m2 ->
  forall key dflt, (key, dflt) ∈ xmp_defaults ->
    (key <> "xmp_subject" -> get m1 key dflt = get m2 key dflt)
    /\ (key = "xmp_subject" ->
        Xmp.keywords_of (get m1 key dflt) = Xmp.keywords_of (get m2 key dflt)).
Proof.
  intros Hf1 Hf2 H.
  assert (F1 : forall key dflt, In (key, dflt) xmp_defaults ->
                 Xml.lt ∉ get m1 key dflt)
    by (intros key dflt Hin; apply Hf1; by apply list_elem_of_In).
  assert (F2 : forall key dflt, In (key, dflt) xmp_defaults ->
                 Xml.lt ∉ get m2 key dflt)
    by (intros key dflt Hin; apply Hf2; by apply list_elem_of_In).
  unfold Xmp.xmp_packet in H. cbv zeta in H.
  apply app_inv_head in H.
  apply peel_value in H as [E1 H];
    [|apply F1; simpl; auto 20 | apply F2; simpl; auto 20 | reflexivity].
  apply peel_value in H as [E2 H];
    [|apply F1; simpl; auto 20 | apply F2; simpl; auto 20 | reflexivity].
  apply peel_value in H as [E3 H];
    [|apply F1; simpl; auto 20 | apply F2; simpl; auto 20 | reflexivity].
  apply peel_value in H as [E4 H];
    [|apply F1; simpl; auto 20 | apply F2; simpl; auto 20 | reflexivity].
  apply keywords_xml_injective in H as [E5 H];
    [|intros kw Hkw Hc; apply (F1 "xmp_subject" (lit blank));
        [simpl; auto 20 | by eapply keywords_of_chars]
     |intros kw Hkw Hc; apply (F2 "xmp_subject" (lit blank));
        [simpl; auto 20 | by eapply keywords_of_chars]].
  apply peel_value in H as [E6 H];
    [|apply F1; simpl; auto 20 | apply F2; simpl; auto 20 | reflexivity].
  apply peel_value in H as [E7 H];
    [|apply F1; simpl; auto 20 | apply F2; simpl; auto 20 | reflexivity].
  apply peel_value in H as [E8 H];
    [|apply F1; simpl; auto 20 | apply F2; simpl; auto 20 | reflexivity].
  apply peel_value in H as [E9 H];
    [|apply F1; simpl; auto 20 | apply F2; simpl; auto 20 | reflexivity].
  apply peel_value in H as [E10 H];
    [|apply F1; simpl; auto 20 | apply F2; simpl; auto 20 | reflexivity].
  apply peel_value in H as [E11 H];
    [|apply F1; simpl; auto 20 | apply F2; simpl; auto 20 | reflexivity].
  apply app_inv_tail in H.
  intros key dflt Hin. unfold xmp_defaults in Hin.
  repeat (apply elem_of_cons in Hin as [[= -> ->]|Hin];
          [split; [intros Hne; first [assumption | by destruct Hne]
                  |intros Heq; first [discriminate Heq | assumption]]|]).
  by apply elem_of_nil in Hin.
Qed.

(** A record is free of markup when a check of its twelve values says
    so. *)
Lemma markup_free_check (metadata : gmap string (list N)) :
  forallb (fun kd => negb (bool_decide (Xml.lt ∈ get metadata kd.1 kd.2)))
    xmp_defaults = true ->
  markup_free metadata.
Proof.
  intros Hall key dflt Hin.
  rewrite forallb_forall in Hall.
  specialize (Hall (key, dflt) (proj1 (list_elem_of_In _ _) Hin)).
  apply negb_true_iff, bool_decide_eq_false in Hall. exact Hall.
Qed.

(** C2, counterexample. A title that holds the text which the
    template puts between the title and the description: the packet of
    the record with this title and the description [c] is, character for
    character, the packet of the record with the title [a] and another
    description. The two records have different titles, so whatever reads
    a packet cannot yield the original title of both: the builder does
    not escape the markup of a value, and the original string is lost. *)
Lemma markup_moves_between_fields :
  Api.create_xmp_packet title_with_markup
    = Api.create_xmp_packet description_with_markup
  /\ App.create_xmp_packet title_with_markup
     = App.create_xmp_packet description_with_markup
  /\ title_with_markup !! "xmp_title"
     <> description_with_markup !! "xmp_title"
  /\ (forall parse : list N -> option (list N),
        ~ (parse (Api.create_xmp_packet title_with_markup)
             = title_with_markup !! "xmp_title"
           /\ parse (Api.create_xmp_packet description_with_markup)
              = description_with_markup !! "xmp_title")).
Proof.
  assert (Hapi : Api.create_xmp_packet title_with_markup
                 = Api.create_xmp_packet description_with_markup)
    by (vm_compute; reflexivity).
  assert (Hne : title_with_markup !! "xmp_title"
                <> description_with_markup !! "xmp_title")
    by (intros H; vm_compute in H; discriminate H).
  split; [exact Hapi|]. split; [vm_compute; reflexivity|].
  split; [exact Hne|].
  intros parse [H1 H2]. apply Hne. rewrite <- H1, <- H2. by rewrite Hapi.
Qed.

(** C2, as the code has it. [create_xmp_packet] escapes nothing: the
    value of each of the eleven scalar fields stands in the packet
    verbatim, between the opening and the closing text of its element,
    and the text around it does not depend on the value. For records none
    of whose values holds a less-than sign, the packet determines the
    values: two such records with the same packet have the same value in
    each scalar field and the same list of keywords. This holds for both
    source files. *)
Theorem values_are_inserted_verbatim :
  (forall metadata key opening closing,
     (key, (opening, closing)) ∈ xmp_elements ->
     key <> "xmp_subject" ->
     (exists pre post, forall value,
        Api.create_xmp_packet (<[key := value]> metadata)
          = pre ++ opening ++ value ++ closing ++ post)
     /\ (exists pre post, forall value,
           App.create_xmp_packet (<[key := value]> metadata)
             = pre ++ opening ++ value ++ closing ++ post))
  /\ (forall m1 m2,
        markup_free m1 -> markup_free m2 ->
        Api.create_xmp_packet m1 = Api.create_xmp_packet m2
        \/ App.create_xmp_packet m1 = App.create_xmp_packet m2 ->
        forall key dflt, (key, dflt) ∈ xmp_defaults ->
          (key <> "xmp_subject" -> get m1 key dflt = get m2 key dflt)
          /\ (key = "xmp_subject" ->
              Xmp.keywords_of (get m1 key dflt)
                = Xmp.keywords_of (get m2 key dflt))).
Proof.
  split.
  - intros metadata key opening closing Hin Hkey.
    assert (Hany : forall hd,
              hd = Xmp.xmp_head_api \/ hd = Xmp.xmp_head_app ->
              exists pre post, forall value,
                Xmp.xmp_packet hd (<[key := value]> metadata)
                  = pre ++ opening ++ value ++ closing ++ post).
    { intros hd Hhd.
      destruct (packet_element hd metadata key opening closing Hhd Hin)
        as (pre & post & Hv).
      exists pre, post. intros value. rewrite Hv. unfold rendered.
      by rewrite bool_decide_eq_false_2. }
    split; [apply (Hany Xmp.xmp_head_api) | apply (Hany Xmp.xmp_head_app)];
      auto.
  - intros m1 m2 Hf1 Hf2 [H|H]; by eapply xmp_packet_injective.
Qed.

Lemma values_are_inserted_verbatim_witness :
  (exists pre post,
     Api.create_xmp_packet (<["xmp_headline" := lit "R&D <b>`x`</b> 'y'"]> ∅)
       = pre ++ lit "<photoshop:Headline>" ++ lit "R&D <b>`x`</b> 'y'"
           ++ lit "</photoshop:Headline>" ++ post)
  /\ get (titled (lit "Fractal Flywheel")) "xmp_title" (lit blank)
     = get (<["xmp_credit" := lit "GroundSwell"]>
              (titled (lit "Fractal Flywheel"))) "xmp_title" (lit blank).
Proof.
  destruct values_are_inserted_verbatim as [Hverbatim Hinjective].
  split.
  - destruct (Hverbatim ∅ "xmp_headline" (lit "<photoshop:Headline>")
                (lit "</photoshop:Headline>")) as [(pre & post & Hv) _].
    + do 5 apply list_elem_of_further. apply list_elem_of_here.
    + discriminate.
    + exists pre, post. apply Hv.
  - refine (proj1 (Hinjective (titled (lit "Fractal Flywheel"))
                     (<["xmp_credit" := lit "GroundSwell"]>
                        (titled (lit "Fractal Flywheel")))
                     _ _ _ "xmp_title" (lit blank) _) _).
    + apply markup_free_check. vm_compute. reflexivity.
    + apply markup_free_check. vm_compute. reflexivity.
    + left. vm_compute. reflexivity.
    + apply list_elem_of_here.
    + discriminate.
Defined.

(** ** Counting the entries of the Bag *)

Lemma clash_app (pat s r : list N) :
  Xml.clash pat s = true -> Xml.clash pat (s ++ r) = true.
Proof.
  revert s. induction pat as [|p pat IH]; intros [|c s]; try done.
  change ((c :: s) ++ r) with (c :: (s ++ r)). cbn [Xml.clash].
  intros [Hne|Hc]%orb_true_iff; apply orb_true_iff; [by left|right; auto].
Qed.

Lemma clash_prefixb (pat s : list N) :
  Xml.clash pat s = true -> Xml.prefixb pat s = false.
Proof.
  revert s. induction pat as [|p pat IH]; intros [|c s]; try done.
  cbn [Xml.clash Xml.prefixb]. intros [Hne|Hc]%orb_true_iff.
  - apply negb_true_iff in Hne. by rewrite Hne.
  - rewrite (IH _ Hc). apply andb_false_r.
Qed.

Lemma prefixb_app (pat s r : list N) :
  Xml.prefixb pat s = true -> Xml.prefixb pat (s ++ r) = true.
Proof.
  revert s. induction pat as [|p pat IH]; intros [|c s]; try done.
  change ((c :: s) ++ r) with (c :: (s ++ r)). cbn [Xml.prefixb].
  intros [Heq Hp]%andb_true_iff. rewrite Heq. cbn [andb]. auto.
Qed.

Lemma prefixb_refl (pat : list N) : Xml.prefixb pat pat = true.
Proof.
  induction pat as [|p pat IH]; [done|]. cbn [Xml.prefixb].
  by rewrite N.eqb_refl, IH.
Qed.

(** A place that is settled within a text keeps its answer when the text
    is extended. *)
Lemma settled_app (pat s r : list N) :
  Xml.clash pat s || Xml.prefixb pat s = true ->
  Xml.prefixb pat (s ++ r) = Xml.prefixb pat s.
Proof.
  intros [Hc|Hp]%orb_true_iff.
  - by rewrite !clash_prefixb by (try apply clash_app; done).
  - by rewrite Hp, prefixb_app.
Qed.

Lemma count_sub_app (pat l r : list N) :
  Xml.decided pat l = true ->
  Xml.count_sub pat (l ++ r) = Xml.count_sub pat l + Xml.count_sub pat r.
Proof.
  induction l as [|c l IH]; [done|].
  cbn [Xml.decided]. intros [Hs Hd]%andb_true_iff.
  change ((c :: l) ++ r) with (c :: (l ++ r)). cbn [Xml.count_sub].
  change (c :: (l ++ r)) with ((c :: l) ++ r).
  rewrite (settled_app _ _ r Hs), (IH Hd). lia.
Qed.

Lemma decided_app (pat l r : list N) :
  Xml.decided pat l = true -> Xml.decided pat r = true ->
  Xml.decided pat (l ++ r) = true.
Proof.
  intros Hl Hr. induction l as [|c l IH]; [done|].
  cbn [Xml.decided] in Hl. apply andb_true_iff in Hl as [Hs Hd].
  change ((c :: l) ++ r) with (c :: (l ++ r)). cbn [Xml.decided].
  change (c :: (l ++ r)) with ((c :: l) ++ r).
  apply andb_true_iff. split; [|auto].
  apply orb_true_iff in Hs as [Hc|Hp]; apply orb_true_iff.
  - left. by apply clash_app.
  - right. by apply prefixb_app.
Qed.

Lemma before_first_app (pat l r : list N) :
  Xml.decided pat l = true -> Xml.count_sub pat l = 0 ->
  Xml.before_first pat (l ++ r) = (l ++.) <$> Xml.before_first pat r.
Proof.
  induction l as [|c l IH].
  - intros _ _. simpl. by destruct (Xml.before_first pat r).
  - cbn [Xml.decided Xml.count_sub]. intros [Hs Hd]%andb_true_iff Hcount.
    change ((c :: l) ++ r) with (c :: (l ++ r)). cbn [Xml.before_first].
    change (c :: (l ++ r)) with ((c :: l) ++ r).
    rewrite (settled_app _ _ r Hs).
    destruct (Xml.prefixb pat (c :: l)); [simpl in Hcount; lia|].
    rewrite IH by (done || simpl in Hcount; lia).
    by destruct (Xml.before_first pat r).
Qed.

Lemma before_first_found (pat l r t : list N) :
  Xml.decided pat l = true -> pat <> [] ->
  Xml.before_first pat l = Some t ->
  Xml.before_first pat (l ++ r) = Some t.
Proof.
  intros Hd Hpat. revert t. induction l as [|c l IH]; intros t.
  - destruct pat; [done|]. discriminate.
  - cbn [Xml.decided] in Hd. apply andb_true_iff in Hd as [Hs Hd].
    change ((c :: l) ++ r) with (c :: (l ++ r)). cbn [Xml.before_first].
    change (c :: (l ++ r)) with ((c :: l) ++ r).
    rewrite (settled_app _ _ r Hs).
    destruct (Xml.prefixb pat (c :: l)); [done|].
    destruct (Xml.before_first pat l) as [t'|]; [|discriminate].
    intros [= <-]. by rewrite (IH Hd t').
Qed.

Lemma after_first_app (pat l r : list N) :
  Xml.decided pat l = true -> Xml.count_sub pat l = 0 ->
  Xml.after_first pat (l ++ r) = Xml.after_first pat r.
Proof.
  induction l as [|c l IH]; [done|].
  cbn [Xml.decided Xml.count_sub]. intros [Hs Hd]%andb_true_iff Hcount.
  change ((c :: l) ++ r) with (c :: (l ++ r)). cbn [Xml.after_first].
  change (c :: (l ++ r)) with ((c :: l) ++ r).
  rewrite (settled_app _ _ r Hs).
  destruct (Xml.prefixb pat (c :: l)); [simpl in Hcount; lia|].
  apply IH; [done | simpl in Hcount; lia].
Qed.

Lemma after_first_here (pat r : list N) :
  pat <> [] -> Xml.after_first pat (pat ++ r) = Some r.
Proof.
  destruct pat as [|p pat]; [done|]. intros _.
  change ((p :: pat) ++ r) with (p :: (pat ++ r)). cbn [Xml.after_first].
  change (p :: (pat ++ r)) with ((p :: pat) ++ r).
  rewrite prefixb_app by apply prefixb_refl. by rewrite drop_app_length.
Qed.

(** A text without the first character of [pat] is settled everywhere,
    with no occurrence. *)
Lemma decided_without (p : N) (pat l : list N) :
  p ∉ l ->
  Xml.decided (p :: pat) l = true /\ Xml.count_sub (p :: pat) l = 0.
Proof.
  induction l as [|c l IH]; intros Hl; [done|].
  apply not_elem_of_cons in Hl as [Hpc Hl].
  destruct (IH Hl) as [Hd Hc].
  assert (Hne : (p =? c)%N = false) by by apply N.eqb_neq.
  cbn [Xml.decided Xml.count_sub Xml.clash Xml.prefixb].
  rewrite Hne, Hd, Hc. done.
Qed.

Section Entries.
Variables (p : N) (pat : list N).
Hypothesis nl_differs : nl <> p.
Hypothesis open_decided :
  Xml.decided (p :: pat) (lit "                        <rdf:li>") = true.
Hypothesis close_decided : Xml.decided (p :: pat) (lit "</rdf:li>") = true.

(** The occurrences of a pattern in one entry, when the keyword is free
    of the pattern's first character. *)
Abbreviation per_entry :=
  (Xml.count_sub (p :: pat) (lit "                        <rdf:li>")
   + Xml.count_sub (p :: pat) (lit "</rdf:li>")).

Lemma keyword_entry_search (kw : list N) :
  p ∉ kw ->
  Xml.decided (p :: pat) (Xmp.keyword_entry kw) = true
  /\ Xml.count_sub (p :: pat) (Xmp.keyword_entry kw) = per_entry.
Proof.
  intros Hkw. destruct (decided_without p pat kw Hkw) as [Hd Hc].
  unfold Xmp.keyword_entry. split.
  - apply decided_app; [done|]. by apply decided_app.
  - rewrite count_sub_app by done.
    rewrite count_sub_app by done. lia.
Qed.

Lemma keywords_xml_search (keywords : list (list N)) :
  (forall kw, kw ∈ keywords -> p ∉ kw) ->
  Xml.decided (p :: pat) (Xmp.keywords_xml_of keywords) = true
  /\ Xml.count_sub (p :: pat) (Xmp.keywords_xml_of keywords)
     = length keywords * per_entry.
Proof.
  unfold Xmp.keywords_xml_of.
  induction keywords as [|kw ks IH]; intros Hks; [done|].
  destruct (keyword_entry_search kw) as [Hd Hc]; [apply Hks; by left|].
  destruct IH as [Hds Hcs]; [intros kw' Hin; apply Hks; by right|].
  destruct ks as [|kw' ks].
  - cbn [map join length]. split; [done|lia].
  - change (join [nl] (map Xmp.keyword_entry (kw :: kw' :: ks)))
      with (Xmp.keyword_entry kw ++ [nl]
              ++ join [nl] (map Xmp.keyword_entry (kw' :: ks))).
    destruct (decided_without p pat [nl]) as [Hdn Hcn].
    { intros ->%list_elem_of_singleton. by apply nl_differs. }
    split.
    + apply decided_app; [done|]. by apply decided_app.
    + rewrite count_sub_app by done.
      rewrite count_sub_app by done.
      rewrite Hc, Hcn, Hcs. cbn [length]. lia.
Qed.

End Entries.

(** The entries between the first opening tag of a Bag and the next
    closing tag of a Bag, in the packet of a record without markup. *)
Lemma bag_entries_count (hd : list N) (metadata : gmap string (list N)) :
  hd = Xmp.xmp_head_api \/ hd = Xmp.xmp_head_app ->
  markup_free metadata ->
  Xml.bag_entries (Xmp.xmp_packet hd metadata)
    = Some (length (Xmp.keywords_of (get metadata "xmp_subject" (lit blank)))).
Proof.
  intros Hhd Hfree.
  assert (F : forall pat key dflt, In (key, dflt) xmp_defaults ->
            Xml.decided (Xml.lt :: pat) (get metadata key dflt) = true
            /\ Xml.count_sub (Xml.lt :: pat) (get metadata key dflt) = 0).
  { intros pat key dflt Hin. apply decided_without.
    by apply Hfree, list_elem_of_In. }
  assert (Hks : forall kw,
            kw ∈ Xmp.keywords_of (get metadata "xmp_subject" (lit blank)) ->
            Xml.lt ∉ kw).
  { intros kw Hkw Hc.
    apply (Hfree "xmp_subject" (lit blank));
      [do 4 apply list_elem_of_further; apply list_elem_of_here|].
    by eapply keywords_of_chars. }
  set (opening := Xml.lt :: lit "rdf:Bag>").
  destruct (F (lit "rdf:Bag>") "xmp_title" (lit blank)) as [D1 C1];
    [simpl; auto 20|].
  destruct (F (lit "rdf:Bag>") "xmp_description" (lit blank)) as [D2 C2];
    [simpl; auto 20|].
  destruct (F (lit "rdf:Bag>") "xmp_creator" (lit "GroundSwell")) as [D3 C3];
    [simpl; auto 20|].
  destruct (F (lit "rdf:Bag>") "xmp_rights" (lit blank)) as [D4 C4];
    [simpl; auto 20|].
  fold opening in D1, C1, D2, C2, D3, C3, D4, C4.
  assert (Hhead : Xml.decided opening hd = true /\ Xml.count_sub opening hd = 0)
    by (destruct Hhd as [-> | ->]; by vm_compute).
  destruct Hhead as [Dh Ch].
  assert (P1 : Xml.decided opening Xmp.xmp_part1 = true
               /\ Xml.count_sub opening Xmp.xmp_part1 = 0) by by vm_compute.
  assert (P2 : Xml.decided opening Xmp.xmp_part2 = true
               /\ Xml.count_sub opening Xmp.xmp_part2 = 0) by by vm_compute.
  assert (P3 : Xml.decided opening Xmp.xmp_part3 = true
               /\ Xml.count_sub opening Xmp.xmp_part3 = 0) by by vm_compute.
  destruct P1 as [Dp1 Cp1], P2 as [Dp2 Cp2], P3 as [Dp3 Cp3].
  set (before_bag := take (length Xmp.xmp_part4 - 10) Xmp.xmp_part4).
  assert (P4 : Xml.decided opening before_bag = true
               /\ Xml.count_sub opening before_bag = 0) by by vm_compute.
  destruct P4 as [Dp4 Cp4].
  assert (H4 : Xmp.xmp_part4 = before_bag ++ opening ++ [nl])
    by (vm_compute; reflexivity).
  unfold Xml.bag_entries, Xml.bag_text, Xml.between, Xmp.xmp_packet.
  cbv zeta.
  change (lit "<rdf:Bag>") with opening.
  rewrite (after_first_app _ _ _ Dh Ch), (after_first_app _ _ _ D1 C1),
    (after_first_app _ _ _ Dp1 Cp1), (after_first_app _ _ _ D2 C2),
    (after_first_app _ _ _ Dp2 Cp2), (after_first_app _ _ _ D3 C3),
    (after_first_app _ _ _ Dp3 Cp3), (after_first_app _ _ _ D4 C4).
  rewrite H4, <- !app_assoc.
  rewrite (after_first_app _ _ _ Dp4 Cp4), after_first_here by discriminate.
  cbn [mbind option_bind].
  (* up to the closing tag of the container *)
  set (kx := Xmp.keywords_xml_of
               (Xmp.keywords_of (get metadata "xmp_subject" (lit blank)))).
  change (lit "</rdf:Bag>") with (Xml.lt :: lit "/rdf:Bag>").
  destruct (keywords_xml_search Xml.lt (lit "/rdf:Bag>"))
    with (keywords := Xmp.keywords_of (get metadata "xmp_subject" (lit blank)))
    as [Hd Hc]; [discriminate | by vm_compute | by vm_compute | exact Hks |].
  fold kx in Hd, Hc.
  rewrite (before_first_app _ [nl]) by by vm_compute.
  rewrite (before_first_app _ kx) by (rewrite ?Hc; done || lia).
  eassert (Hpart : Xml.before_first (Xml.lt :: lit "/rdf:Bag>") Xmp.xmp_part5
                   = Some _) by (vm_compute; reflexivity).
  assert (Hdec : Xml.decided (Xml.lt :: lit "/rdf:Bag>") Xmp.xmp_part5 = true)
    by (by vm_compute).
  assert (Hpat : Xml.lt :: lit "/rdf:Bag>" <> []) by discriminate.
  rewrite (before_first_found _ _ _ _ Hdec Hpat Hpart).
  cbn [fmap option_fmap option_map].
  (* every entry of the keyword list counts once *)
  change (lit "<rdf:li>") with (Xml.lt :: lit "rdf:li>").
  destruct (keywords_xml_search Xml.lt (lit "rdf:li>"))
    with (keywords := Xmp.keywords_of (get metadata "xmp_subject" (lit blank)))
    as [Hd' Hc']; [discriminate | by vm_compute | by vm_compute | exact Hks |].
  fold kx in Hd', Hc'.
  rewrite (count_sub_app _ [nl]) by by vm_compute.
  rewrite count_sub_app, Hc' by done.
  f_equal. vm_compute Xml.count_sub at 1 2 3 4. lia.
Qed.




(** ** The chunk framing *)

Lemma be32_of_be (n : N) :
  (n < 4294967296)%N -> Png.of_be (Png.be32 n) = n.
Proof.
  intros Hn. unfold Png.of_be, Png.be32. cbn [fold_left].
  rewrite !byte_of_N_to_N.
  assert (H1 := N.div_mod n 256 ltac:(done)).
  assert (H2 := N.div_mod (n / 256) 256 ltac:(done)).
  assert (H3 := N.div_mod (n / 256 / 256) 256 ltac:(done)).
  assert (H4 : (n / 256 / 256 / 256 < 256)%N).
  { rewrite !N.Div0.div_div. change (256 * 256 * 256)%N with 16777216%N.
    apply N.Div0.div_lt_upper_bound. lia. }
  rewrite !N.Div0.div_div in *.
  change (256 * 256)%N with 65536%N in *.
  change (65536 * 256)%N with 16777216%N in *.
  rewrite (N.mod_small (n / 16777216) 256) by done.
  lia.
Qed.

Lemma of_be_bound (b : list byte) :
  length b <= 4 -> (Png.of_be b < 4294967296)%N.
Proof.
  intros Hb. unfold Png.of_be.
  destruct b as [|b0 [|b1 [|b2 [|b3 [|]]]]]; simpl in Hb; try lia;
    cbn [fold_left];
    repeat match goal with
           | |- context [Byte.to_N ?x] =>
               pose proof (Byte.to_N_bounded x); generalize dependent (Byte.to_N x); intros
           end; lia.
Qed.

Lemma lxor_bound (a b : N) (k : N) :
  (a < 2 ^ k)%N -> (b < 2 ^ k)%N -> (N.lxor a b < 2 ^ k)%N.
Proof.
  intros Ha Hb.
  destruct (N.eq_dec a 0%N) as [->|Ha0]; [by rewrite N.lxor_0_l|].
  destruct (N.eq_dec b 0%N) as [->|Hb0]; [by rewrite N.lxor_0_r|].
  destruct (N.eq_dec (N.lxor a b) 0%N) as [->|Hne]; [lia|].
  apply N.log2_lt_pow2 in Ha; [|lia]. apply N.log2_lt_pow2 in Hb; [|lia].
  apply N.log2_lt_pow2; [lia|].
  eapply N.le_lt_trans; [apply N.log2_lxor|]. lia.
Qed.

Lemma crc_step_bound (c : N) :
  (c < 4294967296)%N -> (Png.crc_step c < 4294967296)%N.
Proof.
  intros Hc. unfold Png.crc_step.
  assert (Hs : (N.shiftr c 1 < 2 ^ 32)%N).
  { rewrite N.shiftr_div_pow2. change (2 ^ 1)%N with 2%N.
    change (2 ^ 32)%N with 4294967296%N.
    apply N.Div0.div_lt_upper_bound. lia. }
  destruct (N.testbit c 0); [|exact Hs].
  change 4294967296%N with (2 ^ 32)%N. apply lxor_bound; [done|].
  by vm_compute.
Qed.

Lemma crc_byte_bound (c : N) (b : byte) :
  (c < 4294967296)%N -> (Png.crc_byte c b < 4294967296)%N.
Proof.
  intros Hc. unfold Png.crc_byte.
  assert (H0 : (N.lxor c (Byte.to_N b) < 4294967296)%N).
  { change 4294967296%N with (2 ^ 32)%N. apply lxor_bound; [done|].
    pose proof (Byte.to_N_bounded b). change (2 ^ 32)%N with 4294967296%N.
    lia. }
  generalize dependent (N.lxor c (Byte.to_N b)). intros x Hx.
  cbn [Nat.iter nat_rect]. by do 8 apply crc_step_bound.
Qed.

Lemma crc32_bound (data : list byte) : (Png.crc32 data < 4294967296)%N.
Proof.
  unfold Png.crc32. change 4294967296%N with (2 ^ 32)%N.
  apply lxor_bound; [|by vm_compute].
  change (2 ^ 32)%N with 4294967296%N.
  assert (H0 : (4294967295 < 4294967296)%N) by lia.
  change 0xFFFFFFFF%N with 4294967295%N.
  generalize dependent 4294967295%N. intros c Hc. revert c Hc.
  induction data as [|b data IH]; intros c Hc; [done|].
  cbn [fold_left]. by apply IH, crc_byte_bound.
Qed.

Lemma be32_length (n : N) : length (Png.be32 n) = 4.
Proof. reflexivity. Qed.

Lemma write_stored_length (s : Png.stored) :
  length (Png.write_stored s)
  = 8 + length (Png.ctype (Png.schunk s)) + length (Png.cdata (Png.schunk s)).
Proof.
  unfold Png.write_stored, Png.frame. rewrite !length_app, !be32_length. lia.
Qed.

Lemma read_chunks_step (fuel : nat) (b : list byte) :
  b <> [] ->
  Png.read_chunks (S fuel) b
  = let n := N.to_nat (Png.of_be (take 4 b)) in
    if (length b <? 12 + n)%nat then None
    else
      match Png.read_chunks fuel (drop (12 + n) b) with
      | Some cs =>
          Some (Png.Stored (Png.Chunk (take 4 (drop 4 b)) (take n (drop 8 b)))
                  (Png.of_be (take 4 (drop (8 + n) b))) :: cs)
      | None => None
      end.
Proof. by destruct b. Qed.

Lemma read_chunks_written (fuel : nat) (s : Png.stored) (b : list byte) :
  Png.well_framed s ->
  Png.read_chunks (S fuel) (Png.write_stored s ++ b)
    = (s ::.) <$> Png.read_chunks fuel b.
Proof.
  destruct s as [[ty data] crc]. intros (Hty & Hdata & Hcrc).
  cbn [Png.schunk Png.ctype Png.cdata Png.scrc] in *.
  unfold Png.write_stored, Png.frame.
  cbn [Png.schunk Png.ctype Png.cdata Png.scrc].
  set (L := N.of_nat (length data)) in *.
  rewrite <- !app_assoc.
  remember (Png.be32 L ++ ty ++ data ++ Png.be32 crc ++ b) as stream eqn:Hs.
  assert (Hlen : length stream = 12 + length data + length b).
  { subst stream. rewrite !length_app, !be32_length. lia. }
  assert (H0 : take 4 stream = Png.be32 L)
    by (subst stream; by rewrite take_app_length').
  assert (H4 : drop 4 stream = ty ++ data ++ Png.be32 crc ++ b)
    by (subst stream; by rewrite drop_app_length').
  assert (H8 : drop 8 stream = data ++ Png.be32 crc ++ b).
  { change 8 with (4 + 4). rewrite <- drop_drop, H4.
    by rewrite drop_app_length'. }
  assert (Hn : N.to_nat (Png.of_be (Png.be32 L)) = length data)
    by (rewrite be32_of_be by done; unfold L; lia).
  assert (H8n : drop (8 + length data) stream = Png.be32 crc ++ b).
  { rewrite <- drop_drop, H8. by rewrite drop_app_length. }
  assert (H12n : drop (12 + length data) stream = b).
  { replace (12 + length data) with (8 + length data + 4) by lia.
    rewrite <- drop_drop, H8n. by rewrite drop_app_length'. }
  rewrite read_chunks_step by (intros ->; simpl in Hlen; lia).
  cbv zeta. rewrite H0, Hn, H4, H8, H8n, H12n, Hlen.
  replace ((12 + length data + length b <? 12 + length data)%nat) with false
    by (symmetry; apply Nat.ltb_ge; lia).
  rewrite !take_app_length', be32_of_be by done.
  by destruct (Png.read_chunks fuel b).
Qed.

Lemma read_chunks_well_framed (fuel : nat) (b : list byte)
    (cs : list Png.stored) :
  Png.read_chunks fuel b = Some cs -> Forall Png.well_framed cs.
Proof.
  revert b cs. induction fuel as [|fuel IH]; intros b cs.
  - destruct b; [|discriminate]. intros [= <-]. constructor.
  - destruct (decide (b = [])) as [->|Hb]; [intros [= <-]; constructor|].
    rewrite read_chunks_step by done. cbv zeta.
    destruct (_ <? _)%nat eqn:Hlen; [discriminate|].
    apply Nat.ltb_ge in Hlen.
    destruct (Png.read_chunks fuel _) as [cs'|] eqn:Hrest; [|discriminate].
    intros [= <-]. constructor; [|by eapply IH].
    pose proof (of_be_bound (take 4 b) ltac:(rewrite length_take; lia)) as Hn.
    unfold Png.well_framed. cbn [Png.schunk Png.ctype Png.cdata Png.scrc].
    split; [|split].
    + rewrite length_take, length_drop. lia.
    + rewrite length_take, length_drop. lia.
    + apply of_be_bound. rewrite length_take. lia.
Qed.

Lemma read_chunks_all_written (fuel : nat) (cs : list Png.stored) :
  Forall Png.well_framed cs ->
  length (concat (map Png.write_stored cs)) <= fuel ->
  Png.read_chunks fuel (concat (map Png.write_stored cs)) = Some cs.
Proof.
  intros Hwf. revert fuel. induction Hwf as [|s cs Hs Hcs IH]; intros fuel.
  - by destruct fuel.
  - cbn [map concat]. rewrite length_app, write_stored_length. intros Hfuel.
    destruct fuel as [|fuel]; [lia|].
    rewrite read_chunks_written by done.
    rewrite IH by lia. done.
Qed.

(** ** The chunk-framed embed *)

(** A stream of chunks reads back as the chunks that were written, each
    with the CRC-32 of its type and data. *)
Lemma read_png_serialize (chunks : list Png.chunk) :
  forallb Png.fits chunks = true ->
  Png.read_png (Png.serialize chunks) = Some (map Png.stored_of chunks).
Proof.
  intros Hfit. unfold Png.read_png, Png.serialize.
  rewrite take_app_length' by reflexivity.
  rewrite drop_app_length' by reflexivity.
  unfold Png.bytes_eqb. rewrite bool_decide_eq_true_2 by done.
  replace (map Png.write_chunk chunks)
    with (map Png.write_stored (map Png.stored_of chunks))
    by (rewrite map_map; reflexivity).
  apply read_chunks_all_written; [|rewrite length_app; lia].
  apply Forall_forall. intros s Hs.
  apply list_elem_of_In, in_map_iff in Hs as (c & <- & Hc).
  rewrite forallb_forall in Hfit. specialize (Hfit c Hc).
  unfold Png.fits in Hfit. apply andb_true_iff in Hfit as [Hty Hdata].
  unfold Png.well_framed, Png.stored_of. cbn [Png.schunk Png.scrc].
  split; [by apply Nat.eqb_eq|]. split; [by apply N.ltb_lt|].
  apply crc32_bound.
Qed.

Lemma text_chunk_latin1 (key : string) (value : list N) (v : list byte) :
  Png.encode_latin1 value = Some v ->
  v = map byte_of_N value
  /\ Png.text_chunk key value
     = Ok (Png.Chunk Png.tEXt (blit key ++ [x00%byte] ++ v)).
Proof.
  unfold Png.text_chunk. intros Hv. rewrite Hv. split; [|done].
  unfold Png.encode_latin1 in Hv.
  destruct (forallb _ value); [by injection Hv | discriminate].
Qed.

Lemma text_chunk_unicode (key : string) (value : list N) (v : list byte) :
  Png.encode_latin1 value = None ->
  encode_utf8 value = Ok v ->
  Png.text_chunk key value
  = Ok (Png.Chunk Png.iTXt
          (blit key ++ [x00; x00; x00; x00; x00]%byte ++ v)).
Proof. unfold Png.text_chunk. by intros -> ->. Qed.

Lemma text_chunk_type (key : string) (value : list N) (c : Png.chunk) :
  Png.text_chunk key value = Ok c ->
  Png.ctype c = Png.tEXt \/ Png.ctype c = Png.iTXt.
Proof.
  unfold Png.text_chunk. destruct (Png.encode_latin1 value) as [v|].
  - intros [= <-]. by left.
  - intros (v & _ & [= <-])%bind_ok. by right.
Qed.

Lemma collect_ok {A} (steps : list (result A)) (l : list A) :
  collect steps = Ok l -> Forall2 (fun r a => r = Ok a) steps l.
Proof.
  revert l. induction steps as [|r steps IH]; intros l.
  - intros [= <-]. constructor.
  - cbn [collect]. intros (a & -> & Hk)%bind_ok.
    apply bind_ok in Hk as (l' & Hl' & [= <-]). constructor; auto.
Qed.

(** The writers ask for the eleven chunks, one [add_text] call after the
    other. *)
Lemma png_entries_collect (xmp_data : list N)
    (metadata : gmap string (list N)) :
  png_entries xmp_data metadata = collect (eleven_chunks xmp_data metadata).
Proof.
  unfold png_entries, eleven_chunks, Png.add_text, png_keywords, png_sources,
    xmp_keyword.
  cbn [zip_with app collect fst snd].
  destruct (Png.text_chunk "Title" _); run; [|reflexivity].
  destruct (Png.text_chunk "Description" _); run; [|reflexivity].
  destruct (Png.text_chunk "Author" _); run; [|reflexivity].
  destruct (Png.text_chunk "Copyright" _); run; [|reflexivity].
  destruct (Png.text_chunk "Comment" _); run; [|reflexivity].
  destruct (Png.text_chunk "Keywords" _); run; [|reflexivity].
  destruct (Png.text_chunk "Headline" _); run; [|reflexivity].
  destruct (Png.text_chunk "Credit" _); run; [|reflexivity].
  destruct (Png.text_chunk "Source" _); run; [|reflexivity].
  destruct (Png.text_chunk "Creation Time" _); run; [|reflexivity].
  destruct (Png.text_chunk "XML:com.adobe.xmp" _); run; reflexivity.
Qed.

Lemma png_entries_chunks (xmp_data : list N)
    (metadata : gmap string (list N)) (chunks : list Png.chunk) :
  png_entries xmp_data metadata = Ok chunks ->
  length chunks = 11
  /\ Forall (fun c => Png.ctype c = Png.tEXt \/ Png.ctype c = Png.iTXt) chunks.
Proof.
  rewrite png_entries_collect. intros H%collect_ok. split.
  - apply Forall2_length in H. by rewrite <- H.
  - apply Forall_forall. intros c Hc.
    apply list_elem_of_lookup_1 in Hc as [i Hi].
    destruct (Forall2_lookup_r _ _ _ _ _ H Hi) as (r & Hr & Hrc).
    subst r. apply list_elem_of_lookup_2 in Hr.
    unfold eleven_chunks in Hr. apply elem_of_app in Hr as [Hr|Hr].
    + apply elem_of_lookup_zip_with in Hr as (j & k & src & Heq & _ & _).
      symmetry in Heq. by eapply text_chunk_type.
    + apply list_elem_of_singleton in Hr. symmetry in Hr.
      by eapply text_chunk_type.
Qed.

Lemma chunks_are_written (first chunks remaining : list Png.chunk) :
  Forall (fun c => Png.ctype c = Png.tEXt \/ Png.ctype c = Png.iTXt) chunks ->
  forallb Png.fits (first ++ chunks ++ remaining) = true ->
  chunks_written first chunks remaining
    (Png.serialize (first ++ chunks ++ remaining)).
Proof.
  intros Htext Hfit. unfold chunks_written.
  split; [by apply read_png_serialize|]. split; [|split; [done|]].
  - apply Forall_forall. intros c _.
    unfold Png.crc_valid, Png.stored_of. cbn [Png.schunk Png.scrc].
    apply N.eqb_refl.
  - intros Hfirst i s Hs Hidat.
    destruct (decide (length first + length chunks <= i)) as [|Hi];
      [done|exfalso].
    rewrite list_lookup_fmap in Hs.
    destruct ((first ++ chunks ++ remaining) !! i) as [c|] eqn:Hc;
      [|discriminate].
    injection Hs as <-. cbn [Png.stored_of Png.schunk] in Hidat.
    rewrite app_assoc, lookup_app_l in Hc by (rewrite length_app; lia).
    apply list_elem_of_lookup_2, elem_of_app in Hc as [Hc|Hc].
    + rewrite Forall_forall in Hfirst. by apply (Hfirst c Hc).
    + rewrite Forall_forall in Htext.
      destruct (Htext c Hc) as [Ht|Ht]; rewrite Ht in Hidat;
        discriminate Hidat.
Qed.

Section Chunks.
Context {IM : Imaging}.

Lemma png_save_ok (img : image) (pnginfo : list Png.chunk)
    (first remaining : list Png.chunk) :
  save_png img = Some (first, remaining) ->
  forallb Png.fits pnginfo = true ->
  png_save img pnginfo
  = Some (Png.serialize (first ++ pnginfo ++ remaining)).
Proof. unfold png_save. intros -> Hfit. cbn. by rewrite Hfit. Qed.

Lemma png_save_inv (img : image) (pnginfo : list Png.chunk)
    (out : list byte) :
  png_save img pnginfo = Some out ->
  exists first remaining,
    save_png img = Some (first, remaining)
    /\ forallb Png.fits pnginfo = true
    /\ out = Png.serialize (first ++ pnginfo ++ remaining).
Proof.
  unfold png_save. destruct (save_png img) as [[first remaining]|]; cbn;
    [|discriminate].
  destruct (forallb Png.fits pnginfo); [|discriminate].
  intros [= <-]. by exists first, remaining.
Qed.

(** C7, as the code has it. Both writers ask Pillow for eleven text
    chunks, in this order: the ten with the keywords Title, Description,
    Author, Copyright, Comment, Keywords, Headline, Credit, Source and
    Creation Time, each with the value of its field of the record (or the
    default), then one with the keyword [XML:com.adobe.xmp] that carries
    the XMP packet. The chunk of a value that Latin-1 can encode is a
    [tEXt] chunk with payload keyword + NUL + value (one byte per
    character); the chunk of any other value is an [iTXt] chunk with
    payload keyword + five zero bytes + the value in UTF-8. Whenever the
    imaging library opens the input and encodes the image,
    [process_png_metadata] returns and [write_metadata_to_png] returns
    [True], and the stream written is the signature, the chunks that the
    codec writes first, the eleven chunks in their order, the remaining
    chunks of the codec; it reads back as these chunks, each new chunk
    with the CRC-32 of its type and data in its CRC field, and every
    image-data chunk after the new chunks when the codec has written none
    before them. Conversely, every stream that a writer returns is of
    this form. *)
Theorem png_embed_writes_text_chunks :
  (forall xmp_data metadata,
     png_entries xmp_data metadata
       = collect (eleven_chunks xmp_data metadata))
  /\ (forall key value v,
        Png.encode_latin1 value = Some v ->
        v = map byte_of_N value
        /\ Png.text_chunk key value
           = Ok (Png.Chunk Png.tEXt (blit key ++ [x00%byte] ++ v)))
  /\ (forall key value v,
        Png.encode_latin1 value = None ->
        encode_utf8 value = Ok v ->
        Png.text_chunk key value
          = Ok (Png.Chunk Png.iTXt
                  (blit key ++ [x00; x00; x00; x00; x00]%byte ++ v)))
  /\ (forall image_data metadata img first remaining chunks,
        Image_open image_data = Some img ->
        save_png img = Some (first, remaining) ->
        png_entries (Api.create_xmp_packet metadata) metadata = Ok chunks ->
        forallb Png.fits chunks = true ->
        Api.process_png_metadata image_data metadata
          = Ok (Png.serialize (first ++ chunks ++ remaining))
        /\ length chunks = 11
        /\ (forallb Png.fits (first ++ remaining) = true ->
            chunks_written first chunks remaining
              (Png.serialize (first ++ chunks ++ remaining))))
  /\ (forall (fs : gmap (list N) (list byte)) file_path output_path metadata
        image_data img first remaining chunks,
        fs !! file_path = Some image_data ->
        Image_open image_data = Some img ->
        save_png img = Some (first, remaining) ->
        png_entries (App.create_xmp_packet metadata) metadata = Ok chunks ->
        forallb Png.fits chunks = true ->
        App.write_metadata_to_png fs file_path output_path metadata
          = (true,
             <[output_path := Png.serialize (first ++ chunks ++ remaining)]>
               fs)
        /\ length chunks = 11
        /\ (forallb Png.fits (first ++ remaining) = true ->
            chunks_written first chunks remaining
              (Png.serialize (first ++ chunks ++ remaining))))
  /\ (forall image_data metadata out,
        Api.process_png_metadata image_data metadata = Ok out ->
        exists img first remaining chunks,
          Image_open image_data = Some img
          /\ save_png img = Some (first, remaining)
          /\ png_entries (Api.create_xmp_packet metadata) metadata
             = Ok chunks
          /\ out = Png.serialize (first ++ chunks ++ remaining))
  /\ (forall (fs fs' : gmap (list N) (list byte)) file_path output_path
        metadata,
        App.write_metadata_to_png fs file_path output_path metadata
          = (true, fs') ->
        exists image_data img first remaining chunks,
          fs !! file_path = Some image_data
          /\ Image_open image_data = Some img
          /\ save_png img = Some (first, remaining)
          /\ png_entries (App.create_xmp_packet metadata) metadata
             = Ok chunks
          /\ fs' = <[output_path :=
                       Png.serialize (first ++ chunks ++ remaining)]> fs).
Proof.
  assert (Hread : forall xmp_data metadata first remaining chunks,
            png_entries xmp_data metadata = Ok chunks ->
            forallb Png.fits chunks = true ->
            length chunks = 11
            /\ (forallb Png.fits (first ++ remaining) = true ->
                chunks_written first chunks remaining
                  (Png.serialize (first ++ chunks ++ remaining)))).
  { intros xmp_data metadata first remaining chunks Hinfo Hfit.
    destruct (png_entries_chunks _ _ _ Hinfo) as [Hlen Htext].
    split; [done|]. intros Hcodec. apply chunks_are_written; [done|].
    rewrite forallb_app in Hcodec. apply andb_true_iff in Hcodec as [H1 H2].
    rewrite !forallb_app, H1, Hfit, H2. done. }
  split; [apply png_entries_collect|].
  split; [apply text_chunk_latin1|].
  split; [apply text_chunk_unicode|].
  split; [|split; [|split]].
  - intros image_data metadata img first remaining chunks
      Himg Hsave Hinfo Hfit.
    split; [|by eapply Hread].
    unfold Api.process_png_metadata. rewrite Himg; run. rewrite Hinfo; run.
    by rewrite (png_save_ok _ _ _ _ Hsave Hfit).
  - intros fs file_path output_path metadata image_data img first remaining
      chunks Hfile Himg Hsave Hinfo Hfit.
    split; [|by eapply Hread].
    unfold App.write_metadata_to_png, App.write_metadata_to_png_try.
    rewrite Hfile; run. rewrite Himg; run. rewrite Hinfo; run.
    by rewrite (png_save_ok _ _ _ _ Hsave Hfit).
  - intros image_data metadata out. unfold Api.process_png_metadata.
    intros (img & Himg & Hk)%bind_ok.
    apply bind_ok in Hk as (chunks & Hinfo & Hsave).
    destruct (Image_open image_data) as [img'|]; [|discriminate].
    injection Himg as ->.
    destruct (png_save img chunks) as [out'|] eqn:Hout; [|discriminate].
    injection Hsave as ->.
    apply png_save_inv in Hout as (first & remaining & Hcodec & _ & ->).
    by exists img, first, remaining, chunks.
  - intros fs fs' file_path output_path metadata.
    unfold App.write_metadata_to_png, App.write_metadata_to_png_try.
    destruct (fs !! file_path) as [image_data|]; run; [|discriminate].
    destruct (Image_open image_data) as [img|] eqn:Himg; run; [|discriminate].
    destruct (png_entries _ metadata) as [chunks|] eqn:Hinfo; run;
      [|discriminate].
    destruct (png_save img chunks) as [out|] eqn:Hout; [|discriminate].
    intros [= <-].
    apply png_save_inv in Hout as (first & remaining & Hcodec & _ & ->).
    by exists image_data, img, first, remaining, chunks.
Qed.

End Chunks.

Lemma png_embed_writes_text_chunks_witness :
  (exists chunks,
     take 2 chunks
       = [Png.Chunk Png.tEXt (blit "Title" ++ [x00%byte] ++ blit "X");
          Png.Chunk Png.tEXt (blit "Description" ++ [x00%byte] ++ blit "Y")]
     /\ Api.process_png_metadata (IM := Double.imaging) Double.tiny_png
          title_and_description
        = Ok (Png.serialize
                ([Double.pixel_header] ++ chunks
                   ++ [Double.pixel_data; Png.Chunk Png.IEND []]))
     /\ chunks_written [Double.pixel_header] chunks
          [Double.pixel_data; Png.Chunk Png.IEND []]
          (Png.serialize
             ([Double.pixel_header] ++ chunks
                ++ [Double.pixel_data; Png.Chunk Png.IEND []])))
  /\ (exists chunks,
        App.write_metadata_to_png (IM := Double.imaging)
          {[lit "in.png" := Double.tiny_png]} (lit "in.png") (lit "out.png")
          title_and_description
        = (true,
           <[lit "out.png" :=
               Png.serialize
                 ([Double.pixel_header] ++ chunks
                    ++ [Double.pixel_data; Png.Chunk Png.IEND []])]>
             {[lit "in.png" := Double.tiny_png]})
        /\ length chunks = 11).
Proof.
  destruct (png_embed_writes_text_chunks (IM := Double.imaging))
    as (_ & _ & _ & Hapi & Happ & _).
  split.
  - eassert (Hinfo : png_entries (Api.create_xmp_packet title_and_description)
                       title_and_description = Ok _)
      by (vm_compute; reflexivity).
    destruct (Hapi Double.tiny_png title_and_description Double.tiny_png
                _ _ _ eq_refl eq_refl Hinfo ltac:(by vm_compute))
      as (Hout & _ & Hread).
    eexists. split; [|split; [exact Hout | apply Hread; by vm_compute]].
    reflexivity.
  - eassert (Hinfo : png_entries (App.create_xmp_packet title_and_description)
                       title_and_description = Ok _)
      by (vm_compute; reflexivity).
    assert (Hfile : ({[lit "in.png" := Double.tiny_png]}
                       : gmap (list N) (list byte)) !! lit "in.png"
                    = Some Double.tiny_png) by reflexivity.
    destruct (Happ _ (lit "in.png") (lit "out.png") title_and_description
                Double.tiny_png Double.tiny_png _ _ _ Hfile eq_refl eq_refl
                Hinfo ltac:(by vm_compute))
      as (Hout & Hlen & _).
    eexists. split; [exact Hout | exact Hlen].
Defined.

(** C7, counterexample. A title that Latin-1 cannot encode (the
    service mark, U+2120): the chunk of the title is not a chunk with
    payload keyword + NUL + value. It is an [iTXt] chunk, whose payload
    has five zero bytes between the keyword and the UTF-8 bytes of the
    value, and it is the second chunk of the stream that
    [process_png_metadata] returns. *)
Lemma unencodable_title_gets_another_payload :
  Png.encode_latin1 [8480%N] = None
  /\ encode_utf8 [8480%N] = Ok [xe2; x84; xa0]%byte
  /\ (exists rest,
        png_entries (Api.create_xmp_packet (titled [8480%N]))
          (titled [8480%N])
        = Ok (Png.Chunk Png.iTXt
                (blit "Title" ++ [x00; x00; x00; x00; x00]%byte
                   ++ [xe2; x84; xa0]%byte) :: rest))
  /\ blit "Title" ++ [x00; x00; x00; x00; x00]%byte ++ [xe2; x84; xa0]%byte
     <> blit "Title" ++ [x00]%byte ++ [xe2; x84; xa0]%byte
  /\ (exists out stored,
        Api.process_png_metadata (IM := Double.imaging) Double.tiny_png
          (titled [8480%N]) = Ok out
        /\ Png.read_png out = Some stored
        /\ stored !! 1
           = Some (Png.stored_of
                     (Png.Chunk Png.iTXt
                        (blit "Title" ++ [x00; x00; x00; x00; x00]%byte
                           ++ [xe2; x84; xa0]%byte)))).
Proof.
  split; [reflexivity|]. split; [reflexivity|].
  split; [eexists; vm_compute; reflexivity|].
  split; [discriminate|].
  eassert (Hout : Api.process_png_metadata (IM := Double.imaging)
                    Double.tiny_png (titled [8480%N]) = Ok _)
    by (vm_compute; reflexivity).
  eassert (Hread : Png.read_png _ = Some _);
    [|eexists _, _; split; [exact Hout|]; split; [exact Hread|]].
  - vm_compute. reflexivity.
  - vm_compute. reflexivity.
Qed.

(** * Further properties of the code *)

(** ** The packet builder *)

(** X1. Whatever the record, the packet begins with the [xpacket begin]
    processing instruction that carries the fixed id, and ends with the
    [xpacket end] instruction. *)
Theorem packet_envelope (metadata : gmap string (list N)) :
  let opening := lit "<?xpacket begin=`` id=`W5M0MpCehiHzreSzNTczkc9d`?>" in
  let closing := lit "<?xpacket end=`w`?>" in
  (opening `prefix_of` Api.create_xmp_packet metadata
   /\ closing `suffix_of` Api.create_xmp_packet metadata)
  /\ (opening `prefix_of` App.create_xmp_packet metadata
      /\ closing `suffix_of` App.create_xmp_packet metadata).
Proof.
  intros opening closing.
  assert (Hend : closing `suffix_of` Xmp.xmp_part12).
  { exists (take (length Xmp.xmp_part12 - length closing) Xmp.xmp_part12).
    by vm_compute. }
  assert (Hany : forall head, opening `prefix_of` head ->
            opening `prefix_of` Xmp.xmp_packet head metadata
            /\ closing `suffix_of` Xmp.xmp_packet head metadata).
  { intros head Hhead. unfold Xmp.xmp_packet. split.
    - by apply prefix_app_r.
    - do 24 apply suffix_app_r. exact Hend. }
  split; apply Hany.
  - exists (drop (length opening) Xmp.xmp_head_api). by vm_compute.
  - exists (drop (length opening) Xmp.xmp_head_app). by vm_compute.
Qed.

(** X2. The packet depends on the twelve [xmp_*] keys only: two records
    that agree on them give the same packet, so no [exif_*] or [iptc_*]
    field reaches the XMP packet. *)
Theorem packet_reads_only_its_keys (m1 m2 : gmap string (list N)) :
  (forall key dflt, (key, dflt) ∈ xmp_defaults -> m1 !! key = m2 !! key) ->
  Api.create_xmp_packet m1 = Api.create_xmp_packet m2
  /\ App.create_xmp_packet m1 = App.create_xmp_packet m2.
Proof.
  intros Hagree.
  assert (Hget : forall key dflt, (key, dflt) ∈ xmp_defaults ->
            get m1 key dflt = get m2 key dflt).
  { intros key dflt Hin. unfold get. by rewrite (Hagree key dflt Hin). }
  unfold Api.create_xmp_packet, App.create_xmp_packet, Xmp.xmp_packet.
  rewrite !Hget by (apply list_elem_of_In; simpl; auto 20).
  done.
Qed.

Lemma packet_reads_only_its_keys_witness :
  Api.create_xmp_packet {["iptc_keywords" := lit "a, b"]}
    = Api.create_xmp_packet ∅.
Proof.
  refine (proj1 (packet_reads_only_its_keys
                   {["iptc_keywords" := lit "a, b"]} ∅ _)).
  intros key dflt Hin. apply list_elem_of_In in Hin. simpl in Hin.
  repeat (destruct Hin as [[= <- <-]|Hin]; [reflexivity|]). destruct Hin.
Defined.

(** ** The keyword list *)

Lemma split_without_sep (sep : N) (s t : list N) :
  t ∈ split sep s -> sep ∉ t.
Proof.
  revert t. induction s as [|a s IH]; intros t Ht.
  - apply list_elem_of_singleton in Ht as ->. apply not_elem_of_nil.
  - cbn [split] in Ht. destruct (N.eqb_spec a sep) as [->|Hne].
    + apply elem_of_cons in Ht as [->|Ht]; [apply not_elem_of_nil | auto].
    + destruct (split sep s) as [|t0 ts] eqn:E.
      * apply list_elem_of_singleton in Ht as ->.
        intros ->%list_elem_of_singleton. done.
      * apply elem_of_cons in Ht as [->|Ht].
        -- intros [->|Hin]%elem_of_cons; [done|].
           by apply (IH t0); [left|].
        -- apply IH. by right.
Qed.

Lemma split_single (sep : N) (a : list N) :
  sep ∉ a -> split sep a = [a].
Proof.
  induction a as [|c a IH]; intros Ha; [done|].
  cbn [split]. rewrite (proj2 (N.eqb_neq c sep)) by (intros ->; apply Ha; by left).
  rewrite IH by (intros Hin; apply Ha; by right). done.
Qed.

Lemma split_app (sep : N) (a b : list N) :
  sep ∉ a -> split sep (a ++ sep :: b) = a :: split sep b.
Proof.
  induction a as [|c a IH]; intros Ha.
  - cbn [app split]. by rewrite N.eqb_refl.
  - cbn [app split].
    rewrite (proj2 (N.eqb_neq c sep)) by (intros ->; apply Ha; by left).
    rewrite IH by (intros Hin; apply Ha; by right). done.
Qed.

Lemma drop_while_head {A} (p : A -> bool) (l : list A) (x : A) :
  head (drop_while p l) = Some x -> p x = false.
Proof.
  induction l as [|a l IH]; [done|]. cbn [drop_while].
  destruct (p a) eqn:Hp; [done|]. by intros [= <-].
Qed.

Lemma drop_while_id {A} (p : A -> bool) (l : list A) :
  (forall x, head l = Some x -> p x = false) -> drop_while p l = l.
Proof.
  destruct l as [|a l]; [done|]. intros Hl. cbn [drop_while].
  by rewrite (Hl a eq_refl).
Qed.

Lemma head_rev {A} (l : list A) : head (rev l) = last l.
Proof.
  induction l as [|a l IH]; [done|]. cbn [rev].
  destruct l as [|b l]; [done|].
  change (last (a :: b :: l)) with (last (b :: l)). rewrite <- IH.
  cbn [rev]. by destruct (rev l).
Qed.

Lemma last_rev {A} (l : list A) : last (rev l) = head l.
Proof. rewrite <- (rev_involutive l) at 2. by rewrite head_rev. Qed.

Lemma rstrip_prefix (s : list N) : rstrip s `prefix_of` s.
Proof.
  unfold rstrip.
  assert (Hsuf : forall l : list N, drop_while isspace l `suffix_of` l).
  { induction l as [|a l IH]; [done|]. cbn [drop_while].
    destruct (isspace a); [by apply suffix_cons_r | done]. }
  destruct (Hsuf (rev s)) as [k Hk].
  exists (rev k). rewrite <- rev_app_distr, <- Hk. by rewrite rev_involutive.
Qed.

Lemma strip_ends (s : list N) :
  (forall c, head (strip s) = Some c -> isspace c = false)
  /\ (forall c, last (strip s) = Some c -> isspace c = false).
Proof.
  split; intros c Hc.
  - destruct (rstrip_prefix (lstrip s)) as [k Hk].
    unfold strip in Hc. apply (drop_while_head isspace s).
    fold (lstrip s). rewrite Hk.
    destruct (rstrip (lstrip s)); [done|exact Hc].
  - unfold strip, rstrip in Hc. rewrite last_rev in Hc.
    by apply drop_while_head in Hc.
Qed.

Lemma strip_fixed (s : list N) :
  (forall c, head s = Some c -> isspace c = false) ->
  (forall c, last s = Some c -> isspace c = false) ->
  strip s = s.
Proof.
  intros Hh Hl. unfold strip, lstrip, rstrip.
  rewrite (drop_while_id isspace s) by done.
  rewrite drop_while_id; [apply rev_involutive|].
  intros x. rewrite head_rev. apply Hl.
Qed.

(** X3. Every keyword that [create_xmp_packet] writes is in normal form:
    it is not empty, holds no comma, and neither starts nor ends with
    white space, whatever the keyword field was. *)
Theorem keywords_are_trimmed (subject kw : list N) :
  kw ∈ Xmp.keywords_of subject -> well_trimmed kw.
Proof.
  unfold Xmp.keywords_of. intros Hkw.
  apply list_elem_of_In, in_map_iff in Hkw as (t & <- & Ht).
  apply filter_In in Ht as [Ht Hne]. apply list_elem_of_In in Ht.
  unfold well_trimmed. split; [by destruct (strip t)|]. split.
  - intros Hc. apply strip_chars in Hc.
    by apply (split_without_sep 44 subject t).
  - apply strip_ends.
Qed.

Lemma keywords_are_trimmed_witness :
  well_trimmed (lit "fractal flywheel").
Proof.
  apply (keywords_are_trimmed (lit " growth ,, fractal flywheel ,")).
  vm_compute. by right; left.
Defined.

Lemma split_joined (k : list N) (ks : list (list N)) :
  Forall well_trimmed (k :: ks) ->
  split 44 (join (lit ", ") (k :: ks)) = k :: map (cons 32%N) ks.
Proof.
  revert k. induction ks as [|k' ks IH]; intros k Hks.
  - apply Forall_cons in Hks as [(_ & Hk & _) _]. by apply split_single.
  - apply Forall_cons in Hks as [(_ & Hk & _) Hks].
    change (join (lit ", ") (k :: k' :: ks))
      with (k ++ 44%N :: 32%N :: join (lit ", ") (k' :: ks)).
    rewrite split_app by done. f_equal.
    cbn [split N.eqb Pos.eqb]. rewrite (IH k' Hks). done.
Qed.

Lemma strip_after_space (k : list N) :
  well_trimmed k -> strip (32%N :: k) = k /\ strip k = k.
Proof.
  intros (_ & _ & Hh & Hl).
  assert (Hk : strip k = k) by by apply strip_fixed.
  split; [|done]. unfold strip, lstrip in *. by cbn [drop_while isspace].
Qed.

(** X4. The keyword list survives the trip through the form: the page
    joins the keywords with a comma and a space, and [create_xmp_packet]
    recovers exactly the keywords that were joined, in order, when each
    is in normal form (not empty, no comma, no white space at its
    ends). *)
Theorem keywords_round_trip (keywords : list (list N)) :
  Forall well_trimmed keywords ->
  Xmp.keywords_of (join (lit ", ") keywords) = keywords.
Proof.
  intros Hks. destruct keywords as [|k ks]; [done|].
  unfold Xmp.keywords_of. rewrite split_joined by done.
  apply Forall_cons in Hks as [Hk Hks].
  destruct (strip_after_space k Hk) as [_ Hkk].
  cbn [List.filter map]. rewrite Hkk.
  destruct Hk as (Hne & _). destruct k as [|c k]; [done|].
  cbn [truthy map]. f_equal; [exact Hkk|]. clear Hkk Hne.
  induction Hks as [|k' ks Hk' Hks IH]; [done|].
  destruct (strip_after_space k' Hk') as [Hsp _].
  cbn [List.filter map]. rewrite Hsp.
  destruct Hk' as (Hne' & _). destruct k' as [|c' k']; [done|].
  cbn [truthy map]. by rewrite Hsp, IH.
Qed.

Lemma keywords_round_trip_witness :
  Xmp.keywords_of (join (lit ", ") [lit "growth"; lit "fractal flywheel"])
    = [lit "growth"; lit "fractal flywheel"].
Proof.
  apply keywords_round_trip.
  repeat constructor; try discriminate;
    try (intros c [= <-]; reflexivity);
    intros Hin; vm_compute in Hin;
    repeat (apply elem_of_cons in Hin as [Hin|Hin]; [discriminate Hin|]);
    by apply elem_of_nil in Hin.
Defined.

(** ** The marker-framed writers *)

Section Writers.
Context {IM : Imaging}.

(** X5. The exact capacity of the segment: on a file that begins with
    the start-of-image signature, [embed_xmp_in_jpeg] returns [True] if
    and only if the packet can be encoded in UTF-8 and takes at most 65504
    bytes; and when the imaging library has done its part,
    [process_jpeg_metadata] returns bytes under the same condition. *)
Theorem embed_succeeds_iff_packet_fits
    (fs : gmap (list N) (list byte)) (file_path xmp_data : list N)
    (data : list byte) :
  fs !! file_path = Some data ->
  take 2 data = Jpeg.soi ->
  (fst (App.embed_xmp_in_jpeg fs file_path xmp_data) = true
   <-> exists xmp_bytes,
         encode_utf8 xmp_data = Ok xmp_bytes /\ (len xmp_bytes <= 65504)%Z)
  /\ (forall image_data metadata img exif_bytes jpeg_data,
        Image_open image_data = Some img ->
        Jpeg.exif_bytes_for img metadata = Ok exif_bytes ->
        save_jpeg img exif_bytes = Some jpeg_data ->
        (exists out, Api.process_jpeg_metadata image_data metadata = Ok out)
        <-> exists xmp_bytes,
              encode_utf8 (Api.create_xmp_packet metadata) = Ok xmp_bytes
              /\ (len xmp_bytes <= 65504)%Z).
Proof.
  intros Hfile Hsoi. split.
  - rewrite <- xmp_segment_iff. split.
    + destruct (App.embed_xmp_in_jpeg fs file_path xmp_data) as [b fs'] eqn:E.
      cbn [fst]. intros ->.
      apply embed_xmp_in_jpeg_true in E as (? & seg & _ & _ & Hseg & _).
      by exists seg.
    + intros [seg Hseg].
      by rewrite (embed_xmp_in_jpeg_splices fs _ _ data seg).
  - intros image_data metadata img exif jpeg Himg Hexif Hjpeg.
    rewrite <- xmp_segment_iff. split.
    + intros [out (? & ? & ? & seg & _ & _ & _ & Hseg & _)%process_jpeg_metadata_ok].
      by exists seg.
    + intros [seg Hseg]. exists (Jpeg.splice jpeg seg).
      unfold Api.process_jpeg_metadata.
      rewrite Himg; run. rewrite Hexif; run. rewrite Hjpeg; run.
      by rewrite Hseg.
Qed.

Lemma embed_xmp_in_jpeg_frame
    (fs : gmap (list N) (list byte)) (file_path xmp_data other : list N) :
  other <> file_path ->
  snd (App.embed_xmp_in_jpeg fs file_path xmp_data) !! other = fs !! other.
Proof.
  intros Hne. unfold App.embed_xmp_in_jpeg, App.embed_xmp_in_jpeg_try.
  destruct (fs !! file_path) as [data|]; run; [|done].
  case_bool_decide; [done|].
  destruct (Jpeg.xmp_segment xmp_data) as [seg|]; run; [|done].
  cbn [snd]. by rewrite lookup_insert_ne.
Qed.

(** X6. [embed_xmp_in_jpeg] touches one file at most: it creates and
    deletes nothing, every other file keeps its content, and on a path
    that has no file it returns [False] and changes nothing. *)
Theorem embed_touches_one_file
    (fs : gmap (list N) (list byte)) (file_path xmp_data : list N) :
  dom (snd (App.embed_xmp_in_jpeg fs file_path xmp_data)) = dom fs
  /\ (forall other, other <> file_path ->
        snd (App.embed_xmp_in_jpeg fs file_path xmp_data) !! other
          = fs !! other)
  /\ (fs !! file_path = None ->
      App.embed_xmp_in_jpeg fs file_path xmp_data = (false, fs)).
Proof.
  unfold App.embed_xmp_in_jpeg, App.embed_xmp_in_jpeg_try.
  destruct (fs !! file_path) as [data|] eqn:Hfile; run; [|done].
  case_bool_decide; [done|].
  destruct (Jpeg.xmp_segment xmp_data) as [seg|]; run; [|done].
  cbn [snd]. split; [|split; [|done]].
  - apply dom_insert_lookup_L. by rewrite Hfile.
  - intros other Hne. by rewrite lookup_insert_ne.
Qed.

(** X7. The embed loses nothing of the stream: after a successful
    [embed_xmp_in_jpeg] the file is longer by the segment (33 bytes and
    the UTF-8 packet), and cutting the segment out again gives back the
    original bytes. *)
Theorem embed_keeps_the_stream
    (fs fs' : gmap (list N) (list byte)) (file_path xmp_data : list N) :
  App.embed_xmp_in_jpeg fs file_path xmp_data = (true, fs') ->
  exists data xmp_bytes out,
    fs !! file_path = Some data
    /\ encode_utf8 xmp_data = Ok xmp_bytes
    /\ fs' !! file_path = Some out
    /\ length out = length data + 33 + length xmp_bytes
    /\ take 2 out ++ drop (35 + length xmp_bytes) out = data.
Proof.
  intros (data & seg & Hfile & Hsoi & Hseg & ->)%embed_xmp_in_jpeg_true.
  destruct (xmp_segment_ok _ _ Hseg) as (xb & lb & Henc & Hlb & _ & _ & ->).
  exists data, xb, (Jpeg.splice data (Jpeg.xmp_marker ++ lb ++ Jpeg.xmp_header ++ xb)).
  split; [done|]. split; [done|]. split; [apply lookup_insert_eq|].
  assert (Hlen : length (Jpeg.xmp_marker ++ lb ++ Jpeg.xmp_header ++ xb)
                 = 33 + length xb).
  { rewrite !length_app, Hlb, xmp_header_length. reflexivity. }
  split; [rewrite splice_length; lia|].
  pose proof (soi_length data Hsoi) as H2.
  unfold Jpeg.splice.
  rewrite take_app_length' by (rewrite length_take; lia).
  replace (35 + length xb)
    with (length (take 2 data)
          + length (Jpeg.xmp_marker ++ lb ++ Jpeg.xmp_header ++ xb))
    by (rewrite length_take, Hlen; lia).
  rewrite <- drop_drop, drop_app_length, drop_app_length.
  apply take_drop.
Qed.

(** X8. The embed keeps the segment table: after a successful
    [embed_xmp_in_jpeg] the segments of the file are the new XMP segment
    followed by all the segments the file had, in their order and with
    their payloads (an Exif segment stays where it was, one place
    further). *)
Theorem embed_keeps_the_segments
    (fs fs' : gmap (list N) (list byte)) (file_path xmp_data : list N) :
  App.embed_xmp_in_jpeg fs file_path xmp_data = (true, fs') ->
  exists data xmp_bytes out,
    fs !! file_path = Some data
    /\ encode_utf8 xmp_data = Ok xmp_bytes
    /\ fs' !! file_path = Some out
    /\ Scan.segments out
       = (xe1%byte, Jpeg.xmp_header ++ xmp_bytes) :: Scan.segments data.
Proof.
  intros (data & seg & Hfile & Hsoi & Hseg & ->)%embed_xmp_in_jpeg_true.
  destruct (segments_splice data seg xmp_data (soi_length _ Hsoi) Hseg)
    as (xb & Henc & Hsegs).
  exists data, xb, (Jpeg.splice data seg).
  split; [done|]. split; [done|]. split; [apply lookup_insert_eq | done].
Qed.

End Writers.

Lemma embed_succeeds_iff_packet_fits_witness :
  fst (App.embed_xmp_in_jpeg {[lit "a.jpg" := Double.tiny_jpeg]}
         (lit "a.jpg") (lit "<x/>")) = true.
Proof.
  assert (Hfile : ({[lit "a.jpg" := Double.tiny_jpeg]}
                     : gmap (list N) (list byte)) !! lit "a.jpg"
                  = Some Double.tiny_jpeg) by reflexivity.
  apply (proj1 (embed_succeeds_iff_packet_fits (IM := Double.imaging)
                  _ (lit "a.jpg") (lit "<x/>") Double.tiny_jpeg
                  Hfile eq_refl)).
  eexists. split; [vm_compute; reflexivity|]. by vm_compute.
Defined.

Lemma embed_touches_one_file_witness :
  App.embed_xmp_in_jpeg {[lit "a.jpg" := Double.tiny_jpeg]}
    (lit "b.jpg") (lit "<x/>")
  = (false, {[lit "a.jpg" := Double.tiny_jpeg]}).
Proof.
  apply (embed_touches_one_file {[lit "a.jpg" := Double.tiny_jpeg]}
           (lit "b.jpg") (lit "<x/>")).
  reflexivity.
Defined.

Lemma embed_keeps_the_stream_witness :
  exists fs' out,
    App.embed_xmp_in_jpeg {[lit "a.jpg" := Double.tiny_jpeg]}
      (lit "a.jpg") (lit "<x/>") = (true, fs')
    /\ fs' !! lit "a.jpg" = Some out
    /\ take 2 out ++ drop 39 out = Double.tiny_jpeg.
Proof.
  eassert (E : App.embed_xmp_in_jpeg {[lit "a.jpg" := Double.tiny_jpeg]}
                 (lit "a.jpg") (lit "<x/>") = (true, _))
    by (vm_compute; reflexivity).
  destruct (embed_keeps_the_stream _ _ _ _ E)
    as (data & xb & out & Hdata & Hxb & Hout & _ & Hback).
  eexists _, out. split; [exact E|]. split; [exact Hout|].
  vm_compute in Hdata. injection Hdata as <-.
  vm_compute in Hxb. injection Hxb as <-. exact Hback.
Defined.

Lemma embed_keeps_the_segments_witness :
  exists fs' out,
    App.embed_xmp_in_jpeg {[lit "a.jpg" := Double.tiny_jpeg]}
      (lit "a.jpg") (lit "<x/>") = (true, fs')
    /\ fs' !! lit "a.jpg" = Some out
    /\ length (Scan.segments out) = 5.
Proof.
  eassert (E : App.embed_xmp_in_jpeg {[lit "a.jpg" := Double.tiny_jpeg]}
                 (lit "a.jpg") (lit "<x/>") = (true, _))
    by (vm_compute; reflexivity).
  destruct (embed_keeps_the_segments _ _ _ _ E)
    as (data & xb & out & Hdata & _ & Hout & Hsegs).
  eexists _, out. split; [exact E|]. split; [exact Hout|].
  rewrite Hsegs. vm_compute in Hdata. injection Hdata as <-. reflexivity.
Defined.

Section JpegWriter.
Context {IM : Imaging}.

(** X9. What [write_metadata_to_jpeg] leaves behind when the imaging
    library has written the output file: it returns [True], and the
    output file is the library's stream with the XMP segment spliced in
    when the segment could be built, and the library's stream alone (EXIF
    but no XMP packet) when it could not: the failure of the XMP step is
    not reported. *)
Theorem write_metadata_to_jpeg_outcome
    (fs : gmap (list N) (list byte)) (file_path output_path : list N)
    (metadata : gmap string (list N)) (data : list byte) (img : image)
    (exif_bytes jpeg_data : list byte) :
  fs !! file_path = Some data ->
  Image_open data = Some img ->
  Jpeg.exif_bytes_for img metadata = Ok exif_bytes ->
  save_jpeg img exif_bytes = Some jpeg_data ->
  take 2 jpeg_data = Jpeg.soi ->
  App.write_metadata_to_jpeg fs file_path output_path metadata
  = (true,
     <[output_path :=
         match Jpeg.xmp_segment (App.create_xmp_packet metadata) with
         | Ok seg => Jpeg.splice jpeg_data seg
         | Raise _ => jpeg_data
         end]> fs).
Proof.
  intros Hfile Himg Hexif Hjpeg Hsoi.
  unfold App.write_metadata_to_jpeg, App.write_metadata_to_jpeg_try.
  rewrite Hfile; run. rewrite Himg; run. rewrite Hexif; run.
  rewrite Hjpeg; run.
  unfold App.embed_xmp_in_jpeg, App.embed_xmp_in_jpeg_try.
  rewrite lookup_insert_eq; run.
  rewrite bool_decide_eq_false_2 by (by intros []).
  destruct (Jpeg.xmp_segment _) as [seg|]; run; cbn [snd]; [|done].
  by rewrite insert_insert_eq.
Qed.

Lemma jpeg_writer_frame
    (fs : gmap (list N) (list byte)) (file_path output_path other : list N)
    (metadata : gmap string (list N)) :
  other <> output_path ->
  snd (App.write_metadata_to_jpeg fs file_path output_path metadata) !! other
  = fs !! other.
Proof.
  intros Hne.
  unfold App.write_metadata_to_jpeg, App.write_metadata_to_jpeg_try.
  destruct (fs !! file_path) as [data|]; run; [|done].
  destruct (Image_open data) as [img|]; run; [|done].
  destruct (Jpeg.exif_bytes_for img metadata) as [exif|]; run; [|done].
  destruct (save_jpeg img exif) as [jpeg|]; cbn [snd].
  - rewrite embed_xmp_in_jpeg_frame by done. by rewrite lookup_insert_ne.
  - by rewrite lookup_partial_alter_ne.
Qed.

(** X10. [write_metadata_to_jpeg] never loses the input: when the two
    paths differ, the input file is there afterwards with the content it
    had, and so is every other file but the output, whether the writer
    returns [True] or [False]; when the input file does not exist, the
    writer returns [False] and nothing is written. *)
Theorem write_metadata_to_jpeg_frame
    (fs : gmap (list N) (list byte)) (file_path output_path : list N)
    (metadata : gmap string (list N)) :
  (forall other, other <> output_path ->
     snd (App.write_metadata_to_jpeg fs file_path output_path metadata)
       !! other = fs !! other)
  /\ (fs !! file_path = None ->
      App.write_metadata_to_jpeg fs file_path output_path metadata
      = (false, fs)).
Proof.
  split.
  - intros other Hne. by apply jpeg_writer_frame.
  - intros Hmissing.
    unfold App.write_metadata_to_jpeg, App.write_metadata_to_jpeg_try.
    by rewrite Hmissing.
Qed.

End JpegWriter.

Lemma write_metadata_to_jpeg_outcome_witness :
  exists exif_bytes : list byte,
    App.write_metadata_to_jpeg (IM := Double.imaging)
      {[lit "a.jpg" := Double.tiny_jpeg]} (lit "a.jpg") (lit "out.jpg")
      long_record
    = (true,
       <[lit "out.jpg" :=
           Jpeg.soi ++ Double.exif_segment exif_bytes ++ [xff; xd9]%byte]>
         {[lit "a.jpg" := Double.tiny_jpeg]}).
Proof.
  eassert (Hexif : Jpeg.exif_bytes_for (IM := Double.imaging)
                     Double.tiny_jpeg long_record = Ok _)
    by (vm_compute; reflexivity).
  assert (Hfile : ({[lit "a.jpg" := Double.tiny_jpeg]}
                     : gmap (list N) (list byte)) !! lit "a.jpg"
                  = Some Double.tiny_jpeg) by reflexivity.
  eexists.
  rewrite (write_metadata_to_jpeg_outcome (IM := Double.imaging)
             _ (lit "a.jpg") (lit "out.jpg") long_record Double.tiny_jpeg
             Double.tiny_jpeg _ _ Hfile eq_refl Hexif eq_refl eq_refl).
  eassert (Hbig : Jpeg.segment_length (App.create_xmp_packet long_record)
                  = Ok _) by (vm_compute; reflexivity).
  rewrite (xmp_segment_overflow _ _ Hbig) by lia.
  reflexivity.
Defined.

Lemma write_metadata_to_jpeg_frame_witness :
  snd (App.write_metadata_to_jpeg (IM := Double.imaging)
         {[lit "a.jpg" := Double.tiny_jpeg]} (lit "a.jpg") (lit "out.jpg")
         ∅) !! lit "a.jpg"
  = Some Double.tiny_jpeg.
Proof.
  rewrite (proj1 (write_metadata_to_jpeg_frame (IM := Double.imaging)
                    {[lit "a.jpg" := Double.tiny_jpeg]} (lit "a.jpg")
                    (lit "out.jpg") ∅))
    by discriminate.
  reflexivity.
Defined.

(** ** The EXIF dictionary *)

Section Exif.
Context {IM : Imaging}.

Lemma exif_bytes_for_dict (img : image) (metadata : gmap string (list N)) :
  Jpeg.exif_bytes_for img metadata
  = exif_dict_for img metadata ≫= fun d => of_option ImagingError (piexif_dump d).
Proof.
  unfold Jpeg.exif_bytes_for, exif_dict_for.
  repeat (match goal with
          | |- context [encode_utf8 ?x] => destruct (encode_utf8 x); run
          end); reflexivity.
Qed.

Lemma exif_tag_set_same (d : exif_dict) (ifd : string) (tag : Z)
    (v : list byte) :
  exif_tag (set_tag ifd tag v d) ifd tag = Some v.
Proof.
  unfold exif_tag, set_tag. rewrite lookup_insert_eq. cbn.
  apply lookup_insert_eq.
Qed.

Lemma exif_tag_set_other (d : exif_dict) (ifd ifd' : string) (tag tag' : Z)
    (v : list byte) :
  (ifd, tag) <> (ifd', tag') ->
  exif_tag (set_tag ifd tag v d) ifd' tag' = exif_tag d ifd' tag'.
Proof.
  intros Hne. unfold exif_tag, set_tag.
  destruct (decide (ifd = ifd')) as [<-|Hifd].
  - rewrite lookup_insert_eq. cbn.
    rewrite lookup_insert_ne by congruence.
    by destruct (d !! ifd).
  - by rewrite lookup_insert_ne.
Qed.

Lemma exif_dict_for_inv
    (img : image) (metadata : gmap string (list N)) (d : exif_dict) :
  exif_dict_for img metadata = Ok d ->
  exists artist copyright description comment,
    encode_utf8 (get metadata "exif_artist" (lit "GroundSwell")) = Ok artist
    /\ encode_utf8 (get metadata "exif_copyright" (lit blank)) = Ok copyright
    /\ encode_utf8 (get metadata "exif_description" (lit blank))
       = Ok description
    /\ encode_utf8 (get metadata "exif_user_comment" (lit blank)) = Ok comment
    /\ d = set_tag "Exif" ExifIFD_UserComment
             (blit "ASCII" ++ [x00; x00; x00]%byte ++ comment)
             (set_tag "0th" ImageIFD_ImageDescription description
                (set_tag "0th" ImageIFD_Copyright copyright
                   (set_tag "0th" ImageIFD_Artist artist
                      (default exif_fallback
                         (piexif_load (info_exif img)))))).
Proof.
  unfold exif_dict_for.
  intros (a & Ha & Hk)%bind_ok.
  apply bind_ok in Hk as (c & Hc & Hk).
  apply bind_ok in Hk as (ds & Hds & Hk).
  apply bind_ok in Hk as (u & Hu & [= <-]).
  by exists a, c, ds, u.
Qed.

(** X11. The dictionary that the JPEG writers hand to [piexif.dump]
    holds the four tags of the record: Artist, Copyright and
    ImageDescription in the 0th IFD as the UTF-8 bytes of their fields (or
    of the default), and UserComment in the Exif IFD as the 8-byte prefix
    [ASCII\0\0\0] followed by the UTF-8 bytes of the comment. Every other
    tag is the one of the dictionary loaded from the image (of the empty
    fallback when it cannot be loaded): existing tags are kept. *)
Theorem exif_dict_holds_the_record
    (img : image) (metadata : gmap string (list N)) (d : exif_dict) :
  exif_dict_for img metadata = Ok d ->
  exists artist copyright description comment,
    encode_utf8 (get metadata "exif_artist" (lit "GroundSwell")) = Ok artist
    /\ encode_utf8 (get metadata "exif_copyright" (lit blank)) = Ok copyright
    /\ encode_utf8 (get metadata "exif_description" (lit blank))
       = Ok description
    /\ encode_utf8 (get metadata "exif_user_comment" (lit blank)) = Ok comment
    /\ exif_tag d "0th" ImageIFD_Artist = Some artist
    /\ exif_tag d "0th" ImageIFD_Copyright = Some copyright
    /\ exif_tag d "0th" ImageIFD_ImageDescription = Some description
    /\ exif_tag d "Exif" ExifIFD_UserComment
       = Some (blit "ASCII" ++ [x00; x00; x00]%byte ++ comment)
    /\ (forall ifd tag,
          (ifd, tag) ∉ written_tags ->
          exif_tag d ifd tag
          = exif_tag (default exif_fallback (piexif_load (info_exif img)))
              ifd tag).
Proof.
  intros (a & c & ds & u & Ha & Hc & Hds & Hu & ->)%exif_dict_for_inv.
  exists a, c, ds, u. do 4 (split; [done|]).
  set (d0 := default exif_fallback (piexif_load (info_exif img))).
  split; [|split; [|split; [|split]]].
  - rewrite !exif_tag_set_other by (intros [=]). apply exif_tag_set_same.
  - rewrite !exif_tag_set_other by (intros [=]). apply exif_tag_set_same.
  - rewrite !exif_tag_set_other by (intros [=]). apply exif_tag_set_same.
  - apply exif_tag_set_same.
  - intros ifd tag Hnot.
    rewrite !exif_tag_set_other; [done|..]; intros [= <- <-]; apply Hnot;
      unfold written_tags; apply list_elem_of_In; simpl; auto.
Qed.


End Exif.

Lemma exif_dict_holds_the_record_witness :
  exif_tag (comment_only (blit "growth")) "GPS" 1 = None.
Proof.
  assert (E : exif_dict_for (IM := Double.imaging) Double.tiny_jpeg
                {["exif_user_comment" := lit "growth"]}
              = Ok (comment_only (blit "growth")))
    by (vm_compute; reflexivity).
  destruct (exif_dict_holds_the_record _ _ _ E)
    as (_ & _ & _ & _ & _ & _ & _ & _ & _ & _ & _ & _ & Hother).
  rewrite Hother; [reflexivity|].
  unfold written_tags. intros Hin.
  repeat (apply elem_of_cons in Hin as [[=]|Hin]).
  by apply elem_of_nil in Hin.
Defined.


(** ** The dispatcher and the media type *)

Section Dispatcher.
Context {RT : Runtime} {IM : Imaging}.

Lemma write_metadata_to_png_frame
    (fs : gmap (list N) (list byte)) (file_path output_path other : list N)
    (metadata : gmap string (list N)) :
  other <> output_path ->
  snd (App.write_metadata_to_png fs file_path output_path metadata) !! other
  = fs !! other.
Proof.
  intros Hne.
  unfold App.write_metadata_to_png, App.write_metadata_to_png_try.
  destruct (fs !! file_path) as [data|]; run; [|done].
  destruct (Image_open data) as [img|]; run; [|done].
  destruct (png_entries _ metadata) as [pnginfo|]; run; [|done].
  destruct (png_save img pnginfo) as [out|]; cbn [snd].
  - by rewrite lookup_insert_ne.
  - by rewrite lookup_partial_alter_ne.
Qed.

(** X13. [write_metadata_to_image] writes to the output path only,
    whatever the extension and the outcome. For an input file that does
    not exist the two writers return [False] and change nothing, while
    the copy of an unsupported type raises [FileNotFoundError]. *)
Theorem write_metadata_to_image_frame
    (fs : gmap (list N) (list byte)) (file_path output_path : list N)
    (metadata : gmap string (list N)) :
  (forall written fs' other,
     App.write_metadata_to_image fs file_path output_path metadata
       = Ok (written, fs') ->
     other <> output_path -> fs' !! other = fs !! other)
  /\ (fs !! file_path = None ->
      App.write_metadata_to_image fs file_path output_path metadata
      = if is_jpeg_ext (str_lower (path_suffix file_path))
           || is_png_ext (str_lower (path_suffix file_path))
        then Ok (false, fs)
        else Raise FileNotFoundError).
Proof.
  unfold App.write_metadata_to_image. split.
  - intros written fs' other Hrun Hne.
    destruct (is_jpeg_ext _).
    { injection Hrun as Hrun.
      pose proof (jpeg_writer_frame fs file_path output_path other
                    metadata Hne) as Hf.
      by rewrite Hrun in Hf. }
    destruct (is_png_ext _).
    { injection Hrun as Hrun.
      pose proof (write_metadata_to_png_frame fs file_path output_path other
                    metadata Hne) as Hf.
      by rewrite Hrun in Hf. }
    unfold App.copy2 in Hrun.
    destruct (fs !! file_path) as [data|]; [|discriminate].
    revert Hrun; run. case_bool_decide; [discriminate|]. run.
    intros Hrun. simplify_eq. by rewrite lookup_insert_ne.
  - intros Hmissing.
    destruct (is_jpeg_ext _); cbn [orb].
    { unfold App.write_metadata_to_jpeg, App.write_metadata_to_jpeg_try.
      by rewrite Hmissing. }
    destruct (is_png_ext _).
    { unfold App.write_metadata_to_png, App.write_metadata_to_png_try.
      by rewrite Hmissing. }
    unfold App.copy2. by rewrite Hmissing.
Qed.

End Dispatcher.

Section MediaType.
Context {RT : Runtime} {SV : Services}.

(** X14. [get_media_type] always answers with one of the four types
    that [upload_image] accepts, and agrees with the dispatcher: a name
    that goes to the JPEG writer is [image/jpeg], a name that goes to the
    PNG writer is [image/png]; a name with any extension outside the
    table is reported as [image/jpeg]. *)
Theorem get_media_type_is_allowed (filename : list N) :
  let ext := str_lower (path_suffix filename) in
  Analysis.get_media_type filename ∈ Endpoint.allowed_types
  /\ (is_jpeg_ext ext = true ->
      Analysis.get_media_type filename = lit "image/jpeg")
  /\ (is_png_ext ext = true ->
      Analysis.get_media_type filename = lit "image/png")
  /\ (ext ∉ [lit ".jpg"; lit ".jpeg"; lit ".png"; lit ".gif"; lit ".webp"] ->
      Analysis.get_media_type filename = lit "image/jpeg").
Proof.
  intros ext. unfold Analysis.get_media_type. fold ext.
  assert (Hcases :
    ext = lit ".jpg" \/ ext = lit ".jpeg" \/ ext = lit ".png"
    \/ ext = lit ".gif" \/ ext = lit ".webp"
    \/ ext ∉ [lit ".jpg"; lit ".jpeg"; lit ".png"; lit ".gif"; lit ".webp"]).
  { destruct (decide (ext ∈ [lit ".jpg"; lit ".jpeg"; lit ".png";
                              lit ".gif"; lit ".webp"])) as [Hin|Hout];
      [|by do 5 right].
    repeat (apply elem_of_cons in Hin as [->|Hin]; [tauto|]).
    by apply elem_of_nil in Hin. }
  assert (Hmiss :
    ext ∉ [lit ".jpg"; lit ".jpeg"; lit ".png"; lit ".gif"; lit ".webp"] ->
    Analysis.media_types !! ext = None).
  { intros Hout. unfold Analysis.media_types.
    apply not_elem_of_list_to_map_1. intros Hin. apply Hout.
    apply list_elem_of_In in Hin. apply list_elem_of_In. exact Hin. }
  split; [|split; [|split]].
  - destruct Hcases as [->|[->|[->|[->|[->|Hout]]]]];
      try (vm_compute; apply list_elem_of_In; simpl; tauto).
    rewrite (Hmiss Hout). apply list_elem_of_In; simpl; tauto.
  - unfold is_jpeg_ext. intros Hin%bool_decide_eq_true.
    apply elem_of_cons in Hin as [->|Hin]; [reflexivity|].
    apply list_elem_of_singleton in Hin as ->. reflexivity.
  - unfold is_png_ext. intros ->%bool_decide_eq_true. reflexivity.
  - intros Hout. by rewrite (Hmiss Hout).
Qed.

End MediaType.

Lemma get_media_type_is_allowed_witness :
  Analysis.get_media_type (RT := Double.runtime) (lit "Chart.PNG")
  = lit "image/png".
Proof.
  apply (get_media_type_is_allowed (RT := Double.runtime) (lit "Chart.PNG")).
  reflexivity.
Defined.

Lemma write_metadata_to_image_frame_witness :
  App.write_metadata_to_image (RT := Double.runtime) (IM := Double.imaging) ∅ (lit "a.jpg") (lit "b.jpg") ∅
  = Ok (false, ∅)
  /\ App.write_metadata_to_image (RT := Double.runtime)
       (IM := Double.imaging)
       ∅ (lit "a.gif") (lit "b.gif") ∅
     = Raise FileNotFoundError.
Proof.
  split.
  - exact (proj2 (write_metadata_to_image_frame (RT := Double.runtime)
                    (IM := Double.imaging)
                    ∅ (lit "a.jpg") (lit "b.jpg") ∅) eq_refl).
  - exact (proj2 (write_metadata_to_image_frame (RT := Double.runtime)
                    (IM := Double.imaging)
                    ∅ (lit "a.gif") (lit "b.gif") ∅) eq_refl).
Defined.

(** ** The output file name, again *)

Section Stem.
Context {RT : Runtime}.

Lemma safe_title_of_kept (title : list N) (c : N) :
  c ∈ safe_title_of title -> kept c = true /\ c <> 32%N.
Proof.
  unfold safe_title_of. rewrite keep_is_filter.
  intros (i & Hc & _)%elem_of_take.
  apply list_elem_of_lookup_2, list_elem_of_In in Hc.
  apply in_map_iff in Hc as (c0 & <- & Hc0).
  apply filter_In in Hc0 as [_ Hk].
  destruct (N.eqb_spec c0 32) as [->|Hne]; [|done].
  split; [|discriminate]. unfold kept. apply orb_true_iff. right.
  apply bool_decide_eq_true. apply list_elem_of_In. simpl. tauto.
Qed.

(** X15. The stem of the output file name is a fixed point of the
    sanitising: applying it to a stem it produced changes nothing. *)
Theorem safe_title_of_idempotent (title : list N) :
  safe_title_of (safe_title_of title) = safe_title_of title.
Proof.
  assert (Hlen : length (safe_title_of title) <= 50).
  { unfold safe_title_of. rewrite length_take. lia. }
  pose proof (safe_title_of_kept title) as Hkept.
  revert Hlen Hkept. generalize (safe_title_of title) as stem.
  intros stem Hlen Hkept. unfold safe_title_of.
  rewrite keep_is_filter.
  assert (Hf : List.filter kept stem = stem).
  { clear Hlen. induction stem as [|c stem IH]; [done|]. simpl.
    destruct (Hkept c) as [-> _]; [by left|].
    f_equal. apply IH. intros c' Hc'. apply Hkept. by right. }
  rewrite Hf.
  assert (Hm : map (fun c => if (c =? 32)%N then 95%N else c) stem = stem).
  { clear Hlen Hf. induction stem as [|c stem IH]; [done|]. simpl.
    destruct (Hkept c) as [_ Hne]; [by left|].
    destruct (N.eqb_spec c 32) as [->|_]; [done|].
    f_equal. apply IH. intros c' Hc'. apply Hkept. by right. }
  rewrite Hm. by apply take_ge.
Qed.

(** X16. A title is taken from [xmp_title] whenever the record has that
    key, whatever it holds: when none of its characters is kept (an empty
    title, or punctuation only), the stem is empty, and neither
    [iptc_object_name] nor the default ['image'] is used. The file names
    are then [_groundswell<ext>] and [<file_id>_<ext>]. *)
Theorem title_without_usable_characters
    (metadata : gmap string (list N)) (title : list N)
    (filename file_id upload_path : list N) :
  metadata !! "xmp_title" = Some title ->
  Forall (fun c => kept c = false) title ->
  Api.output_filename filename metadata
    = lit "_groundswell" ++ path_suffix filename
  /\ App.output_filename file_id upload_path metadata
     = file_id ++ lit "_" ++ path_suffix upload_path.
Proof.
  intros Hkey Hnone.
  assert (Hstem : safe_title_of (title_of metadata) = []).
  { unfold title_of, get at 1. rewrite Hkey. simpl.
    unfold safe_title_of. rewrite keep_is_filter.
    replace (List.filter kept title) with (@nil N); [done|].
    clear Hkey. induction Hnone as [|c title Hc _ IH]; [done|].
    simpl. by rewrite Hc. }
  unfold Api.output_filename, App.output_filename, Api.safe_title,
    App.safe_title.
  by rewrite Hstem.
Qed.

End Stem.

Lemma title_without_usable_characters_witness :
  Api.output_filename (RT := Double.runtime) (lit "chart.png")
    (<["iptc_object_name" := lit "Chart"]> (titled (lit "?!")))
  = lit "_groundswell.png".
Proof.
  refine (proj1 (title_without_usable_characters (RT := Double.runtime)
                   (<["iptc_object_name" := lit "Chart"]> (titled (lit "?!")))
                   (lit "?!") (lit "chart.png") (lit "1a2b3c4d")
                   (lit "1a2b3c4d_original.png") _ _)).
  - reflexivity.
  - repeat constructor.
Defined.

(** ** The reading of the reply *)

Lemma find_from_absent (c : N) (s : list N) (i : Z) :
  c ∉ s -> Text.find_from c s i = (-1)%Z.
Proof.
  revert i. induction s as [|x s IH]; intros i Hc; [done|].
  apply not_elem_of_cons in Hc as [Hne Hc]. simpl.
  destruct (N.eqb_spec x c) as [->|_]; [done|]. by apply IH.
Qed.

Lemma find_from_first (c : N) (pre rest : list N) (i : Z) :
  c ∉ pre -> Text.find_from c (pre ++ c :: rest) i = (i + len pre)%Z.
Proof.
  revert i. induction pre as [|x pre IH]; intros i Hc; simpl.
  - rewrite N.eqb_refl. unfold len. simpl. lia.
  - apply not_elem_of_cons in Hc as [Hne Hc].
    destruct (N.eqb_spec x c) as [->|_]; [done|].
    rewrite IH by done. unfold len. simpl length. lia.
Qed.

Lemma rfind_from_absent (c : N) (s : list N) (i last : Z) :
  c ∉ s -> Text.rfind_from c s i last = last.
Proof.
  revert i last. induction s as [|x s IH]; intros i last Hc; [done|].
  apply not_elem_of_cons in Hc as [Hne Hc]. simpl.
  destruct (N.eqb_spec x c) as [->|_]; [done|]. by apply IH.
Qed.

Lemma rfind_from_last (c : N) (pre post : list N) (i last : Z) :
  c ∉ post -> Text.rfind_from c (pre ++ c :: post) i last = (i + len pre)%Z.
Proof.
  intros Hc. revert i last. induction pre as [|x pre IH]; intros i last; simpl.
  - rewrite N.eqb_refl, rfind_from_absent by done. unfold len. simpl. lia.
  - rewrite IH. unfold len. simpl length. lia.
Qed.

Lemma slice_middle (pre s post : list N) :
  Text.slice (pre ++ s ++ post) (len pre) (len pre + len s) = s.
Proof.
  unfold Text.slice, len.
  replace (Z.to_nat (Z.of_nat (length pre) + Z.of_nat (length s)
                     - Z.of_nat (length pre))) with (length s) by lia.
  rewrite Nat2Z.id, drop_app_length. apply take_app_length.
Qed.

(** The text between the first opening brace and the last closing
    brace, when the one comes before the other. *)
Lemma json_str_of_braces (pre mid post : list N) :
  123%N ∉ pre -> 125%N ∉ post ->
  Analysis.json_str_of (pre ++ [123%N] ++ mid ++ [125%N] ++ post)
  = Some ([123%N] ++ mid ++ [125%N]).
Proof.
  intros Hpre Hpost.
  set (s := [123%N] ++ mid ++ [125%N]).
  assert (Hs : len s = (len mid + 2)%Z).
  { unfold len, s. simpl length. rewrite length_app. simpl length. lia. }
  assert (Htext : pre ++ [123%N] ++ mid ++ [125%N] ++ post = pre ++ s ++ post).
  { unfold s. by rewrite <- !app_assoc. }
  assert (Hf : Text.find 123 (pre ++ [123%N] ++ mid ++ [125%N] ++ post)
               = len pre).
  { unfold Text.find.
    change (pre ++ [123%N] ++ mid ++ [125%N] ++ post)
      with (pre ++ 123%N :: (mid ++ [125%N] ++ post)).
    rewrite find_from_first by done. lia. }
  assert (Hr : Text.rfind 125 (pre ++ [123%N] ++ mid ++ [125%N] ++ post)
               = (len pre + len s - 1)%Z).
  { unfold Text.rfind.
    replace (pre ++ [123%N] ++ mid ++ [125%N] ++ post)
      with ((pre ++ [123%N] ++ mid) ++ 125%N :: post)
      by (by rewrite <- !app_assoc).
    rewrite rfind_from_last by done. rewrite Hs.
    unfold len. rewrite !length_app. simpl length. lia. }
  unfold Analysis.json_str_of. rewrite Hf, Hr.
  replace (len pre + len s - 1 + 1)%Z with (len pre + len s)%Z by lia.
  replace (negb (len pre =? -1)%Z) with true
    by (unfold len; symmetry; apply negb_true_iff, Z.eqb_neq; lia).
  replace (len pre + len s >? len pre)%Z with true
    by (symmetry; apply Z.gtb_lt; unfold len in *; lia).
  cbn [andb]. f_equal. rewrite Htext. apply slice_middle.
Qed.

Lemma json_str_of_none_cases (text : list N) :
  (forall pre mid post, text <> pre ++ [123%N] ++ mid ++ [125%N] ++ post) ->
  Analysis.json_str_of text = None.
Proof.
  intros Hno. unfold Analysis.json_str_of, Text.find, Text.rfind.
  destruct (decide (123%N ∈ text)) as [Hin|Hout];
    [|by rewrite find_from_absent].
  apply list_elem_of_split_l in Hin as (pre & rest & -> & Hpre).
  rewrite find_from_first by done.
  destruct (decide (125%N ∈ rest)) as [Hin|Hout].
  { apply list_elem_of_split_r in Hin as (mid & post & -> & _).
    by destruct (Hno pre mid post). }
  destruct (decide (125%N ∈ pre)) as [Hin|Hout'].
  - apply list_elem_of_split_r in Hin as (p1 & p2 & -> & Hp2).
    replace ((p1 ++ 125%N :: p2) ++ 123%N :: rest)
      with (p1 ++ 125%N :: (p2 ++ 123%N :: rest))
      by (by rewrite <- app_assoc).
    rewrite rfind_from_last.
    2:{ intros [?|[?|?]%elem_of_cons]%elem_of_app; done. }
    replace (0 + len p1 + 1 >? 0 + len (p1 ++ 125%N :: p2))%Z with false.
    { by rewrite andb_false_r. }
    symmetry. rewrite Z.gtb_ltb. apply Z.ltb_ge.
    unfold len. rewrite length_app. simpl length. lia.
  - rewrite rfind_from_absent.
    2:{ intros [?|[?|?]%elem_of_cons]%elem_of_app; done. }
    replace (-1 + 1 >? 0 + len pre)%Z with false.
    { by rewrite andb_false_r. }
    symmetry. rewrite Z.gtb_ltb. apply Z.ltb_ge. unfold len. lia.
Qed.

(** X17. The text handed to [json.loads], when there is one, is the
    part of the reply from its first opening brace to its last closing
    brace, both included; and there is one exactly when the reply has an
    opening brace before a closing one. *)
Theorem json_str_of_slice (text s : list N) :
  Analysis.json_str_of text = Some s <->
  exists pre mid post,
    text = pre ++ [123%N] ++ mid ++ [125%N] ++ post
    /\ (123%N ∉ pre) /\ (125%N ∉ post)
    /\ s = [123%N] ++ mid ++ [125%N].
Proof.
  split.
  - intros Hs.
    destruct (decide (123%N ∈ text)) as [Hin|Hout].
    2:{ unfold Analysis.json_str_of, Text.find in Hs.
        by rewrite find_from_absent in Hs. }
    apply list_elem_of_split_l in Hin as (pre & rest & -> & Hpre).
    destruct (decide (125%N ∈ rest)) as [Hin|Hout].
    + apply list_elem_of_split_r in Hin as (mid & post & -> & Hpost).
      exists pre, mid, post.
      change (pre ++ 123%N :: mid ++ 125%N :: post)
        with (pre ++ [123%N] ++ mid ++ [125%N] ++ post) in Hs.
      rewrite json_str_of_braces in Hs by done.
      by injection Hs as <-.
    + rewrite json_str_of_none_cases in Hs; [discriminate|].
      intros p m q Heq. apply Hout.
      assert (H125 : 125%N ∈ drop (length pre) (pre ++ 123%N :: rest)).
      { rewrite Heq.
        destruct (decide (length pre <= length p)) as [Hle|Hgt].
        - replace (p ++ [123%N] ++ m ++ [125%N] ++ q)
            with (take (length pre) p
                  ++ (drop (length pre) p ++ [123%N] ++ m ++ [125%N] ++ q))
            by (by rewrite app_assoc, take_drop).
          rewrite drop_app_length' by (rewrite length_take; lia).
          rewrite !elem_of_app. right; right; right; left. by left.
        - exfalso. apply Hpre.
          assert (Hp : (pre ++ 123%N :: rest) !! length p = Some 123%N).
          { rewrite Heq. by apply list_lookup_middle. }
          rewrite lookup_app_l in Hp by lia.
          by apply list_elem_of_lookup_2 in Hp. }
      rewrite drop_app_length in H125.
      apply elem_of_cons in H125 as [?|?]; done.
  - intros (pre & mid & post & -> & Hpre & Hpost & ->).
    by apply json_str_of_braces.
Qed.

(** X18. No text is handed to [json.loads] exactly when every closing
    brace of the reply comes before every opening brace. *)
Theorem json_str_of_none (text : list N) :
  Analysis.json_str_of text = None <->
  forall i j,
    text !! i = Some 123%N -> text !! j = Some 125%N -> j < i.
Proof.
  split.
  - intros Hnone i j Hi Hj.
    destruct (decide (j < i)) as [|Hge]; [done|]. exfalso.
    assert (Hij : i < j).
    { destruct (decide (i = j)) as [->|]; [congruence|lia]. }
    apply list_elem_of_split_length in Hi as (l1 & l2 & -> & ->).
    rewrite lookup_app_r in Hj by lia.
    destruct (j - length l1) as [|k] eqn:Hk; [lia|].
    simpl in Hj.
    apply list_elem_of_split_length in Hj as (m1 & m2 & -> & _).
    assert (H123 : 123%N ∈ l1 ++ [123%N]) by (apply elem_of_app; right; by left).
    apply list_elem_of_split_l in H123 as (pre & r1 & Hl & Hpre).
    assert (H125 : 125%N ∈ 125%N :: m2) by by left.
    apply list_elem_of_split_r in H125 as (r2 & post & Hr & Hpost).
    assert (Hsome :
      Analysis.json_str_of (l1 ++ 123%N :: m1 ++ 125%N :: m2)
      = Some ([123%N] ++ (r1 ++ m1 ++ r2) ++ [125%N])).
    { replace (l1 ++ 123%N :: m1 ++ 125%N :: m2)
        with ((l1 ++ [123%N]) ++ m1 ++ (125%N :: m2))
        by (by rewrite <- app_assoc).
      rewrite Hl, Hr.
      replace ((pre ++ 123%N :: r1) ++ m1 ++ r2 ++ 125%N :: post)
        with (pre ++ [123%N] ++ (r1 ++ m1 ++ r2) ++ [125%N] ++ post)
        by (by rewrite <- !app_assoc).
      by apply json_str_of_braces. }
    congruence.
  - intros Horder. apply json_str_of_none_cases.
    intros pre mid post ->.
    assert (Hi : (pre ++ [123%N] ++ mid ++ [125%N] ++ post) !! length pre
                 = Some 123%N) by by apply list_lookup_middle.
    assert (Hj : (pre ++ [123%N] ++ mid ++ [125%N] ++ post)
                   !! (length pre + 1 + length mid)
                 = Some 125%N).
    { rewrite lookup_app_r by lia. rewrite lookup_app_r by (simpl; lia).
      rewrite lookup_app_r by (simpl; lia). simpl length.
      by replace (length pre + 1 + length mid - length pre - 1 - length mid)
        with 0 by lia. }
    pose proof (Horder _ _ Hi Hj). lia.
Qed.

(** ** The endpoints and their storage *)

Section Endpoints.
Context {RT : Runtime} {IM : Imaging} {SV : Services}.

Lemma upload_try_inv (file_id : list N) (content : list byte)
    (name : list N) (reply : option (list N)) (now : Endpoint.clock)
    (response : gmap string pyobj) :
  Endpoint.upload_try file_id content name reply now = Some response ->
  exists metadata year,
    Analysis.analyze_image_with_claude reply name (Endpoint.at_fallback now)
      = Some metadata
    /\ Endpoint.first_four
         (Endpoint.pyget metadata "create_date"
            (PStr (Endpoint.at_year now))) = Some year
    /\ response
       = Endpoint.upload_content file_id
           (Endpoint.upload_metadata metadata year (Endpoint.at_field now))
    /\ json_response (PDict response) = true.
Proof.
  unfold Endpoint.upload_try.
  intros (metadata & Ha & Hk)%bind_Some.
  apply bind_Some in Hk as (year & Hy & Hk).
  exists metadata, year. split; [done|]. split; [done|].
  destruct (json_response _) eqn:Hr; [|discriminate].
  injection Hk as <-. by split.
Qed.

Lemma upload_image_reply_inv
    (file_storage storage' : gmap (list N) Endpoint.stored_file)
    (file : Endpoint.upload_file) (file_id : list N)
    (reply : option (list N)) (now : Endpoint.clock)
    (response : gmap string pyobj) :
  Endpoint.upload_image file_storage file file_id reply now
    = (Endpoint.Reply response, storage') ->
  Endpoint.type_allowed (Endpoint.content_type file) = true
  /\ storage'
     = <[file_id := Endpoint.StoredFile (Endpoint.content file)
                      (Endpoint.original_filename_of
                         (Endpoint.filename file))]> file_storage
  /\ Endpoint.upload_try file_id (Endpoint.content file)
       (Endpoint.original_filename_of (Endpoint.filename file)) reply now
     = Some response.
Proof.
  unfold Endpoint.upload_image.
  destruct (Endpoint.type_allowed _); cbn [negb]; [|discriminate].
  destruct (Endpoint.upload_try _ _ _ _ _); [|discriminate].
  intros Hup. by simplify_eq.
Qed.

Lemma analysis_of_decoded (text s name today : list N)
    (metadata : gmap string pyobj) :
  Analysis.json_str_of text = Some s ->
  json_loads s = Loads metadata ->
  Analysis.analyze_image_with_claude (Some text) name today = Some metadata.
Proof.
  intros Hs Hl. unfold Analysis.analyze_image_with_claude. cbn.
  unfold Analysis.parse_response. by rewrite Hs, Hl.
Qed.

Lemma analysis_of_fallback (text name today : list N) :
  Analysis.json_str_of text = None
  \/ (exists s, Analysis.json_str_of text = Some s
                /\ json_loads s = JSONDecodeError) ->
  Analysis.analyze_image_with_claude (Some text) name today
  = Some (Analysis.fallback name today).
Proof.
  unfold Analysis.analyze_image_with_claude. cbn.
  unfold Analysis.parse_response.
  intros [-> | (s & -> & ->)]; done.
Qed.

(** X19. What [upload_image] does to the storage. Entries under other
    ids are never touched. A response means that the type was accepted
    and that the upload is stored under its id, with the content and
    the name of the file; a refusal (400) leaves the storage as it was;
    after a failure (500) there is no entry under the id, not even one
    that an earlier upload had left there. *)
Theorem upload_image_storage
    (file_storage : gmap (list N) Endpoint.stored_file)
    (file : Endpoint.upload_file) (file_id : list N)
    (reply : option (list N)) (now : Endpoint.clock) :
  let out := fst (Endpoint.upload_image file_storage file file_id reply now) in
  let storage' :=
    snd (Endpoint.upload_image file_storage file file_id reply now) in
  (forall other, other <> file_id ->
     storage' !! other = file_storage !! other)
  /\ match out with
     | Endpoint.Reply _ =>
         Endpoint.type_allowed (Endpoint.content_type file) = true
         /\ storage' !! file_id
            = Some (Endpoint.StoredFile (Endpoint.content file)
                      (Endpoint.original_filename_of
                         (Endpoint.filename file)))
     | Endpoint.HTTPException status_code =>
         (status_code = 400%Z
          /\ Endpoint.type_allowed (Endpoint.content_type file) = false
          /\ storage' = file_storage)
         \/ (status_code = 500%Z
             /\ Endpoint.type_allowed (Endpoint.content_type file) = true
             /\ storage' !! file_id = None)
     end.
Proof.
  unfold Endpoint.upload_image.
  destruct (Endpoint.type_allowed _); cbn [negb].
  - destruct (Endpoint.upload_try _ _ _ _ _); cbn [fst snd].
    + split.
      * intros other Hne. by rewrite lookup_insert_ne.
      * split; [done|]. apply lookup_insert_eq.
    + split.
      * intros other Hne. rewrite lookup_delete_ne by done.
        by rewrite lookup_insert_ne.
      * right. split; [done|]. split; [done|]. apply lookup_delete_eq.
  - cbn [fst snd]. split; [done|]. left. by split.
Qed.


(** X21. After an upload that failed (500) the id is unknown to
    [save_metadata]: the storage is the old one without the id, and
    saving under it is a 404, also when the id had been in use. *)
Theorem failed_upload_is_forgotten
    (file_storage storage' : gmap (list N) Endpoint.stored_file)
    (file : Endpoint.upload_file) (file_id : list N)
    (reply : option (list N)) (now : Endpoint.clock)
    (metadata : gmap string (list N)) :
  Endpoint.upload_image file_storage file file_id reply now
    = (Endpoint.HTTPException 500, storage') ->
  storage' = delete file_id file_storage
  /\ Endpoint.save_metadata storage' file_id metadata
     = Endpoint.HTTPException 404.
Proof.
  unfold Endpoint.upload_image.
  destruct (Endpoint.type_allowed _); cbn [negb]; [|discriminate].
  destruct (Endpoint.upload_try _ _ _ _ _); [discriminate|].
  intros Hup. simplify_eq. rewrite delete_insert_eq. split; [done|].
  unfold Endpoint.save_metadata. by rewrite lookup_delete_eq.
Qed.

(** X22. When the reply decodes to a record whose [create_date] is a
    string, the response carries that date, and the year of its
    copyright line is the first four characters of it; the clock is not
    consulted. *)
Theorem upload_year_follows_create_date
    (file_storage storage' : gmap (list N) Endpoint.stored_file)
    (file : Endpoint.upload_file) (file_id text s date : list N)
    (now : Endpoint.clock) (metadata response : gmap string pyobj) :
  Analysis.json_str_of text = Some s ->
  json_loads s = Loads metadata ->
  metadata !! "create_date" = Some (PStr date) ->
  Endpoint.upload_image file_storage file file_id (Some text) now
    = (Endpoint.Reply response, storage') ->
  exists body,
    response !! "metadata" = Some (PDict body)
    /\ body !! "create_date" = Some (PStr date)
    /\ body !! "copyright"
       = Some (PStr (lit "Copyright " ++ take 4 date ++ lit " GroundSwell")).
Proof.
  intros Hs Hl Hdate (_ & _ & Htry)%upload_image_reply_inv.
  apply upload_try_inv in Htry as (md & year & Ha & Hy & -> & _).
  rewrite (analysis_of_decoded _ _ _ _ _ Hs Hl) in Ha. injection Ha as <-.
  unfold Endpoint.pyget in Hy. rewrite Hdate in Hy. cbn in Hy.
  injection Hy as <-.
  eexists. split; [|split].
  - unfold Endpoint.upload_content.
    rewrite !lookup_insert_ne by done. apply lookup_insert_eq.
  - unfold Endpoint.upload_metadata.
    rewrite !lookup_insert_ne by done. rewrite lookup_insert_eq.
    unfold Endpoint.pyget. by rewrite Hdate.
  - unfold Endpoint.upload_metadata.
    rewrite !lookup_insert_ne by done. by rewrite lookup_insert_eq.
Qed.

(** X23. When the reply decodes to a record whose [create_date] can not
    be sliced (a number, [null], a boolean, an object), the upload
    fails with 500 and is not kept. *)
Theorem unsliceable_create_date_is_an_error
    (file_storage : gmap (list N) Endpoint.stored_file)
    (file : Endpoint.upload_file) (file_id text s : list N)
    (now : Endpoint.clock) (metadata : gmap string pyobj) (v : pyobj) :
  Endpoint.type_allowed (Endpoint.content_type file) = true ->
  Analysis.json_str_of text = Some s ->
  json_loads s = Loads metadata ->
  metadata !! "create_date" = Some v ->
  Endpoint.first_four v = None ->
  Endpoint.upload_image file_storage file file_id (Some text) now
  = (Endpoint.HTTPException 500, delete file_id file_storage).
Proof.
  intros Ht Hs Hl Hdate Hv. unfold Endpoint.upload_image.
  rewrite Ht. cbn [negb]. unfold Endpoint.upload_try.
  rewrite (analysis_of_decoded _ _ _ _ _ Hs Hl). cbn [mbind option_bind].
  replace (Endpoint.pyget metadata "create_date"
             (PStr (Endpoint.at_year now))) with v
    by (unfold Endpoint.pyget; by rewrite Hdate).
  rewrite Hv. cbn [mbind option_bind]. by rewrite delete_insert_eq.
Qed.

(** X24. When the reply has no text to decode, or a text that
    [json.loads] rejects with [JSONDecodeError], the record is built
    from the file name: the response has the title made of the stem, the
    category [General] and, as date and copyright year, the reading of
    the clock in the fallback (not the later ones). The upload is then
    answered whenever the response can be rendered. *)
Theorem upload_falls_back_to_the_file_name
    (file_storage : gmap (list N) Endpoint.stored_file)
    (file : Endpoint.upload_file) (file_id text : list N)
    (now : Endpoint.clock) :
  let name := Endpoint.original_filename_of (Endpoint.filename file) in
  let today := Endpoint.at_fallback now in
  let body :=
    Endpoint.upload_metadata (Analysis.fallback name today)
      (PStr (take 4 today)) (Endpoint.at_field now) in
  Endpoint.type_allowed (Endpoint.content_type file) = true ->
  Analysis.json_str_of text = None
  \/ (exists s, Analysis.json_str_of text = Some s
                /\ json_loads s = JSONDecodeError) ->
  json_response (PDict (Endpoint.upload_content file_id body)) = true ->
  Endpoint.upload_image file_storage file file_id (Some text) now
  = (Endpoint.Reply (Endpoint.upload_content file_id body),
     <[file_id := Endpoint.StoredFile (Endpoint.content file) name]>
       file_storage)
  /\ body !! "title"
     = Some (PStr (str_title
                     (Text.replace_char 95 32
                        (Text.replace_char 45 32 (path_stem name)))))
  /\ body !! "supplemental_category" = Some (PStr (lit "General"))
  /\ body !! "create_date" = Some (PStr today)
  /\ body !! "copyright"
     = Some (PStr (lit "Copyright " ++ take 4 today ++ lit " GroundSwell")).
Proof.
  intros name today body Ht Hfall Hr. split.
  - unfold Endpoint.upload_image. rewrite Ht. cbn [negb].
    fold name. unfold Endpoint.upload_try.
    rewrite (analysis_of_fallback _ _ _ Hfall). cbn [mbind option_bind].
    fold today.
    replace (Endpoint.pyget (Analysis.fallback name today) "create_date"
               (PStr (Endpoint.at_year now))) with (PStr today).
    2:{ unfold Endpoint.pyget, Analysis.fallback.
        rewrite !lookup_insert_ne by done. by rewrite lookup_insert_eq. }
    cbn [Endpoint.first_four mbind option_bind]. fold body. by rewrite Hr.
  - unfold body, Endpoint.upload_metadata, Endpoint.pyget, Analysis.fallback.
    by repeat split.
Qed.



End Endpoints.

Lemma json_str_of_slice_witness :
  Analysis.json_str_of dated_reply = Some (lit "{`create_date`: `2024-05-06`}").
Proof.
  apply json_str_of_slice.
  exists (lit "Here it is: "), (lit "`create_date`: `2024-05-06`"),
    (lit " Done.").
  split; [reflexivity|].
  split; [by apply (bool_decide_unpack _); vm_compute|].
  split; [by apply (bool_decide_unpack _); vm_compute|].
  reflexivity.
Defined.

Lemma json_str_of_none_witness :
  Analysis.json_str_of (lit "} {") = None.
Proof.
  apply json_str_of_none. intros i j Hi Hj.
  destruct i as [|[|[|i]]]; try discriminate Hi.
  destruct j as [|[|[|j]]]; try discriminate Hj.
  lia.
Defined.

Lemma upload_image_storage_witness :
  snd (Endpoint.upload_image (SV := Stub.services) one_gif png_upload
         (lit "0a0a0a0a") None midnight) !! lit "1b2c3d4e"
  = one_gif !! lit "1b2c3d4e".
Proof.
  refine (proj1 (upload_image_storage (SV := Stub.services) one_gif
                   png_upload (lit "0a0a0a0a") None midnight)
            (lit "1b2c3d4e") _).
  discriminate.
Defined.


Lemma failed_upload_is_forgotten_witness :
  Endpoint.save_metadata (RT := Double.runtime) (IM := Double.imaging) (SV := Stub.services)
    (delete (lit "1b2c3d4e") one_gif) (lit "1b2c3d4e") ∅
  = Endpoint.HTTPException 404.
Proof.
  assert (Hup : Endpoint.upload_image (SV := Stub.services) one_gif
                  png_upload (lit "1b2c3d4e") None midnight
                = (Endpoint.HTTPException 500,
                   delete (lit "1b2c3d4e") one_gif))
    by (vm_compute; reflexivity).
  apply (failed_upload_is_forgotten (RT := Double.runtime)
           (IM := Double.imaging)
           _ _ _ _ _ _ ∅ Hup).
Defined.

Lemma upload_year_follows_create_date_witness :
  exists body,
    dated_response !! "metadata" = Some (PDict body)
    /\ body !! "create_date" = Some (PStr (lit "2024-05-06"))
    /\ body !! "copyright"
       = Some (PStr (lit "Copyright " ++ take 4 (lit "2024-05-06")
                       ++ lit " GroundSwell")).
Proof.
  assert (Hs : Analysis.json_str_of dated_reply
               = Some (lit "{`create_date`: `2024-05-06`}"))
    by (vm_compute; reflexivity).
  assert (Hl : json_loads (Services := Stub.services)
                 (lit "{`create_date`: `2024-05-06`}")
               = Loads {["create_date" := PStr (lit "2024-05-06")]})
    by (vm_compute; reflexivity).
  assert (Hdate : ({["create_date" := PStr (lit "2024-05-06")]}
                     : gmap string pyobj) !! "create_date"
                  = Some (PStr (lit "2024-05-06")))
    by reflexivity.
  assert (Hup : Endpoint.upload_image (SV := Stub.services) ∅ png_upload
                  (lit "1b2c3d4e") (Some dated_reply) midnight
                = (Endpoint.Reply dated_response, one_upload))
    by (vm_compute; reflexivity).
  exact (upload_year_follows_create_date (SV := Stub.services)
           _ _ _ _ _ _ _ _ _ _ Hs Hl Hdate Hup).
Defined.

Lemma unsliceable_create_date_is_an_error_witness :
  Endpoint.upload_image (SV := Stub.services) one_gif png_upload
    (lit "1b2c3d4e") (Some numbered_reply) midnight
  = (Endpoint.HTTPException 500, delete (lit "1b2c3d4e") one_gif).
Proof.
  assert (Hs : Analysis.json_str_of numbered_reply = Some numbered_reply)
    by (vm_compute; reflexivity).
  assert (Hl : json_loads (Services := Stub.services) numbered_reply
               = Loads {["create_date" := PInt 2024]})
    by (vm_compute; reflexivity).
  assert (Hdate : ({["create_date" := PInt 2024]} : gmap string pyobj)
                    !! "create_date" = Some (PInt 2024))
    by reflexivity.
  exact (unsliceable_create_date_is_an_error (SV := Stub.services)
           one_gif png_upload (lit "1b2c3d4e") _ _ midnight _ _
           eq_refl Hs Hl Hdate eq_refl).
Defined.

Lemma upload_falls_back_to_the_file_name_witness :
  Endpoint.upload_image (SV := Stub.services) ∅ png_upload
    (lit "1b2c3d4e") (Some (lit "no record")) midnight
  = (Endpoint.Reply
       (Endpoint.upload_content (lit "1b2c3d4e")
          (Endpoint.upload_metadata (SV := Stub.services)
             (Analysis.fallback (SV := Stub.services) (lit "image.jpg")
                (lit "2024-12-31"))
             (PStr (lit "2024")) (lit "2025-01-01"))),
     <[lit "1b2c3d4e" :=
         Endpoint.StoredFile Double.tiny_png (lit "image.jpg")]> ∅).
Proof.
  refine (proj1 (upload_falls_back_to_the_file_name (SV := Stub.services)
                   ∅ png_upload (lit "1b2c3d4e") (lit "no record") midnight
                   _ _ _)).
  - reflexivity.
  - left. reflexivity.
  - reflexivity.
Defined.


